(** * Reservation engine of the clinic scheduling agent

    A shallow embedding of [database.py]: the four entry points
    [search_specialty_availability], [create_appointment],
    [cancel_appointment] and [get_appointment_by_id], with their private
    helpers, written as programs over the statements they send to the
    PostgreSQL connection.  The statements are given a semantics over
    five tables of rows, a per-connection list of pending writes and the
    two id sequences; a call is run either alone, or interleaved with
    other calls statement by statement. *)

From Stdlib Require Import ZArith List String Ascii Bool Lia.
From Stdlib Require Import Sorting.Sorted.
Import ListNotations.

Local Open Scope string_scope.
Local Open Scope list_scope.
Local Open Scope Z_scope.

(** ** Text: Python [str] methods and SQL text functions *)

Module Text.

Definition code (c : ascii) : nat := nat_of_ascii c.

Definition backslash : ascii := ascii_of_nat 92.

Definition is_upper (c : ascii) : bool :=
  (Nat.leb 65 (code c) && Nat.leb (code c) 90)%bool.

Definition is_lower (c : ascii) : bool :=
  (Nat.leb 97 (code c) && Nat.leb (code c) 122)%bool.

Definition to_upper (c : ascii) : ascii :=
  if is_lower c then ascii_of_nat (code c - 32) else c.

Definition to_lower (c : ascii) : ascii :=
  if is_upper c then ascii_of_nat (code c + 32) else c.

Fixpoint map (f : ascii -> ascii) (s : string) : string :=
  match s with
  | EmptyString => EmptyString
  | String c s' => String (f c) (map f s')
  end.

(** [str.upper()] and SQL [LOWER], on the ASCII letters. *)
Definition upper : string -> string := map to_upper.
Definition lower : string -> string := map to_lower.

(** The characters [str.strip()] removes: tab, line feed, vertical tab,
    form feed, carriage return, the four separators 28..31 and space. *)
Definition py_space (c : ascii) : bool :=
  let n := code c in
  ((Nat.leb 9 n && Nat.leb n 13) || (Nat.leb 28 n && Nat.leb n 32))%bool.

(** SQL [TRIM(x)] removes spaces only. *)
Definition sql_space (c : ascii) : bool := Nat.eqb (code c) 32.

Fixpoint lstrip (sp : ascii -> bool) (s : string) : string :=
  match s with
  | EmptyString => EmptyString
  | String c s' => if sp c then lstrip sp s' else s
  end.

Fixpoint rstrip (sp : ascii -> bool) (s : string) : string :=
  match s with
  | EmptyString => EmptyString
  | String c s' =>
      match rstrip sp s' with
      | EmptyString => if sp c then EmptyString else String c EmptyString
      | r => String c r
      end
  end.

Definition strip : string -> string :=
  fun s => rstrip py_space (lstrip py_space s).

Definition trim : string -> string :=
  fun s => rstrip sql_space (lstrip sql_space s).

(** [t] occurs in [s] as a contiguous run of characters. *)
Definition occurs_in (t s : string) : Prop :=
  exists pre post, s = (pre ++ t ++ post)%string.

Fixpoint starts_with (t s : string) : bool :=
  match t, s with
  | EmptyString, _ => true
  | String c t', String d s' => (Ascii.eqb c d && starts_with t' s')%bool
  | String _ _, EmptyString => false
  end.

(** Deciding [occurs_in]. *)
Fixpoint occursb (t s : string) : bool :=
  (starts_with t s
   || match s with
      | String _ s' => occursb t s'
      | EmptyString => false
      end)%bool.

(** *** SQL [LIKE] with the default escape character *)

Inductive like_token : Type :=
| LAny                    (* %  : any run of characters *)
| LOne                    (* _  : any one character *)
| LChar (c : ascii).      (* a character standing for itself *)

(** A backslash makes the next character literal; a pattern that ends in
    a lone backslash is refused by the server. *)
Fixpoint like_tokens (p : string) : option (list like_token) :=
  match p with
  | EmptyString => Some []
  | String c rest =>
      if Ascii.eqb c backslash then
        match rest with
        | EmptyString => None
        | String d rest' => option_map (cons (LChar d)) (like_tokens rest')
        end
      else if Ascii.eqb c "%" then option_map (cons LAny) (like_tokens rest)
      else if Ascii.eqb c "_" then option_map (cons LOne) (like_tokens rest)
      else option_map (cons (LChar c)) (like_tokens rest)
  end.

Fixpoint like_match (ts : list like_token) (s : string) : bool :=
  match ts with
  | [] => match s with EmptyString => true | _ => false end
  | LChar c :: ts' =>
      match s with
      | String d s' => (Ascii.eqb c d && like_match ts' s')%bool
      | EmptyString => false
      end
  | LOne :: ts' =>
      match s with
      | String _ s' => like_match ts' s'
      | EmptyString => false
      end
  | LAny :: ts' =>
      (fix skip (s : string) : bool :=
         (like_match ts' s
          || match s with
             | String _ s' => skip s'
             | EmptyString => false
             end)%bool) s
  end.

(** [s LIKE p]: [None] when the server rejects the pattern. *)
Definition like (s p : string) : option bool :=
  option_map (fun ts => like_match ts s) (like_tokens p).

(** The pattern that stands for the text [t] itself. *)
Fixpoint literal (t : string) : list like_token :=
  match t with
  | EmptyString => []
  | String c t' => LChar c :: literal t'
  end.

(** No character of [s] has a special meaning in a [LIKE] pattern. *)
Fixpoint plain (s : string) : bool :=
  match s with
  | EmptyString => true
  | String c s' =>
      (negb (Ascii.eqb c backslash) && negb (Ascii.eqb c "%")
       && negb (Ascii.eqb c "_") && plain s')%bool
  end.

End Text.

(** ** Python values held by the arguments *)

(** [patient_data] is a dict whose values are [str] or [None]. *)
Inductive pyval : Type :=
| PNone
| PStr (s : string).

Definition truthy (v : pyval) : bool :=
  match v with
  | PNone => false
  | PStr s => negb (String.eqb s "")
  end.

(** [str(v)], as it appears in the f-string of the placeholder address. *)
Definition py_str (v : pyval) : string :=
  match v with
  | PNone => "None"
  | PStr s => s
  end.

Definition dict : Type := list (string * pyval).

Fixpoint dict_lookup (d : dict) (k : string) : option pyval :=
  match d with
  | [] => None
  | (k', v) :: d' => if String.eqb k k' then Some v else dict_lookup d' k
  end.

(** [d.get(k)] and [d.get(k, default)]. *)
Definition dict_get (d : dict) (k : string) : pyval :=
  match dict_lookup d k with Some v => v | None => PNone end.

Definition dict_get_default (d : dict) (k : string) (default : pyval) : pyval :=
  match dict_lookup d k with Some v => v | None => default end.

(** ** The tables *)

(** The two enumerated column types named in the casts
    [%s::insurancetype] and [%s::appointmentstatus]. *)
Inductive insurancetype : Type := PARTICULAR | HEALTH_PLAN.
Inductive appointmentstatus : Type := CONFIRMED | CANCELLED.

Definition cast_insurancetype (s : string) : option insurancetype :=
  if String.eqb s "PARTICULAR" then Some PARTICULAR
  else if String.eqb s "HEALTH_PLAN" then Some HEALTH_PLAN
  else None.

Definition cast_appointmentstatus (s : string) : option appointmentstatus :=
  if String.eqb s "CONFIRMED" then Some CONFIRMED
  else if String.eqb s "CANCELLED" then Some CANCELLED
  else None.

Definition status_eqb (a b : appointmentstatus) : bool :=
  match a, b with
  | CONFIRMED, CONFIRMED | CANCELLED, CANCELLED => true
  | _, _ => false
  end.

(** Calendar dates count days, times of day count seconds, instants are
    opaque ticks of the server clock; clinic ids are text (UUIDs), the
    other ids are BIGINT.  A nullable text column holds a [pyval]. *)
Record clinic : Type := mk_clinic {
  c_id : string;
  c_legal_name : string;
  c_address : string;
  c_city : string;
  c_state : string;
  c_phone : string }.

Record doctor : Type := mk_doctor {
  d_id : Z;
  d_name : string;
  d_specialty : string;
  d_consultation_price : Z;
  d_clinic_id : string }.

Record slot : Type := mk_slot {
  s_id : Z;
  s_doctor_id : Z;
  s_clinic_id : string;
  s_date : Z;
  s_time : Z;
  s_is_available : bool }.

Record patient : Type := mk_patient {
  p_id : Z;
  p_name : pyval;
  p_cpf : pyval;
  p_date_of_birth : pyval;
  p_email : string;
  p_phone : string;
  p_insurance_type : insurancetype }.

Record appointment : Type := mk_appointment {
  a_id : Z;
  a_patient_id : Z;
  a_doctor_id : Z;
  a_clinic_id : pyval;
  a_slot_id : Z;
  a_appointment_datetime : option (Z * Z);
  a_insurance_type : insurancetype;
  a_insurance_plan_id : option Z;
  a_status : appointmentstatus;
  a_created_at : Z;
  a_confirmed_at : option Z;
  a_cancelled_at : option Z;
  a_cancellation_reason : pyval }.

Record tables : Type := mk_tables {
  clinics : list clinic;
  doctors : list doctor;
  available_slots : list slot;
  patients : list patient;
  appointments : list appointment }.

(** The committed rows together with the sequences behind the two
    [RETURNING id] columns.  A sequence is advanced by every insert and is
    not wound back when the transaction is. *)
Record store : Type := mk_store {
  rows : tables;
  patients_id_seq : Z;
  appointments_id_seq : Z }.

(** What a connection has written and not yet committed. *)
Inductive write : Type :=
| WPatient (p : patient)
| WAppointment (a : appointment)
| WAvailable (slot_id : Z) (b : bool)
| WCancelled (appointment_id : Z) (status : appointmentstatus)
    (at_time : Z) (reason : pyval).

Definition set_available (slot_id : Z) (b : bool) (s : slot) : slot :=
  if Z.eqb (s_id s) slot_id
  then mk_slot (s_id s) (s_doctor_id s) (s_clinic_id s) (s_date s) (s_time s) b
  else s.

Definition set_cancelled (appointment_id : Z) (status : appointmentstatus)
    (at_time : Z) (reason : pyval) (a : appointment) : appointment :=
  if Z.eqb (a_id a) appointment_id
  then mk_appointment (a_id a) (a_patient_id a) (a_doctor_id a)
         (a_clinic_id a) (a_slot_id a) (a_appointment_datetime a)
         (a_insurance_type a) (a_insurance_plan_id a)
         status (a_created_at a) (a_confirmed_at a) (Some at_time) reason
  else a.

Definition apply_write (t : tables) (w : write) : tables :=
  match w with
  | WPatient p =>
      mk_tables (clinics t) (doctors t) (available_slots t)
        (patients t ++ [p]) (appointments t)
  | WAppointment a =>
      mk_tables (clinics t) (doctors t) (available_slots t)
        (patients t) (appointments t ++ [a])
  | WAvailable slot_id b =>
      mk_tables (clinics t) (doctors t)
        (List.map (set_available slot_id b) (available_slots t))
        (patients t) (appointments t)
  | WCancelled appointment_id status at_time reason =>
      mk_tables (clinics t) (doctors t) (available_slots t) (patients t)
        (List.map (set_cancelled appointment_id status at_time reason)
           (appointments t))
  end.

(** The rows a connection sees: the committed ones under its own pending
    writes, oldest first. *)
Definition view (t : tables) (pending : list write) : tables :=
  fold_left apply_write pending t.

Definition find_slot (t : tables) (slot_id : Z) : option slot :=
  find (fun s => Z.eqb (s_id s) slot_id) (available_slots t).

Definition find_appointment (t : tables) (appointment_id : Z)
  : option appointment :=
  find (fun a => Z.eqb (a_id a) appointment_id) (appointments t).

(** [cpf = %s] is never true of a NULL on either side. *)
Definition cpf_matches (cpf : pyval) (p : patient) : bool :=
  match cpf, p_cpf p with
  | PStr x, PStr y => String.eqb x y
  | _, _ => false
  end.

Definition find_patient (t : tables) (cpf : pyval) : option patient :=
  find (cpf_matches cpf) (patients t).

(** ** Rows returned by the two read queries *)

(** The select list of the availability query. *)
Record availability_row : Type := mk_availability_row {
  r_clinic_id : string;
  r_clinic_name : string;
  r_clinic_address : string;
  r_city : string;
  r_state : string;
  r_clinic_phone : string;
  r_doctor_id : Z;
  r_doctor_name : string;
  r_specialty : string;
  r_slot_id : Z;
  r_appointment_date : Z;
  r_appointment_time : Z;
  r_is_available : bool }.

Definition availability_of (c : clinic) (d : doctor) (a : slot)
  : availability_row :=
  mk_availability_row (c_id c) (c_legal_name c) (c_address c) (c_city c)
    (c_state c) (c_phone c) (d_id d) (d_name d) (d_specialty d)
    (s_id a) (s_date a) (s_time a) (s_is_available a).

(** [clinics c JOIN doctors d ON c.id = d.clinic_id
     JOIN available_slots a ON d.id = a.doctor_id AND c.id = a.clinic_id]. *)
Definition availability_join (t : tables) : list (clinic * doctor * slot) :=
  flat_map (fun c =>
    flat_map (fun d =>
      if String.eqb (c_id c) (d_clinic_id d) then
        flat_map (fun a =>
          if (Z.eqb (d_id d) (s_doctor_id a)
              && String.eqb (c_id c) (s_clinic_id a))%bool
          then [(c, d, a)] else [])
          (available_slots t)
      else [])
      (doctors t))
    (clinics t).

(** The [WHERE] clause, for a pattern already read as tokens. *)
Definition availability_where (ts : list Text.like_token) (today : Z)
    (x : clinic * doctor * slot) : bool :=
  let '(_, d, a) := x in
  (Text.like_match ts (Text.lower (Text.trim (d_specialty d)))
   && s_is_available a
   && Z.leb today (s_date a))%bool.

(** [ORDER BY a.date ASC, a.time ASC]. *)
Definition slot_leb (a b : slot) : bool :=
  (Z.ltb (s_date a) (s_date b)
   || (Z.eqb (s_date a) (s_date b) && Z.leb (s_time a) (s_time b)))%bool.

Definition by_slot (x y : clinic * doctor * slot) : bool :=
  slot_leb (snd x) (snd y).

Fixpoint insert_sorted {A : Type} (leb : A -> A -> bool) (x : A)
    (l : list A) : list A :=
  match l with
  | [] => [x]
  | y :: l' => if leb x y then x :: l else y :: insert_sorted leb x l'
  end.

Definition order_by {A : Type} (leb : A -> A -> bool) (l : list A) : list A :=
  fold_right (insert_sorted leb) [] l.

Definition page_size : nat := 20.

Definition select_availability (t : tables) (today : Z) (pattern : string)
  : option (list availability_row) :=
  match Text.like_tokens (Text.lower (Text.trim pattern)) with
  | None => None
  | Some ts =>
      Some (List.map (fun '(c, d, a) => availability_of c d a)
              (firstn page_size
                 (order_by by_slot
                    (filter (availability_where ts today)
                       (availability_join t)))))
  end.

(** The select list of the appointment query; [K] is the type of the
    clinic id, text as stored and an integer once converted. *)
Record details (K : Type) : Type := mk_details {
  dt_id : Z;
  dt_patient_id : Z;
  dt_doctor_id : Z;
  dt_clinic_id : K;
  dt_slot_id : Z;
  dt_status : appointmentstatus;
  dt_appointment_datetime : option (Z * Z);
  dt_patient_name : pyval;
  dt_patient_cpf : pyval;
  dt_patient_email : string;
  dt_patient_phone : string;
  dt_doctor_name : string;
  dt_specialty : string;
  dt_consultation_price : Z;
  dt_clinic_name : string;
  dt_clinic_phone : string;
  dt_clinic_address : string;
  dt_clinic_city : string;
  dt_insurance_type : insurancetype;
  dt_insurance_plan_id : option Z;
  dt_created_at : Z;
  dt_confirmed_at : option Z;
  dt_cancelled_at : option Z;
  dt_cancellation_reason : pyval }.

Arguments mk_details {K}.

Definition details_of (a : appointment) (p : patient) (d : doctor)
    (c : clinic) : details string :=
  mk_details (a_id a) (a_patient_id a) (a_doctor_id a) (c_id c) (a_slot_id a)
    (a_status a) (a_appointment_datetime a) (p_name p) (p_cpf p) (p_email p)
    (p_phone p) (d_name d) (d_specialty d) (d_consultation_price d)
    (c_legal_name c) (c_phone c) (c_address c) (c_city c)
    (a_insurance_type a) (a_insurance_plan_id a) (a_created_at a)
    (a_confirmed_at a) (a_cancelled_at a) (a_cancellation_reason a).

Definition clinic_id_matches (v : pyval) (c : clinic) : bool :=
  match v with
  | PStr s => String.eqb s (c_id c)
  | PNone => false
  end.

(** [appointments a JOIN patients p ... JOIN doctors d ... JOIN clinics c
     ... WHERE a.id = %s], of which [fetchone] takes the first row. *)
Definition select_details (t : tables) (appointment_id : Z)
  : option (details string) :=
  hd_error
    (flat_map (fun a =>
       flat_map (fun p =>
         flat_map (fun d =>
           List.map (fun c => details_of a p d c)
             (filter (clinic_id_matches (a_clinic_id a)) (clinics t)))
           (filter (fun d => Z.eqb (a_doctor_id a) (d_id d)) (doctors t)))
         (filter (fun p => Z.eqb (a_patient_id a) (p_id p)) (patients t)))
       (filter (fun a => Z.eqb (a_id a) appointment_id) (appointments t))).

(** ** Statements and their effect on a connection *)

Inductive exn : Type :=
| DatabaseError     (* raised by the driver: connection, constraint, cast *)
| ValueError.       (* raised by [int()] on text that is not a number *)

(** What the code asks of a connection and its cursor; the index is the
    type of the answer.  The [Select...] and [Insert...] constructors are
    the query strings of the source with their parameters. *)
Inductive db_op : Type -> Type :=
| Connect : db_op unit
| Commit : db_op unit
| Rollback : db_op unit
| Close : db_op unit
| SelectPatientId (cpf : pyval) : db_op (option Z)
| InsertPatient (name cpf date_of_birth : pyval)
    (email phone insurance_type : string) : db_op Z
| SelectIsAvailable (slot_id : Z) : db_op (option bool)
| InsertAppointment (patient_id doctor_id : Z) (clinic_id : pyval)
    (slot_id : Z) (insurance_type : string) (insurance_plan_id : option Z)
    (status : string) : db_op Z
| UpdateIsAvailable (b : bool) (slot_id : Z) : db_op unit
| SelectSlotId (appointment_id : Z) : db_op (option Z)
| UpdateStatus (status : string) (cancellation_reason : pyval)
    (appointment_id : Z) : db_op unit
| SelectDetails (appointment_id : Z) : db_op (option (details string))
| SelectAvailability (pattern : string) : db_op (list availability_row).

(** [NOW()] and [CURRENT_DATE] as the server reads them during a call. *)
Record clock : Type := mk_clock {
  now : Z;
  today : Z }.

(** The state a statement acts on: the shared store and the pending
    writes of the connection that issues it. *)
Definition conn_state : Type := (store * list write)%type.

Definition with_rows (st : store) (t : tables) : store :=
  mk_store t (patients_id_seq st) (appointments_id_seq st).

Definition exec {R : Type} (ck : clock) (o : db_op R) (cs : conn_state)
  : (exn + R) * conn_state :=
  let '(st, pending) := cs in
  let seen := view (rows st) pending in
  match o in db_op R return (exn + R) * conn_state with
  | Connect => (inr tt, (st, []))
  | Commit => (inr tt, (with_rows st seen, []))
  | Rollback => (inr tt, (st, []))
  | Close => (inr tt, (st, []))
  | SelectPatientId cpf =>
      (inr (option_map p_id (find_patient seen cpf)), cs)
  | InsertPatient name cpf date_of_birth email phone insurance_type =>
      match cast_insurancetype insurance_type with
      | None => (inl DatabaseError, cs)
      | Some ins =>
          let id := patients_id_seq st in
          (inr id,
           (mk_store (rows st) (id + 1) (appointments_id_seq st),
            pending ++ [WPatient (mk_patient id name cpf date_of_birth
                                    email phone ins)]))
      end
  | SelectIsAvailable slot_id =>
      (inr (option_map s_is_available (find_slot seen slot_id)), cs)
  | InsertAppointment patient_id doctor_id clinic_id slot_id insurance_type
      insurance_plan_id status =>
      match cast_insurancetype insurance_type,
            cast_appointmentstatus status with
      | Some ins, Some stat =>
          let id := appointments_id_seq st in
          let datetime :=
            option_map (fun s => (s_date s, s_time s)) (find_slot seen slot_id) in
          (inr id,
           (mk_store (rows st) (patients_id_seq st) (id + 1),
            pending ++ [WAppointment (mk_appointment id patient_id doctor_id
                                        clinic_id slot_id datetime ins
                                        insurance_plan_id stat (now ck)
                                        None None PNone)]))
      | _, _ => (inl DatabaseError, cs)
      end
  | UpdateIsAvailable b slot_id =>
      (inr tt, (st, pending ++ [WAvailable slot_id b]))
  | SelectSlotId appointment_id =>
      (inr (option_map a_slot_id (find_appointment seen appointment_id)), cs)
  | UpdateStatus status cancellation_reason appointment_id =>
      match cast_appointmentstatus status with
      | None => (inl DatabaseError, cs)
      | Some stat =>
          (inr tt,
           (st, pending ++ [WCancelled appointment_id stat (now ck)
                              cancellation_reason]))
      end
  | SelectDetails appointment_id =>
      (inr (select_details seen appointment_id), cs)
  | SelectAvailability pattern =>
      match select_availability seen (today ck) pattern with
      | None => (inl DatabaseError, cs)
      | Some l => (inr l, cs)
      end
  end.

(** Where the storage layer fails of its own accord (connection lost,
    constraint violated, timeout): a plan says which requests are answered
    by an exception instead of being carried out.  Rolling back and closing
    are local to the connection and are taken to succeed. *)
Definition fault_plan : Type := forall R : Type, db_op R -> bool.

Definition no_fault : fault_plan := fun _ _ => false.

Definition can_fail {R : Type} (o : db_op R) : bool :=
  match o with
  | Rollback | Close => false
  | _ => true
  end.

Definition perform {R : Type} (faults : fault_plan) (ck : clock)
    (o : db_op R) (cs : conn_state) : (exn + R) * conn_state :=
  if (can_fail o && faults R o)%bool then (inl DatabaseError, cs)
  else exec ck o cs.

(** ** Programs *)

(** A call is a tree of requests: each node names a request and continues
    with its answer, which is an exception or a value. *)
Inductive prog (A : Type) : Type :=
| Ret (a : A)
| Do {R : Type} (o : db_op R) (k : exn + R -> prog A).

Arguments Ret {A} a.
Arguments Do {A R} o k.

Fixpoint bind {A B : Type} (p : prog A) (f : A -> prog B) : prog B :=
  match p with
  | Ret a => f a
  | Do o k => Do o (fun r => bind (k r) f)
  end.

(** Code that may raise. *)
Definition py (A : Type) : Type := prog (exn + A).

Definition ret {A : Type} (a : A) : py A := Ret (inr a).

Definition raise {A : Type} (e : exn) : py A := Ret (inl e).

Definition py_bind {A B : Type} (p : py A) (f : A -> py B) : py B :=
  bind p (fun r => match r with
                   | inl e => Ret (inl e)
                   | inr a => f a
                   end).

Definition execute {R : Type} (o : db_op R) : py R := Do o (fun r => Ret r).

(** [try: body / except Exception as e: handler]. *)
Definition try_except {A : Type} (body : py A) (handler : exn -> prog A)
  : prog A :=
  bind body (fun r => match r with
                      | inl e => handler e
                      | inr a => Ret a
                      end).

(** [finally: conn.close()]. *)
Definition finally_close {A : Type} (p : prog A) : prog A :=
  bind p (fun a => Do Close (fun _ => Ret a)).

Declare Scope py_scope.
Delimit Scope py_scope with py.
Notation "x <- p ;; q" := (py_bind p (fun x => q))
  (at level 61, p at next level, right associativity) : py_scope.
Notation "p ;; q" := (py_bind p (fun _ => q))
  (at level 61, right associativity) : py_scope.

(** Running a program on one connection, requests answered in turn. *)
Fixpoint run {A : Type} (faults : fault_plan) (ck : clock) (p : prog A)
    (cs : conn_state) : A * conn_state :=
  match p with
  | Ret a => (a, cs)
  | Do o k =>
      let '(r, cs') := perform faults ck o cs in
      run faults ck (k r) cs'
  end.

(** A whole call, on a connection of its own: the result and the store
    it leaves. *)
Definition call {A : Type} (faults : fault_plan) (ck : clock) (p : prog A)
    (st : store) : A * store :=
  let '(a, (st', _)) := run faults ck p (st, []) in (a, st').

(** ** The code of [database.py] *)

(** [x or default], for a text default. *)
Definition py_or (x : pyval) (default : string) : string :=
  if truthy x then py_str x else default.

Definition valid_types : list string := ["PARTICULAR"; "HEALTH_PLAN"].

Definition py_in (s : string) (l : list string) : bool :=
  existsb (String.eqb s) l.

(** The validation both [_get_or_create_patient] and [_insert_appointment]
    apply to their [insurance_type]. *)
Definition normalize_insurance_type (insurance_type : pyval) : string :=
  if truthy insurance_type then
    let t := Text.strip (Text.upper (py_str insurance_type)) in
    if py_in t valid_types then t else "PARTICULAR"
  else "PARTICULAR".

Definition placeholder_email (cpf : pyval) : string :=
  ("paciente_" ++ py_str cpf ++ "@clinica.com")%string.

Definition _get_or_create_patient (patient_data : dict) : py Z :=
  let cpf := dict_get patient_data "cpf" in
  (result <- execute (SelectPatientId cpf) ;;
   match result with
   | Some patient_id => ret patient_id
   | None =>
       let insurance_type :=
         normalize_insurance_type
           (dict_get_default patient_data "insurance_type"
              (PStr "PARTICULAR")) in
       let email := py_or (dict_get patient_data "email")
                      (placeholder_email cpf) in
       let phone := py_or (dict_get patient_data "phone") "" in
       let date_of_birth := dict_get patient_data "date_of_birth" in
       execute (InsertPatient (dict_get patient_data "name") cpf
                  date_of_birth email phone insurance_type)
   end)%py.

(** [result and result['is_available']]: [None] when there is no row. *)
Definition _check_slot_available (slot_id : Z) : py (option bool) :=
  execute (SelectIsAvailable slot_id).

Definition _insert_appointment (patient_id doctor_id : Z) (clinic_id : pyval)
    (slot_id : Z) (insurance_type : pyval) (insurance_plan_id : option Z)
  : py Z :=
  let status := "CONFIRMED" in
  let insurance_type := normalize_insurance_type insurance_type in
  execute (InsertAppointment patient_id doctor_id clinic_id slot_id
             insurance_type insurance_plan_id status).

Definition _block_slot (slot_id : Z) : py unit :=
  execute (UpdateIsAvailable false slot_id).

(** The dict [create_appointment] returns. *)
Inductive booking : Type :=
| Booked (appointment_id : Z)
    (* status success, the id, "Agendamento confirmado! ID: ..." *)
| SlotUnavailable
    (* status error, "Este horario nao esta mais disponivel." *)
| BookingFailed (e : exn).
    (* status error, "Erro ao agendar: ..." *)

Definition option_truthy (v : option bool) : bool :=
  match v with
  | Some b => b
  | None => false
  end.

Definition create_appointment (patient_data : dict) (doctor_id slot_id : Z)
    (clinic_id : pyval) (insurance_type : pyval)
    (insurance_plan_id : option Z) : prog booking :=
  Do Connect (fun conn =>
    match conn with
    | inl e => Ret (BookingFailed e)
    | inr _ =>
        finally_close
          (try_except
             (let clinic_id :=
                if truthy clinic_id
                then PStr (Text.strip (py_str clinic_id)) else PNone in
              patient_id <- _get_or_create_patient patient_data ;;
              slot_check <- _check_slot_available slot_id ;;
              if negb (option_truthy slot_check) then
                execute Rollback ;;
                ret SlotUnavailable
              else
                appointment_id <- _insert_appointment patient_id doctor_id
                                    clinic_id slot_id insurance_type
                                    insurance_plan_id ;;
                _block_slot slot_id ;;
                execute Commit ;;
                ret (Booked appointment_id))%py
             (fun e => Do Rollback (fun _ => Ret (BookingFailed e))))
    end).

(** The dict [cancel_appointment] returns. *)
Inductive cancellation : Type :=
| Cancelled               (* status success *)
| AppointmentNotFound     (* status error, "Agendamento nao encontrado" *)
| CancelFailed (e : exn). (* status error, "Erro ao cancelar: ..." *)

Definition cancel_appointment (appointment_id : Z)
    (cancellation_reason : pyval) : prog cancellation :=
  Do Connect (fun conn =>
    match conn with
    | inl e => Ret (CancelFailed e)
    | inr _ =>
        finally_close
          (try_except
             (result <- execute (SelectSlotId appointment_id) ;;
              match result with
              | None => ret AppointmentNotFound
              | Some slot_id =>
                  let status := "CANCELLED" in
                  execute (UpdateStatus status cancellation_reason
                             appointment_id) ;;
                  execute (UpdateIsAvailable true slot_id) ;;
                  execute Commit ;;
                  ret Cancelled
              end)%py
             (fun e => Do Rollback (fun _ => Ret (CancelFailed e))))
    end).

(** [int(s)] on text: surrounding white space, a sign, decimal digits,
    single underscores between digits. *)
Definition digit_of (c : ascii) : option Z :=
  let n := Text.code c in
  if (Nat.leb 48 n && Nat.leb n 57)%bool then Some (Z.of_nat n - 48) else None.

Fixpoint int_digits (acc : Z) (after_digit : bool) (s : string) : option Z :=
  match s with
  | EmptyString => if after_digit then Some acc else None
  | String c s' =>
      match digit_of c with
      | Some d => int_digits (10 * acc + d) true s'
      | None =>
          if (Ascii.eqb c "_" && after_digit)%bool
          then int_digits acc false s'
          else None
      end
  end.

Definition py_int (s : string) : exn + Z :=
  let parsed :=
    match Text.strip s with
    | String c s' =>
        if Ascii.eqb c "-" then option_map Z.opp (int_digits 0 false s')
        else if Ascii.eqb c "+" then int_digits 0 false s'
        else int_digits 0 false (String c s')
    | EmptyString => None
    end in
  match parsed with
  | Some n => inr n
  | None => inl ValueError
  end.

(** Every id of the fetched row goes through [int()]; only the clinic id
    is text. *)
Definition to_result_dict (result : details string) : py (details Z) :=
  match py_int (dt_clinic_id _ result) with
  | inl e => raise e
  | inr clinic_id =>
      ret (mk_details (dt_id _ result) (dt_patient_id _ result)
             (dt_doctor_id _ result) clinic_id (dt_slot_id _ result)
             (dt_status _ result) (dt_appointment_datetime _ result)
             (dt_patient_name _ result) (dt_patient_cpf _ result)
             (dt_patient_email _ result) (dt_patient_phone _ result)
             (dt_doctor_name _ result) (dt_specialty _ result)
             (dt_consultation_price _ result) (dt_clinic_name _ result)
             (dt_clinic_phone _ result) (dt_clinic_address _ result)
             (dt_clinic_city _ result) (dt_insurance_type _ result)
             (dt_insurance_plan_id _ result) (dt_created_at _ result)
             (dt_confirmed_at _ result) (dt_cancelled_at _ result)
             (dt_cancellation_reason _ result))
  end.

(** The [try] block of [get_appointment_by_id], once connected. *)
Definition get_appointment_by_id_body (appointment_id : Z)
  : py (option (details Z)) :=
  (result <- execute (SelectDetails appointment_id) ;;
   match result with
   | Some row =>
       result_dict <- to_result_dict row ;;
       ret (Some result_dict)
   | None => ret None
   end)%py.

(** [None] of the result is Python's [None]. *)
Definition get_appointment_by_id (appointment_id : Z)
  : prog (option (details Z)) :=
  Do Connect (fun conn =>
    match conn with
    | inl e => Ret None
    | inr _ =>
        finally_close
          (try_except (get_appointment_by_id_body appointment_id)
             (fun e => Ret None))
    end).

Definition search_specialty_availability (specialty : string)
  : prog (list availability_row) :=
  Do Connect (fun conn =>
    match conn with
    | inl e => Ret []
    | inr _ =>
        finally_close
          (try_except
             (results <- execute (SelectAvailability
                                    ("%" ++ specialty ++ "%")%string) ;;
              ret results)%py
             (fun e => Ret []))
    end).

(** ** Calls interleaved statement by statement *)

(** A call in progress on a connection of its own. *)
Record session (A : Type) : Type := mk_session {
  ss_clock : clock;
  ss_prog : prog A;
  ss_pending : list write }.

Arguments mk_session {A}.
Arguments ss_clock {A}.
Arguments ss_prog {A}.
Arguments ss_pending {A}.

Definition writes_slot (slot_id : Z) (w : write) : bool :=
  match w with
  | WAvailable id _ => Z.eqb id slot_id
  | _ => false
  end.

Definition writes_appointment (appointment_id : Z) (w : write) : bool :=
  match w with
  | WCancelled id _ _ _ => Z.eqb id appointment_id
  | _ => false
  end.

(** An [UPDATE] waits while another connection holds an uncommitted write
    to a row it targets. *)
Definition blocked {R : Type} (o : db_op R) (others : list (list write))
  : bool :=
  match o with
  | UpdateIsAvailable _ slot_id =>
      existsb (existsb (writes_slot slot_id)) others
  | UpdateStatus _ _ appointment_id =>
      existsb (existsb (writes_appointment appointment_id)) others
  | _ => false
  end.

Fixpoint replace_nth {A : Type} (i : nat) (x : A) (l : list A) : list A :=
  match l, i with
  | [], _ => []
  | _ :: l', O => x :: l'
  | y :: l', S i' => y :: replace_nth i' x l'
  end.

Fixpoint others_pending {A : Type} (i : nat) (l : list (session A))
  : list (list write) :=
  match l, i with
  | [], _ => []
  | _ :: l', O => List.map ss_pending l'
  | y :: l', S i' => ss_pending y :: others_pending i' l'
  end.

(** Session [i] sends its next statement.  The statement reads the
    committed rows under the session's own pending writes, as under READ
    COMMITTED, the isolation level of a connection that sets none. *)
Definition step {A : Type} (i : nat) (c : store * list (session A))
  : option (store * list (session A)) :=
  let '(st, l) := c in
  match nth_error l i with
  | None => None
  | Some s =>
      match ss_prog s with
      | Ret _ => None
      | Do o k =>
          if blocked o (others_pending i l) then None
          else
            let '(r, (st', pending')) := exec (ss_clock s) o (st, ss_pending s) in
            Some (st', replace_nth i (mk_session (ss_clock s) (k r) pending') l)
      end
  end.

Fixpoint interleave {A : Type} (schedule : list nat)
    (c : store * list (session A)) : option (store * list (session A)) :=
  match schedule with
  | [] => Some c
  | i :: schedule' =>
      match step i c with
      | None => None
      | Some c' => interleave schedule' c'
      end
  end.

Definition start {A : Type} (ck : clock) (p : prog A) : session A :=
  mk_session ck p [].

Definition finished {A : Type} (s : session A) : option A :=
  match ss_prog s with
  | Ret a => Some a
  | Do _ _ => None
  end.

(** ** The properties the claims speak of *)

Definition confirmed_on (slot_id : Z) (a : appointment) : bool :=
  (Z.eqb (a_slot_id a) slot_id && status_eqb (a_status a) CONFIRMED)%bool.

(** The CONFIRMED appointments that reference a slot. *)
Definition confirmed_for (t : tables) (slot_id : Z) : list appointment :=
  filter (confirmed_on slot_id) (appointments t).

(** Invariant I1: at most one CONFIRMED appointment per slot, and the slot
    is held exactly when there is one. *)
Definition I1 (t : tables) : Prop :=
  forall s, In s (available_slots t) ->
    (List.length (confirmed_for t (s_id s)) <= 1)%nat /\
    (s_is_available s = false <-> confirmed_for t (s_id s) <> []).

Definition all_free (t : tables) : Prop :=
  forall s, In s (available_slots t) ->
    s_is_available s = true /\ confirmed_for t (s_id s) = [].

(** Date ascending, then time ascending. *)
Definition row_le (r1 r2 : availability_row) : Prop :=
  r_appointment_date r1 < r_appointment_date r2 \/
  (r_appointment_date r1 = r_appointment_date r2 /\
   r_appointment_time r1 <= r_appointment_time r2).

Inductive request : Type :=
| Book (patient_data : dict) (doctor_id slot_id : Z)
    (clinic_id insurance_type : pyval) (insurance_plan_id : option Z)
| Cancel (appointment_id : Z) (cancellation_reason : pyval).

Definition serve (faults : fault_plan) (ck : clock) (q : request)
    (st : store) : store :=
  match q with
  | Book patient_data doctor_id slot_id clinic_id insurance_type
      insurance_plan_id =>
      snd (call faults ck
             (create_appointment patient_data doctor_id slot_id clinic_id
                insurance_type insurance_plan_id) st)
  | Cancel appointment_id cancellation_reason =>
      snd (call faults ck
             (cancel_appointment appointment_id cancellation_reason) st)
  end.

(** Requests served one after the other, each at its own time. *)
Definition serve_all (qs : list (clock * request)) (st : store) : store :=
  fold_left (fun st '(ck, q) => serve no_fault ck q st) qs st.

(** Appointment ids are distinct and below the next value of their
    sequence. *)
Definition fresh_ids (st : store) : Prop :=
  NoDup (List.map a_id (appointments (rows st))) /\
  forall a, In a (appointments (rows st)) -> a_id a < appointments_id_seq st.

(** What a cancellation finds is a CONFIRMED appointment or nothing. *)
Definition targets_confirmed (st : store) (q : request) : Prop :=
  match q with
  | Book _ _ _ _ _ _ => True
  | Cancel appointment_id _ =>
      match find_appointment (rows st) appointment_id with
      | Some a => a_status a = CONFIRMED
      | None => True
      end
  end.

Fixpoint cancels_confirmed (qs : list (clock * request)) (st : store)
  : Prop :=
  match qs with
  | [] => True
  | (ck, q) :: qs' =>
      targets_confirmed st q /\ cancels_confirmed qs' (serve no_fault ck q st)
  end.

Definition held_or_absent (t : tables) (slot_id : Z) : Prop :=
  match find_slot t slot_id with
  | None => True
  | Some s => s_is_available s = false
  end.

Definition claimable (t : tables) (slot_id : Z) : bool :=
  option_truthy (option_map s_is_available (find_slot t slot_id)).

Definition references (slot_id : Z) (a : appointment) : bool :=
  Z.eqb (a_slot_id a) slot_id.

Definition has_cpf (cpf : string) (p : patient) : bool :=
  cpf_matches (PStr cpf) p.

(** ** What a call writes, in closed form *)

Definition insurance_of (v : pyval) : insurancetype :=
  match cast_insurancetype (normalize_insurance_type v) with
  | Some i => i
  | None => PARTICULAR
  end.

(** The row [_get_or_create_patient] inserts under a given id. *)
Definition created_patient (id : Z) (patient_data : dict) : patient :=
  mk_patient id
    (dict_get patient_data "name")
    (dict_get patient_data "cpf")
    (dict_get patient_data "date_of_birth")
    (py_or (dict_get patient_data "email")
       (placeholder_email (dict_get patient_data "cpf")))
    (py_or (dict_get patient_data "phone") "")
    (insurance_of (dict_get_default patient_data "insurance_type"
                     (PStr "PARTICULAR"))).

(** The patient id a booking resolves to and the write it takes. *)
Definition resolve (st : store) (patient_data : dict) : Z * list write :=
  match find_patient (rows st) (dict_get patient_data "cpf") with
  | Some p => (p_id p, [])
  | None =>
      (patients_id_seq st,
       [WPatient (created_patient (patients_id_seq st) patient_data)])
  end.

Definition stripped_clinic_id (clinic_id : pyval) : pyval :=
  if truthy clinic_id then PStr (Text.strip (py_str clinic_id)) else PNone.

(** The row [_insert_appointment] inserts. *)
Definition created_appointment (ck : clock) (st : store)
    (patient_data : dict) (doctor_id slot_id : Z) (clinic_id : pyval)
    (insurance_type : pyval) (insurance_plan_id : option Z) : appointment :=
  mk_appointment (appointments_id_seq st) (fst (resolve st patient_data))
    doctor_id (stripped_clinic_id clinic_id) slot_id
    (option_map (fun s => (s_date s, s_time s)) (find_slot (rows st) slot_id))
    (insurance_of insurance_type) insurance_plan_id CONFIRMED (now ck)
    None None PNone.

(** The writes of a booking that commits. *)
Definition booking_writes (ck : clock) (st : store) (patient_data : dict)
    (doctor_id slot_id : Z) (clinic_id : pyval) (insurance_type : pyval)
    (insurance_plan_id : option Z) : list write :=
  snd (resolve st patient_data)
  ++ [WAppointment
        (created_appointment ck st patient_data doctor_id slot_id clinic_id
           insurance_type insurance_plan_id);
      WAvailable slot_id false].

(** The writes of a cancellation that commits. *)
Definition cancel_writes (ck : clock) (appointment_id slot_id : Z)
    (cancellation_reason : pyval) : list write :=
  [WCancelled appointment_id CANCELLED (now ck) cancellation_reason;
   WAvailable slot_id true].

(** ** A sample clinic, for the scenarios *)

Module Sample.

Definition clinic1 : clinic :=
  mk_clinic "C1" "Clinica Um" "Rua A, 10" "Sao Paulo" "SP" "1130000000".

Definition doctor7 : doctor := mk_doctor 7 "Dra. Ana" "Cardiologia" 300 "C1".

Definition slot101 : slot := mk_slot 101 7 "C1" 20 32400 true.

Definition slot102 : slot := mk_slot 102 7 "C1" 20 36000 true.

(** Slot 101 is AVAILABLE, nobody is registered, nothing is booked. *)
Definition empty : store :=
  mk_store (mk_tables [clinic1] [doctor7] [slot101; slot102] [] []) 1 1.

Definition maria : dict :=
  [("name", PStr "Maria Silva"); ("cpf", PStr "12345678900");
   ("date_of_birth", PStr "1990-03-15")].

(** The same identity key under another profile. *)
Definition maria_again : dict :=
  [("name", PStr "M. S. Santos"); ("cpf", PStr "12345678900");
   ("date_of_birth", PStr "1990-03-15");
   ("email", PStr "maria@example.org"); ("phone", PStr "11999990000");
   ("insurance_type", PStr "health_plan")].

Definition joao : dict :=
  [("name", PStr "Joao Souza"); ("cpf", PStr "98765432100");
   ("date_of_birth", PStr "1985-07-01")].

Definition at_time (n : Z) : clock := mk_clock n 10.

Definition book (patient_data : dict) (slot_id : Z) : prog booking :=
  create_appointment patient_data 7 slot_id (PStr "C1") PNone None.

Definition book_request (patient_data : dict) (slot_id : Z) : request :=
  Book patient_data 7 slot_id (PStr "C1") PNone None.

(** Maria books slot 101 and cancels; Joao then books the same slot. *)
Definition rebooked : store :=
  serve_all
    [(at_time 1000, book_request maria 101);
     (at_time 2000, Cancel 1 (PStr "patient request"));
     (at_time 3000, book_request joao 101)]
    empty.

(** The storage layer fails on the appointment insert, and only there. *)
Definition insert_fails : fault_plan :=
  fun _ o =>
    match o with
    | InsertAppointment _ _ _ _ _ _ _ => true
    | _ => false
    end.

(** Maria and Joao ask for slot 101 at the same time, each on a
    connection of its own. *)
Definition two_bookings : store * list (session booking) :=
  (empty, [start (at_time 1000) (book maria 101);
           start (at_time 1001) (book joao 101)]).

(** Both calls read the flag of the slot before either writes it. *)
Definition racing : list nat :=
  [0; 0; 0; 0; 1; 1; 1; 1; 0; 0; 0; 0; 1; 1; 1; 1]%nat.

(** The first call runs to its end before the second starts. *)
Definition serial : list nat :=
  [0; 0; 0; 0; 0; 0; 0; 0; 1; 1; 1; 1; 1; 1]%nat.

End Sample.

(** ** The tools of [agent.py] *)

Definition is_digit (c : ascii) : bool :=
  let n := Text.code c in (Nat.leb 48 n && Nat.leb n 57)%bool.

Fixpoint all_digits (s : string) : bool :=
  match s with
  | EmptyString => true
  | String c s' => (is_digit c && all_digits s')%bool
  end.

(** [s.isdigit()], on ASCII text: some character, and digits only. *)
Definition py_isdigit (s : string) : bool :=
  match s with
  | EmptyString => false
  | String _ _ => all_digits s
  end.

(** [s.replace(c, "")] for a one-character [c]. *)
Fixpoint remove_char (c : ascii) (s : string) : string :=
  match s with
  | EmptyString => EmptyString
  | String d s' =>
      if Ascii.eqb d c then remove_char c s' else String d (remove_char c s')
  end.

(** [str(x).strip() if x else ""]. *)
Definition stripped_or_empty (x : pyval) : string :=
  if truthy x then Text.strip (py_str x) else "".

(** [str(x).strip() if x else None]. *)
Definition stripped_or_none (x : pyval) : pyval :=
  if truthy x then PStr (Text.strip (py_str x)) else PNone.

Definition validate_cpf (cpf : string) : bool :=
  if String.eqb cpf "" then false
  else
    let cpf_clean :=
      Text.strip (remove_char "-" (remove_char "." cpf)) in
    (Nat.eqb (String.length cpf_clean) 11 && py_isdigit cpf_clean)%bool.

Section Dates.

(** The [datetime] library is not part of the repository: the parsed date,
    [datetime.strptime] ([None] for its [ValueError]) and [strftime] are
    taken as given. *)
Variable datetime : Type.
Variable strptime : string -> string -> option datetime.
Variable strftime : datetime -> string -> string.

Definition validate_date_of_birth (date_str : string) : bool :=
  if String.eqb date_str "" then false
  else
    match strptime (Text.strip date_str) "%d/%m/%Y" with
    | Some _ => true
    | None =>
        match strptime (Text.strip date_str) "%Y-%m-%d" with
        | Some _ => true
        | None => false
        end
    end.

Definition convert_date_to_iso (date_str : string) : pyval :=
  if String.eqb date_str "" then PNone
  else
    match strptime (Text.strip date_str) "%d/%m/%Y" with
    | Some date_obj => PStr (strftime date_obj "%Y-%m-%d")
    | None => PStr (Text.strip date_str)
    end.

(** The dict [schedule_appointment] returns. *)
Inductive scheduling : Type :=
| InvalidCpf (patient_cpf : string)
    (* status error, "CPF invalido: ..." *)
| InvalidDateOfBirth (patient_date_of_birth : string)
    (* status error, "Data de nascimento invalida: ..." *)
| InvalidName
    (* status error, "Nome do paciente invalido ou incompleto." *)
| MissingIds
    (* status error, "Dados de medico, horario ou clinica faltando." *)
| Scheduled (appointment_id : Z) (appointment_details : option (details Z))
    (* status success, the id, the details *)
| NotScheduled (result : booking).
    (* the dict of [create_appointment], returned as it is *)

(** The dict with which [schedule_appointment] calls the database. *)
Definition patient_data_of (patient_name patient_cpf : string)
    (patient_date_of_birth_iso : pyval)
    (patient_email patient_phone insurance_type : string) : dict :=
  [("name", PStr patient_name);
   ("cpf", PStr (remove_char "-" (remove_char "." patient_cpf)));
   ("date_of_birth", patient_date_of_birth_iso);
   ("email", PStr (py_or (PStr patient_email)
                     ("paciente_" ++ patient_cpf ++ "@clinica.com")%string));
   ("phone", PStr (py_or (PStr patient_phone) ""));
   ("insurance_type", PStr insurance_type)].

(** A tool call opens one connection after the other; each has its own
    faults and its own reading of the clock.  The tool is run on the store
    and returns the store it leaves. *)
Definition schedule_appointment (booking_env reading_env : fault_plan * clock)
    (patient_name patient_cpf patient_date_of_birth : pyval)
    (doctor_id slot_id : Z) (clinic_id : pyval)
    (patient_email patient_phone insurance_type : pyval)
    (insurance_plan_id : option Z) (st : store) : scheduling * store :=
  let patient_name := stripped_or_empty patient_name in
  let patient_cpf := stripped_or_empty patient_cpf in
  let patient_date_of_birth := stripped_or_empty patient_date_of_birth in
  let patient_email := stripped_or_empty patient_email in
  let patient_phone := stripped_or_empty patient_phone in
  let insurance_type :=
    if truthy insurance_type
    then PStr (Text.upper (Text.strip (py_str insurance_type)))
    else PNone in
  if negb (validate_cpf patient_cpf) then (InvalidCpf patient_cpf, st)
  else if negb (validate_date_of_birth patient_date_of_birth)
  then (InvalidDateOfBirth patient_date_of_birth, st)
  else
    let patient_date_of_birth_iso :=
      convert_date_to_iso patient_date_of_birth in
    if (String.eqb patient_name ""
        || Nat.ltb (String.length patient_name) 3)%bool
    then (InvalidName, st)
    else if negb (negb (Z.eqb doctor_id 0) && negb (Z.eqb slot_id 0)
                  && truthy clinic_id)%bool
    then (MissingIds, st)
    else
      let clinic_id := stripped_or_none clinic_id in
      let insurance_type :=
        if truthy insurance_type then
          let t := Text.upper (py_str insurance_type) in
          if py_in t valid_types then t else "PARTICULAR"
        else "PARTICULAR" in
      let patient_data :=
        patient_data_of patient_name patient_cpf patient_date_of_birth_iso
          patient_email patient_phone insurance_type in
      let '(result, st1) :=
        call (fst booking_env) (snd booking_env)
          (create_appointment patient_data doctor_id slot_id clinic_id
             (PStr insurance_type) insurance_plan_id) st in
      match result with
      | Booked appointment_id =>
          let '(appointment_details, st2) :=
            call (fst reading_env) (snd reading_env)
              (get_appointment_by_id appointment_id) st1 in
          (Scheduled appointment_id appointment_details, st2)
      | _ => (NotScheduled result, st1)
      end.

End Dates.

(** The dict [schedule_search] returns. *)
Inductive search_reply : Type :=
| SearchInvalid
    (* status error, "Por favor, informe uma especialidade valida." *)
| SearchNotFound (specialty : string)
    (* status not_found, no data *)
| SearchFound (specialty : string) (total_results : nat)
    (data : list availability_row).
    (* status success *)

Definition schedule_search (faults : fault_plan) (ck : clock)
    (specialty : pyval) (st : store) : search_reply * store :=
  let specialty := stripped_or_empty specialty in
  if String.eqb specialty "" then (SearchInvalid, st)
  else
    let '(results, st') :=
      call faults ck (search_specialty_availability specialty) st in
    match results with
    | [] => (SearchNotFound specialty, st')
    | _ :: _ => (SearchFound specialty (List.length results) results, st')
    end.

(** The dict [cancel_appointment_tool] returns. *)
Inductive cancel_reply : Type :=
| CancelIdRequired
    (* status error, "ID do agendamento e obrigatorio." *)
| CancelReply (result : cancellation).
    (* the dict of [cancel_appointment], returned as it is *)

Definition cancel_appointment_tool (faults : fault_plan) (ck : clock)
    (appointment_id : Z) (reason : pyval) (st : store)
  : cancel_reply * store :=
  let reason := stripped_or_none reason in
  if Z.eqb appointment_id 0 then (CancelIdRequired, st)
  else
    let '(result, st') :=
      call faults ck (cancel_appointment appointment_id reason) st in
    (CancelReply result, st').

(** ** Further properties of the stored rows *)

(** No two patient rows carry the same identity key. *)
Definition unique_cpfs (t : tables) : Prop :=
  forall cpf, (List.length (filter (has_cpf cpf) (patients t)) <= 1)%nat.

(** Requests served one after the other, each under its own faults. *)
Definition serve_each (qs : list (fault_plan * clock * request)) (st : store)
  : store :=
  fold_left (fun st '(faults, ck, q) => serve faults ck q st) qs st.

Definition has_id (appointment_id : Z) (a : appointment) : bool :=
  Z.eqb (a_id a) appointment_id.

(** The slot of a joined row can be booked on or after [today]. *)
Definition open_slot (today : Z) (x : clinic * doctor * slot) : bool :=
  (s_is_available (snd x) && Z.leb today (s_date (snd x)))%bool.

(** ** A second sample: a clinic whose id reads as a number *)

Module Sample2.

Definition clinic42 : clinic :=
  mk_clinic "42" "Clinica Dois" "Rua B, 20" "Campinas" "SP" "1930000000".

Definition doctor9 : doctor := mk_doctor 9 "Dr. Rui" "Dermatologia" 250 "42".

Definition slot201 : slot := mk_slot 201 9 "42" 30 50400 true.

Definition empty : store :=
  mk_store (mk_tables [clinic42] [doctor9] [slot201] [] []) 1 1.

(** A stand-in for [datetime.strptime] in the examples: any text is a
    date in the ISO format and none is in the other; the parsed date is the
    text. *)
Definition iso_only (s format : string) : option string :=
  if String.eqb format "%Y-%m-%d" then Some s else None.

Definition same_text (date_obj format : string) : string := date_obj.

(** Every request of every connection is answered. *)
Definition fine : fault_plan * clock := (no_fault, Sample.at_time 1000).

End Sample2.

(** ** What the tools hand to the database, in closed form *)

(** The insurance text [schedule_appointment] settles on. *)
Definition tool_insurance_type (insurance_type : pyval) : string :=
  let insurance_type :=
    if truthy insurance_type
    then PStr (Text.upper (Text.strip (py_str insurance_type)))
    else PNone in
  if truthy insurance_type then
    let t := Text.upper (py_str insurance_type) in
    if py_in t valid_types then t else "PARTICULAR"
  else "PARTICULAR".

(** The identity key [schedule_appointment] stores: the CPF as typed,
    stripped, without its dots and dashes. *)
Definition stored_cpf (patient_cpf : pyval) : string :=
  remove_char "-" (remove_char "." (stripped_or_empty patient_cpf)).

(** The dict with which [schedule_appointment] reaches
    [create_appointment], from the arguments as typed. *)
Definition request_of (datetime : Type)
    (strptime : string -> string -> option datetime)
    (strftime : datetime -> string -> string)
    (patient_name patient_cpf patient_date_of_birth : pyval)
    (patient_email patient_phone insurance_type : pyval) : dict :=
  patient_data_of (stripped_or_empty patient_name)
    (stripped_or_empty patient_cpf)
    (convert_date_to_iso datetime strptime strftime
       (stripped_or_empty patient_date_of_birth))
    (stripped_or_empty patient_email) (stripped_or_empty patient_phone)
    (tool_insurance_type insurance_type).

(** * Properties *)

(** ** Running the entry points *)

Lemma cast_normalize_insurance_type v :
  cast_insurancetype (normalize_insurance_type v) = Some (insurance_of v).
Proof.
  unfold insurance_of, normalize_insurance_type.
  destruct (truthy v); [|reflexivity].
  destruct (py_in _ valid_types) eqn:E; [|reflexivity].
  unfold py_in, valid_types in E. cbn [existsb] in E.
  unfold cast_insurancetype.
  destruct (String.eqb _ "PARTICULAR"); [reflexivity|].
  destruct (String.eqb _ "HEALTH_PLAN"); [reflexivity|].
  discriminate.
Qed.

Lemma find_slot_after_patient t p slot_id :
  find_slot (apply_write t (WPatient p)) slot_id = find_slot t slot_id.
Proof. reflexivity. Qed.

(** One request of the run in the goal: either the plan fails it, or it is
    carried out. *)
Ltac answer :=
  match goal with
  | |- context [perform ?f ?ck ?o ?cs] =>
      unfold perform at 1; cbn [can_fail andb];
      let F := fresh "F" in
      destruct (f _ o) eqn:F;
      cbn [exec bind run fst snd app view fold_left option_map rows
           patients_id_seq appointments_id_seq with_rows]
  end.

(** The same when the plan has no fault. *)
Ltac carry :=
  unfold perform at 1;
  cbn [no_fault can_fail andb exec bind run fst snd app view fold_left
       option_map rows patients_id_seq appointments_id_seq with_rows].

Ltac unfold_calls :=
  unfold call, create_appointment, cancel_appointment, get_appointment_by_id,
    get_appointment_by_id_body, search_specialty_availability,
    finally_close, try_except, _get_or_create_patient,
    _check_slot_available, _insert_appointment, _block_slot, py_bind,
    execute, ret, raise;
  cbn [run bind].

Ltac casts :=
  rewrite ?cast_normalize_insurance_type;
  cbn [cast_appointmentstatus String.eqb Ascii.eqb Bool.eqb bind run].

Lemma create_appointment_outcome faults ck st patient_data doctor_id slot_id
    clinic_id insurance_type insurance_plan_id :
  let '(r, st') :=
    call faults ck
      (create_appointment patient_data doctor_id slot_id clinic_id
         insurance_type insurance_plan_id) st in
  match r with
  | Booked id =>
      claimable (rows st) slot_id = true /\
      id = appointments_id_seq st /\
      rows st' =
        view (rows st)
          (booking_writes ck st patient_data doctor_id slot_id clinic_id
             insurance_type insurance_plan_id)
  | SlotUnavailable =>
      claimable (rows st) slot_id = false /\ rows st' = rows st
  | BookingFailed _ => rows st' = rows st
  end.
Proof.
  unfold_calls.
  answer; [reflexivity|].
  answer; [reflexivity|].
  unfold booking_writes, resolve, created_appointment, claimable, resolve.
  destruct (find_patient (rows st) (dict_get patient_data "cpf"))
    as [p|] eqn:FP; cbn [option_map bind run fst snd app].
  - answer; [reflexivity|].
    destruct (find_slot (rows st) slot_id) as [s|] eqn:FS;
      cbn [option_map option_truthy negb]; [|cbn; auto].
    destruct (s_is_available s) eqn:AV; cbn [negb bind run]; [|cbn; auto].
    answer; [reflexivity|]. casts.
    answer; [reflexivity|].
    answer; [reflexivity|].
    unfold perform, stripped_clinic_id, find_slot in *. cbn in *.
    rewrite ?FS. cbn. auto.
  - answer; [reflexivity|]. casts.
    answer; [reflexivity|].
    rewrite find_slot_after_patient.
    destruct (find_slot (rows st) slot_id) as [s|] eqn:FS;
      cbn [option_map option_truthy negb]; [|cbn; auto].
    destruct (s_is_available s) eqn:AV; cbn [negb bind run]; [|cbn; auto].
    answer; [reflexivity|]. casts.
    answer; [reflexivity|].
    answer; [reflexivity|].
    unfold perform, stripped_clinic_id, find_slot in *. cbn in *.
    rewrite ?FS. cbn. auto.
Qed.

(** When the storage layer answers every request, the availability check
    alone decides the result. *)
Lemma create_appointment_result ck st patient_data doctor_id slot_id
    clinic_id insurance_type insurance_plan_id :
  fst (call no_fault ck
         (create_appointment patient_data doctor_id slot_id clinic_id
            insurance_type insurance_plan_id) st)
  = if claimable (rows st) slot_id
    then Booked (appointments_id_seq st)
    else SlotUnavailable.
Proof.
  unfold_calls. unfold claimable.
  do 2 carry.
  destruct (find_patient (rows st) (dict_get patient_data "cpf"))
    as [p|] eqn:FP; cbn [option_map bind run fst snd app].
  - carry.
    destruct (find_slot (rows st) slot_id) as [s|] eqn:FS;
      cbn [option_map option_truthy negb bind run]; [|now carry].
    destruct (s_is_available s) eqn:AV; cbn [negb bind run]; [|now carry].
    carry. casts. now do 3 carry.
  - carry. casts. carry. rewrite find_slot_after_patient.
    destruct (find_slot (rows st) slot_id) as [s|] eqn:FS;
      cbn [option_map option_truthy negb bind run]; [|now carry].
    destruct (s_is_available s) eqn:AV; cbn [negb bind run]; [|now carry].
    carry. casts. now do 3 carry.
Qed.

Lemma cancel_appointment_outcome faults ck st appointment_id reason :
  let '(r, st') :=
    call faults ck (cancel_appointment appointment_id reason) st in
  match r with
  | Cancelled =>
      exists a,
        find_appointment (rows st) appointment_id = Some a /\
        st' = with_rows st
                (view (rows st)
                   (cancel_writes ck appointment_id (a_slot_id a) reason))
  | AppointmentNotFound =>
      find_appointment (rows st) appointment_id = None /\ st' = st
  | CancelFailed _ => st' = st
  end.
Proof.
  unfold_calls.
  answer; [reflexivity|].
  answer; [reflexivity|].
  destruct (find_appointment (rows st) appointment_id) as [a|] eqn:FA;
    cbn [option_map bind run]; [|cbn; auto].
  answer; [reflexivity|]. casts.
  answer; [reflexivity|].
  answer; [reflexivity|].
  unfold perform, cancel_writes. cbn. eauto.
Qed.

Lemma cancel_appointment_result ck st appointment_id reason :
  fst (call no_fault ck (cancel_appointment appointment_id reason) st)
  = match find_appointment (rows st) appointment_id with
    | Some _ => Cancelled
    | None => AppointmentNotFound
    end.
Proof.
  unfold_calls. do 2 carry.
  destruct (find_appointment (rows st) appointment_id) as [a|] eqn:FA;
    cbn [option_map bind run]; [|now carry].
  carry. casts. now do 3 carry.
Qed.

(** ** Rows under a write *)

Lemma find_map_same {A : Type} (p : A -> bool) (f : A -> A) (l : list A) :
  (forall x, p (f x) = p x) ->
  find p (List.map f l) = option_map f (find p l).
Proof.
  intros Hp. induction l as [|x l IH]; [reflexivity|].
  cbn [List.map find]. rewrite Hp. destruct (p x); [reflexivity|exact IH].
Qed.

Lemma set_available_id slot_id b s : s_id (set_available slot_id b s) = s_id s.
Proof. unfold set_available. destruct (Z.eqb _ _); reflexivity. Qed.

Lemma set_cancelled_id id stat at_time reason a :
  a_id (set_cancelled id stat at_time reason a) = a_id a.
Proof. unfold set_cancelled. destruct (Z.eqb _ _); reflexivity. Qed.

Lemma find_slot_updated t slot_id b id :
  find_slot (apply_write t (WAvailable slot_id b)) id
  = option_map (set_available slot_id b) (find_slot t id).
Proof.
  unfold find_slot. cbn [apply_write available_slots].
  apply find_map_same. intros s. now rewrite set_available_id.
Qed.

Lemma find_appointment_updated t appointment_id stat at_time reason id :
  find_appointment (apply_write t (WCancelled appointment_id stat at_time reason)) id
  = option_map (set_cancelled appointment_id stat at_time reason)
      (find_appointment t id).
Proof.
  unfold find_appointment. cbn [apply_write appointments].
  apply find_map_same. intros a. now rewrite set_cancelled_id.
Qed.

Lemma find_slot_id t slot_id s :
  find_slot t slot_id = Some s -> s_id s = slot_id.
Proof.
  unfold find_slot. intros H. apply find_some in H. destruct H as [_ H].
  now apply Z.eqb_eq.
Qed.

Lemma find_appointment_id t appointment_id a :
  find_appointment t appointment_id = Some a -> a_id a = appointment_id.
Proof.
  unfold find_appointment. intros H. apply find_some in H.
  destruct H as [_ H]. now apply Z.eqb_eq.
Qed.

(** The flag a slot shows once a write has set it. *)
Lemma claimable_updated t slot_id b s :
  find_slot t slot_id = Some s ->
  claimable (apply_write t (WAvailable slot_id b)) slot_id = b.
Proof.
  intros H. unfold claimable. rewrite find_slot_updated, H.
  cbn [option_map]. unfold set_available.
  rewrite (find_slot_id _ _ _ H), Z.eqb_refl. reflexivity.
Qed.

Lemma claimable_held_or_absent t slot_id :
  held_or_absent t slot_id <-> claimable t slot_id = false.
Proof.
  unfold held_or_absent, claimable.
  destruct (find_slot t slot_id) as [s|]; cbn; intuition.
Qed.

(** ** Booking *)

(** Claim C5.  When the slot is held, or there is no such slot, a booking
    leaves every table as it was, whatever the storage layer does: no
    appointment and no patient row is added.  Its result is the "slot
    unavailable" error, or the storage error if the storage layer failed
    before the check; with a storage layer that answers every request it
    is the "slot unavailable" error. *)
Theorem book_on_held_slot_is_refused :
  forall faults ck st patient_data doctor_id slot_id clinic_id insurance_type
         insurance_plan_id,
    held_or_absent (rows st) slot_id ->
    let p := create_appointment patient_data doctor_id slot_id clinic_id
               insurance_type insurance_plan_id in
    rows (snd (call faults ck p st)) = rows st /\
    (fst (call faults ck p st) = SlotUnavailable \/
     exists e, fst (call faults ck p st) = BookingFailed e) /\
    fst (call no_fault ck p st) = SlotUnavailable.
Proof.
  intros faults ck st patient_data doctor_id slot_id clinic_id insurance_type
    insurance_plan_id H p.
  apply claimable_held_or_absent in H.
  pose proof (create_appointment_outcome faults ck st patient_data doctor_id
                slot_id clinic_id insurance_type insurance_plan_id) as O.
  fold p in O. destruct (call faults ck p st) as [r st']. cbn [fst snd].
  split; [|split].
  - destruct r as [id| |e]; [|tauto|assumption].
    destruct O as [O _]. congruence.
  - destruct r as [id| |e]; [|now left|right; now exists e].
    destruct O as [O _]. congruence.
  - unfold p. rewrite create_appointment_result, H. reflexivity.
Qed.

Lemma book_on_held_slot_is_refused_witness :
  let st := snd (call no_fault (Sample.at_time 1000)
                   (Sample.book Sample.maria 101) Sample.empty) in
  held_or_absent (rows st) 101 /\
  rows (snd (call no_fault (Sample.at_time 2000)
               (Sample.book Sample.joao 101) st)) = rows st /\
  fst (call no_fault (Sample.at_time 2000)
         (Sample.book Sample.joao 101) st) = SlotUnavailable.
Proof.
  intros st.
  assert (H : held_or_absent (rows st) 101) by reflexivity.
  split; [exact H|].
  pose proof (book_on_held_slot_is_refused no_fault (Sample.at_time 2000) st
                Sample.joao 7 101 (PStr "C1") PNone None H) as T.
  cbv zeta in T. destruct T as [T1 [_ T3]]. split; [exact T1|exact T3].
Defined.

(** A storage failure that comes after the availability check: when the
    connection, the patient lookup, the patient insert and the read of
    the slot's flag are all answered, a booking ends in a storage error
    only if the check has found the slot AVAILABLE. *)
Lemma storage_failure_follows_check (faults : fault_plan) ck st
    patient_data doctor_id slot_id clinic_id insurance_type
    insurance_plan_id :
  faults unit Connect = false ->
  faults _ (SelectPatientId (dict_get patient_data "cpf")) = false ->
  (forall name cpf date_of_birth email phone ins,
     faults _ (InsertPatient name cpf date_of_birth email phone ins)
     = false) ->
  faults _ (SelectIsAvailable slot_id) = false ->
  let '(r, _) :=
    call faults ck
      (create_appointment patient_data doctor_id slot_id clinic_id
         insurance_type insurance_plan_id) st in
  match r with
  | BookingFailed _ => claimable (rows st) slot_id = true
  | _ => True
  end.
Proof.
  intros H1 H2 H3 H4.
  unfold_calls.
  answer; [congruence|].
  answer; [congruence|].
  unfold claimable.
  destruct (find_patient (rows st) (dict_get patient_data "cpf"))
    as [p|] eqn:FP; cbn [option_map bind run fst snd app].
  - answer; [congruence|].
    destruct (find_slot (rows st) slot_id) as [s|] eqn:FS;
      cbn [option_map option_truthy negb]; [|cbn; exact I].
    destruct (s_is_available s) eqn:AV; cbn [negb bind run];
      [|cbn; exact I].
    match goal with
    | |- let '(r, _) := ?c in _ => destruct c as [[id| |e] ?]
    end; auto.
  - answer; [now rewrite H3 in F1|]. casts.
    answer; [congruence|].
    rewrite find_slot_after_patient.
    destruct (find_slot (rows st) slot_id) as [s|] eqn:FS;
      cbn [option_map option_truthy negb]; [|cbn; exact I].
    destruct (s_is_available s) eqn:AV; cbn [negb bind run];
      [|cbn; exact I].
    match goal with
    | |- let '(r, _) := ?c in _ => destruct c as [[id| |e] ?]
    end; auto.
Qed.

(** Claim C4, as the code has it.  A booking that fails, at whatever
    step and for whatever reason, leaves every table as it was before the
    call: the patient row of the resolve step and the appointment row are
    gone with the transaction.  So the flag of the slot is what it was
    before the call and the appointment rows that reference the slot are
    those that did before.  A booking refused as "slot unavailable"
    leaves the slot held or missing, as the check found it.  A failure
    that comes after the availability check - the connection, the patient
    lookup and insert and the read of the flag were answered, and the
    booking was not refused for the slot - leaves the slot AVAILABLE. *)
Theorem failed_booking_is_rolled_back :
  forall (faults : fault_plan) ck st patient_data doctor_id slot_id clinic_id
         insurance_type insurance_plan_id r st',
    call faults ck
      (create_appointment patient_data doctor_id slot_id clinic_id
         insurance_type insurance_plan_id) st = (r, st') ->
    (forall id, r <> Booked id) ->
    rows st' = rows st /\
    claimable (rows st') slot_id = claimable (rows st) slot_id /\
    filter (references slot_id) (appointments (rows st'))
    = filter (references slot_id) (appointments (rows st)) /\
    (r = SlotUnavailable -> claimable (rows st') slot_id = false) /\
    (faults unit Connect = false ->
     faults _ (SelectPatientId (dict_get patient_data "cpf")) = false ->
     (forall name cpf date_of_birth email phone ins,
        faults _ (InsertPatient name cpf date_of_birth email phone ins)
        = false) ->
     faults _ (SelectIsAvailable slot_id) = false ->
     r <> SlotUnavailable ->
     claimable (rows st') slot_id = true).
Proof.
  intros faults ck st patient_data doctor_id slot_id clinic_id insurance_type
    insurance_plan_id r st' E NB.
  pose proof (create_appointment_outcome faults ck st patient_data doctor_id
                slot_id clinic_id insurance_type insurance_plan_id) as O.
  rewrite E in O.
  assert (R : rows st' = rows st).
  { destruct r as [id| |e]; [now elim (NB id)|tauto|assumption]. }
  rewrite R. split; [reflexivity|]. split; [reflexivity|].
  split; [reflexivity|]. split.
  - intros ->. tauto.
  - intros H1 H2 H3 H4 NS.
    pose proof (storage_failure_follows_check faults ck st patient_data
                  doctor_id slot_id clinic_id insurance_type
                  insurance_plan_id H1 H2 H3 H4) as A.
    rewrite E in A.
    destruct r as [id| |e]; [now elim (NB id)|now elim NS|exact A].
Qed.

Lemma failed_booking_is_rolled_back_witness :
  rows (snd (call Sample.insert_fails (Sample.at_time 1000)
               (Sample.book Sample.maria 101) Sample.empty))
  = rows Sample.empty /\
  fst (call Sample.insert_fails (Sample.at_time 1000)
         (Sample.book Sample.maria 101) Sample.empty)
  = BookingFailed DatabaseError /\
  claimable
    (rows (snd (call Sample.insert_fails (Sample.at_time 1000)
                  (Sample.book Sample.maria 101) Sample.empty))) 101
  = true.
Proof.
  destruct (failed_booking_is_rolled_back Sample.insert_fails
              (Sample.at_time 1000) Sample.empty Sample.maria 7 101
              (PStr "C1") PNone None (BookingFailed DatabaseError)
              (snd (call Sample.insert_fails (Sample.at_time 1000)
                      (Sample.book Sample.maria 101) Sample.empty)))
    as [R [_ [_ [_ A]]]].
  - reflexivity.
  - intros id. discriminate.
  - split; [exact R|]. split; [reflexivity|].
    apply A; try reflexivity. discriminate.
Defined.

(** Claim C4 as worded fails: a booking that fails because the slot is
    held leaves the slot held, and the appointment that holds it still
    references the slot. *)
Lemma failed_booking_on_held_slot :
  let st := snd (call no_fault (Sample.at_time 1000)
                   (Sample.book Sample.maria 101) Sample.empty) in
  let '(r, st') := call no_fault (Sample.at_time 2000)
                     (Sample.book Sample.joao 101) st in
  r = SlotUnavailable /\
  ~ (claimable (rows st') 101 = true /\
     filter (references 101) (appointments (rows st')) = []).
Proof.
  cbv zeta. vm_compute. split; [reflexivity|].
  intros [H _]. discriminate H.
Qed.

Lemma view_app t l1 l2 : view t (l1 ++ l2) = view (view t l1) l2.
Proof. unfold view. apply fold_left_app. Qed.

Lemma find_slot_resolved st patient_data slot_id :
  find_slot (view (rows st) (snd (resolve st patient_data))) slot_id
  = find_slot (rows st) slot_id.
Proof.
  unfold resolve.
  destruct (find_patient (rows st) (dict_get patient_data "cpf"));
    reflexivity.
Qed.

(** The tables a committed booking leaves. *)
Lemma booked_rows ck st patient_data doctor_id slot_id clinic_id
    insurance_type insurance_plan_id :
  let b := created_appointment ck st patient_data doctor_id slot_id clinic_id
             insurance_type insurance_plan_id in
  let t := view (rows st)
             (booking_writes ck st patient_data doctor_id slot_id clinic_id
                insurance_type insurance_plan_id) in
  appointments t = appointments (rows st) ++ [b] /\
  patients t = patients (view (rows st) (snd (resolve st patient_data))) /\
  available_slots t
  = List.map (set_available slot_id false) (available_slots (rows st)) /\
  (forall s, find_slot (rows st) slot_id = Some s ->
             claimable t slot_id = false).
Proof.
  intros b t. unfold t, booking_writes. rewrite view_app.
  cbn [view fold_left].
  split; [|split; [|split]].
  - cbn [apply_write appointments]. f_equal. unfold resolve.
    destruct (find_patient _ _); reflexivity.
  - reflexivity.
  - cbn [apply_write available_slots]. unfold resolve.
    destruct (find_patient _ _); reflexivity.
  - intros s H. apply claimable_updated with (s := s).
    change (find_slot (view (rows st) (snd (resolve st patient_data)))
              slot_id = Some s).
    now rewrite find_slot_resolved.
Qed.

(** ** Cancelling *)

(** Claim C3, where the code departs from it.  Cancelling an appointment
    that is already CANCELLED is not refused: the call reports success,
    stamps the appointment with the new time and reason, and sets the
    flag of the referenced slot to AVAILABLE, also when another
    appointment has taken the slot in between. *)
Theorem cancel_of_cancelled_appointment_mutates :
  forall ck st appointment_id reason a,
    find_appointment (rows st) appointment_id = Some a ->
    a_status a = CANCELLED ->
    let '(r, st') :=
      call no_fault ck (cancel_appointment appointment_id reason) st in
    r = Cancelled /\
    (exists a', find_appointment (rows st') appointment_id = Some a' /\
                a_cancelled_at a' = Some (now ck) /\
                a_cancellation_reason a' = reason) /\
    (forall s, find_slot (rows st) (a_slot_id a) = Some s ->
               claimable (rows st') (a_slot_id a) = true).
Proof.
  intros ck st appointment_id reason a FA _.
  pose proof (cancel_appointment_result ck st appointment_id reason) as R.
  pose proof (cancel_appointment_outcome no_fault ck st appointment_id reason)
    as O.
  destruct (call no_fault ck (cancel_appointment appointment_id reason) st)
    as [r st'].
  cbn [fst] in R. rewrite FA in R. subst r.
  destruct O as [a0 [FA0 ->]]. rewrite FA in FA0. injection FA0 as <-.
  split; [reflexivity|]. cbn [rows with_rows cancel_writes view fold_left].
  split.
  - exists (set_cancelled appointment_id CANCELLED (now ck) reason a).
    split.
    + change (find_appointment
                (apply_write (rows st)
                   (WCancelled appointment_id CANCELLED (now ck) reason))
                appointment_id = Some (set_cancelled appointment_id CANCELLED
                                         (now ck) reason a)).
      now rewrite find_appointment_updated, FA.
    + unfold set_cancelled.
      rewrite (find_appointment_id _ _ _ FA), Z.eqb_refl. auto.
  - intros s FS. now apply claimable_updated with (s := s).
Qed.

(** Claim C7.  Cancelling a CONFIRMED appointment whose slot is on file
    frees the slot, and a booking of that slot made next succeeds: it is
    given the next appointment id, its appointment is CONFIRMED, and the
    slot is held again.  The storage layer answers every request of the
    two calls. *)
Theorem cancel_then_book_succeeds :
  forall ck1 ck2 st appointment_id reason a s patient_data doctor_id
         clinic_id insurance_type insurance_plan_id,
    find_appointment (rows st) appointment_id = Some a ->
    a_status a = CONFIRMED ->
    find_slot (rows st) (a_slot_id a) = Some s ->
    let '(r1, st1) :=
      call no_fault ck1 (cancel_appointment appointment_id reason) st in
    let '(r2, st2) :=
      call no_fault ck2
        (create_appointment patient_data doctor_id (a_slot_id a) clinic_id
           insurance_type insurance_plan_id) st1 in
    r1 = Cancelled /\
    claimable (rows st1) (a_slot_id a) = true /\
    r2 = Booked (appointments_id_seq st1) /\
    (exists b, In b (appointments (rows st2)) /\
               a_id b = appointments_id_seq st1 /\
               a_slot_id b = a_slot_id a /\
               a_status b = CONFIRMED) /\
    claimable (rows st2) (a_slot_id a) = false.
Proof.
  intros ck1 ck2 st appointment_id reason a s patient_data doctor_id
    clinic_id insurance_type insurance_plan_id FA _ FS.
  pose proof (cancel_appointment_result ck1 st appointment_id reason) as R1.
  pose proof (cancel_appointment_outcome no_fault ck1 st appointment_id
                reason) as O1.
  destruct (call no_fault ck1 (cancel_appointment appointment_id reason) st)
    as [r1 st1].
  cbn [fst] in R1. rewrite FA in R1. subst r1.
  destruct O1 as [a0 [FA0 E1]]. rewrite FA in FA0. injection FA0 as <-.
  assert (C1 : claimable (rows st1) (a_slot_id a) = true).
  { subst st1. cbn [rows with_rows cancel_writes view fold_left].
    now apply claimable_updated with (s := s). }
  pose proof (create_appointment_result ck2 st1 patient_data doctor_id
                (a_slot_id a) clinic_id insurance_type insurance_plan_id)
    as R2.
  pose proof (create_appointment_outcome no_fault ck2 st1 patient_data
                doctor_id (a_slot_id a) clinic_id insurance_type
                insurance_plan_id) as O2.
  destruct (call no_fault ck2 _ st1) as [r2 st2].
  cbn [fst] in R2. rewrite C1 in R2. subst r2.
  destruct O2 as [_ [_ E2]].
  destruct (booked_rows ck2 st1 patient_data doctor_id (a_slot_id a)
              clinic_id insurance_type insurance_plan_id)
    as [BA [_ [_ BC]]].
  rewrite <- E2 in BA, BC.
  repeat split; try assumption; try reflexivity.
  - eexists. split; [rewrite BA; apply in_or_app; right; left; reflexivity|].
    cbn. auto.
  - unfold claimable in C1.
    destruct (find_slot (rows st1) (a_slot_id a)) as [s1|] eqn:FS1;
      [|discriminate].
    now apply BC with (s := s1).
Qed.

Lemma cancel_of_cancelled_appointment_mutates_witness :
  let '(r, st') :=
    call no_fault (Sample.at_time 4000)
      (cancel_appointment 1 (PStr "again")) Sample.rebooked in
  r = Cancelled /\
  claimable (rows Sample.rebooked) 101 = false /\
  claimable (rows st') 101 = true.
Proof.
  assert (H : exists a s,
             find_appointment (rows Sample.rebooked) 1 = Some a /\
             a_status a = CANCELLED /\ a_slot_id a = 101 /\
             find_slot (rows Sample.rebooked) 101 = Some s).
  { do 2 eexists. repeat split; reflexivity. }
  destruct H as [a [s [FA [ST [SL FS]]]]].
  pose proof (cancel_of_cancelled_appointment_mutates (Sample.at_time 4000)
                Sample.rebooked 1 (PStr "again") a FA ST) as T.
  destruct (call no_fault (Sample.at_time 4000)
              (cancel_appointment 1 (PStr "again")) Sample.rebooked)
    as [r st'].
  destruct T as [T1 [_ T3]]. rewrite SL in T3.
  split; [exact T1|]. split; [reflexivity|]. exact (T3 s FS).
Defined.

Lemma cancel_then_book_succeeds_witness :
  let st := snd (call no_fault (Sample.at_time 1000)
                   (Sample.book Sample.maria 101) Sample.empty) in
  let '(r1, st1) :=
    call no_fault (Sample.at_time 2000)
      (cancel_appointment 1 (PStr "patient request")) st in
  let '(r2, st2) :=
    call no_fault (Sample.at_time 3000) (Sample.book Sample.maria 101) st1 in
  r1 = Cancelled /\ r2 = Booked 2 /\ claimable (rows st2) 101 = false.
Proof.
  intros st.
  assert (H : exists a s,
             find_appointment (rows st) 1 = Some a /\
             a_status a = CONFIRMED /\ a_slot_id a = 101 /\
             find_slot (rows st) 101 = Some s).
  { do 2 eexists. repeat split; reflexivity. }
  destruct H as [a [s [FA [ST [SL FS]]]]]. rewrite <- SL in FS.
  pose proof (cancel_then_book_succeeds (Sample.at_time 2000)
                (Sample.at_time 3000) st 1 (PStr "patient request") a s
                Sample.maria 7 (PStr "C1") PNone None FA ST FS) as T.
  rewrite SL in T. fold (Sample.book Sample.maria 101) in T.
  destruct (call no_fault (Sample.at_time 2000)
              (cancel_appointment 1 (PStr "patient request")) st)
    as [r1 st1] eqn:E1.
  assert (Q : appointments_id_seq st1 = 2).
  { apply (f_equal snd) in E1. cbn [snd] in E1. rewrite <- E1. reflexivity. }
  destruct (call no_fault (Sample.at_time 3000)
              (Sample.book Sample.maria 101) st1) as [r2 st2].
  destruct T as [T1 [_ [T3 [_ T5]]]]. rewrite Q in T3. auto.
Defined.

(** ** Invariant I1 *)

(** Claim C1, where the code departs from it.  From a store in which every
    slot is free, Maria books slot 101 and cancels, and Joao books the
    slot: I1 holds.  Maria's appointment is then cancelled once more: the
    slot is released under Joao's CONFIRMED appointment and I1 fails.  A
    third booking of the slot succeeds and the slot carries two CONFIRMED
    appointments. *)
Theorem repeated_cancel_breaks_I1 :
  all_free (rows Sample.empty) /\
  I1 (rows Sample.rebooked) /\
  let st4 := serve no_fault (Sample.at_time 4000) (Cancel 1 (PStr "again"))
               Sample.rebooked in
  ~ I1 (rows st4) /\
  let st5 := serve no_fault (Sample.at_time 5000)
               (Sample.book_request Sample.maria 101) st4 in
  List.length (confirmed_for (rows st5) 101) = 2%nat.
Proof.
  split; [|split; [|split]].
  - intros s [<-|[<-|[]]]; split; reflexivity.
  - intros s [<-|[<-|[]]]; vm_compute; split; try lia;
      split; intros; congruence.
  - intros H.
    destruct (H (mk_slot 101 7 "C1" 20 32400 true)) as [_ [_ H2]].
    + left. reflexivity.
    + assert (C : true = false); [|discriminate C].
      apply H2. vm_compute. discriminate.
  - reflexivity.
Qed.

(** ** Resolving the patient *)

Lemma find_none_filter {A : Type} (p : A -> bool) (l : list A) :
  find p l = None <-> filter p l = [].
Proof.
  induction l as [|x l IH]; cbn [find filter]; [tauto|].
  destruct (p x); [split; discriminate|exact IH].
Qed.

Lemma find_app_last {A : Type} (p : A -> bool) (l : list A) (x : A) :
  filter p l = [] -> p x = true -> find p (l ++ [x]) = Some x.
Proof.
  intros Hl Hx. induction l as [|y l IH]; cbn [app find filter] in *.
  - now rewrite Hx.
  - destruct (p y); [discriminate|auto].
Qed.

Lemma created_patient_has_cpf id patient_data cpf :
  dict_get patient_data "cpf" = PStr cpf ->
  has_cpf cpf (created_patient id patient_data) = true.
Proof.
  intros H. unfold has_cpf, cpf_matches, created_patient. cbn [p_cpf].
  rewrite H. apply String.eqb_refl.
Qed.

(** Claim C6, as the code has it.  Two bookings carry the same identity
    key; no patient has the key beforehand and the first booking
    succeeds.  Then, whatever the second booking's profile and whether
    or not it succeeds, exactly one patient row has the key, it is the
    row made from the first profile, the second call changed no patient
    row, and an appointment the second call makes references that
    patient. *)
Theorem patient_is_created_once :
  forall f1 f2 ck1 ck2 st cpf data1 doctor1 slot1 clinic1 ins1 plan1 id1 st1
         data2 doctor2 slot2 clinic2 ins2 plan2 r2 st2,
    dict_get data1 "cpf" = PStr cpf ->
    dict_get data2 "cpf" = PStr cpf ->
    filter (has_cpf cpf) (patients (rows st)) = [] ->
    call f1 ck1 (create_appointment data1 doctor1 slot1 clinic1 ins1 plan1) st
    = (Booked id1, st1) ->
    call f2 ck2 (create_appointment data2 doctor2 slot2 clinic2 ins2 plan2) st1
    = (r2, st2) ->
    filter (has_cpf cpf) (patients (rows st2))
    = [created_patient (patients_id_seq st) data1] /\
    patients (rows st2) = patients (rows st1) /\
    (forall id2, r2 = Booked id2 ->
       exists b, In b (appointments (rows st2)) /\ a_id b = id2 /\
                 a_patient_id b = patients_id_seq st).
Proof.
  intros f1 f2 ck1 ck2 st cpf data1 doctor1 slot1 clinic1 ins1 plan1 id1 st1
    data2 doctor2 slot2 clinic2 ins2 plan2 r2 st2 K1 K2 Fresh E1 E2.
  pose proof (create_appointment_outcome f1 ck1 st data1 doctor1 slot1
                clinic1 ins1 plan1) as O1.
  rewrite E1 in O1. destruct O1 as [_ [_ R1]].
  destruct (booked_rows ck1 st data1 doctor1 slot1 clinic1 ins1 plan1)
    as [_ [P1 _]].
  rewrite <- R1 in P1.
  assert (N : find_patient (rows st) (PStr cpf) = None).
  { unfold find_patient. now apply find_none_filter. }
  assert (P1' : patients (rows st1)
                = patients (rows st)
                  ++ [created_patient (patients_id_seq st) data1]).
  { rewrite P1. unfold resolve. rewrite K1, N. reflexivity. }
  assert (F1 : find_patient (rows st1) (PStr cpf)
               = Some (created_patient (patients_id_seq st) data1)).
  { unfold find_patient. rewrite P1'.
    apply find_app_last; [exact Fresh|].
    now apply created_patient_has_cpf. }
  assert (S1 : filter (has_cpf cpf) (patients (rows st1))
               = [created_patient (patients_id_seq st) data1]).
  { rewrite P1', filter_app, Fresh. cbn [filter app].
    now rewrite (created_patient_has_cpf _ _ _ K1). }
  pose proof (create_appointment_outcome f2 ck2 st1 data2 doctor2 slot2
                clinic2 ins2 plan2) as O2.
  rewrite E2 in O2.
  destruct (booked_rows ck2 st1 data2 doctor2 slot2 clinic2 ins2 plan2)
    as [A2 [P2 _]].
  assert (Res : resolve st1 data2 = (patients_id_seq st, [])).
  { unfold resolve. rewrite K2, F1. reflexivity. }
  rewrite Res in P2. cbn [snd view fold_left] in P2.
  assert (Same : patients (rows st2) = patients (rows st1)).
  { destruct r2 as [id2| |e].
    - destruct O2 as [_ [_ R2]]. now rewrite R2.
    - destruct O2 as [_ R2]. now rewrite R2.
    - now rewrite O2. }
  split; [now rewrite Same|]. split; [exact Same|].
  intros id2 ->. destruct O2 as [_ [I2 R2]].
  rewrite <- R2 in A2.
  eexists. split; [rewrite A2; apply in_or_app; right; left; reflexivity|].
  unfold created_appointment. cbn [a_id a_patient_id]. rewrite Res.
  split; [now symmetry|reflexivity].
Qed.

Lemma patient_is_created_once_witness :
  let '(r1, st1) := call no_fault (Sample.at_time 1000)
                      (Sample.book Sample.maria 101) Sample.empty in
  let '(r2, st2) := call no_fault (Sample.at_time 2000)
                      (Sample.book Sample.maria_again 102) st1 in
  r1 = Booked 1 /\ r2 = Booked 2 /\
  filter (has_cpf "12345678900") (patients (rows st2))
  = [created_patient 1 Sample.maria].
Proof.
  destruct (call no_fault (Sample.at_time 1000)
              (Sample.book Sample.maria 101) Sample.empty)
    as [r1 st1] eqn:E1.
  destruct (call no_fault (Sample.at_time 2000)
              (Sample.book Sample.maria_again 102) st1)
    as [r2 st2] eqn:E2.
  assert (Q1 : r1 = Booked 1).
  { apply (f_equal fst) in E1. cbn [fst] in E1. rewrite <- E1. reflexivity. }
  assert (Q2 : r2 = Booked 2).
  { apply (f_equal fst) in E2. cbn [fst] in E2. rewrite <- E2.
    apply (f_equal snd) in E1. cbn [snd] in E1. rewrite <- E1. reflexivity. }
  split; [exact Q1|]. split; [exact Q2|].
  rewrite Q1 in E1.
  exact (proj1 (patient_is_created_once no_fault no_fault
                  (Sample.at_time 1000) (Sample.at_time 2000) Sample.empty
                  "12345678900" Sample.maria 7 101 (PStr "C1") PNone None
                  1 st1 Sample.maria_again 7 102 (PStr "C1") PNone None
                  r2 st2 eq_refl eq_refl eq_refl E1 E2)).
Defined.

(** Claim C6 as worded fails when the first booking does not commit: its
    patient row is rolled back, and the one row the key ends with carries
    the second profile. *)
Lemma second_profile_wins_after_failed_booking :
  let st := snd (call no_fault (Sample.at_time 1000)
                   (Sample.book Sample.joao 101) Sample.empty) in
  let '(r1, st1) := call no_fault (Sample.at_time 2000)
                      (Sample.book Sample.maria 101) st in
  let '(r2, st2) := call no_fault (Sample.at_time 3000)
                      (Sample.book Sample.maria_again 102) st1 in
  r1 = SlotUnavailable /\ r2 = Booked 2 /\
  filter (has_cpf "12345678900") (patients (rows st2))
  = [created_patient 3 Sample.maria_again] /\
  p_name (created_patient 3 Sample.maria_again)
  <> p_name (created_patient 3 Sample.maria).
Proof.
  cbv zeta. vm_compute. repeat split. discriminate.
Qed.

(** What [_get_or_create_patient] does on a connection that sees no
    patient with the key. *)
Lemma get_or_create_patient_miss ck st pending patient_data :
  find_patient (view (rows st) pending) (dict_get patient_data "cpf") = None ->
  run no_fault ck (_get_or_create_patient patient_data) (st, pending)
  = (inr (patients_id_seq st),
     (mk_store (rows st) (patients_id_seq st + 1) (appointments_id_seq st),
      pending ++ [WPatient (created_patient (patients_id_seq st)
                              patient_data)])).
Proof.
  intros H. unfold _get_or_create_patient, py_bind, execute, ret.
  cbn [run bind]. unfold perform at 1.
  cbn [no_fault can_fail andb exec]. rewrite H.
  cbn [option_map bind run]. unfold perform at 1.
  cbn [no_fault can_fail andb exec]. rewrite cast_normalize_insurance_type.
  reflexivity.
Qed.

Lemma get_or_create_patient_hit ck st pending patient_data p :
  find_patient (view (rows st) pending) (dict_get patient_data "cpf") = Some p ->
  run no_fault ck (_get_or_create_patient patient_data) (st, pending)
  = (inr (p_id p), (st, pending)).
Proof.
  intros H. unfold _get_or_create_patient, py_bind, execute, ret.
  cbn [run bind]. unfold perform at 1.
  cbn [no_fault can_fail andb exec]. rewrite H. reflexivity.
Qed.

(** Claim C8, as the code has it.  The row inserted for a new patient
    takes the e-mail address and the telephone number of the call when
    they are given and not empty; a missing address becomes the
    placeholder built from the identity key, a missing telephone number
    becomes the empty text.  The insurance category is HEALTH_PLAN
    exactly when the value given, upper-cased and stripped, reads
    HEALTH_PLAN; it is PARTICULAR otherwise, in particular when no value
    is given. *)
Theorem new_patient_defaults :
  forall ck st pending patient_data,
    find_patient (view (rows st) pending) (dict_get patient_data "cpf")
    = None ->
    exists p st',
      run no_fault ck (_get_or_create_patient patient_data) (st, pending)
      = (inr (p_id p), (st', pending ++ [WPatient p])) /\
      p_cpf p = dict_get patient_data "cpf" /\
      p_email p
      = (if truthy (dict_get patient_data "email")
         then py_str (dict_get patient_data "email")
         else "paciente_" ++ py_str (dict_get patient_data "cpf")
              ++ "@clinica.com")%string /\
      p_phone p
      = (if truthy (dict_get patient_data "phone")
         then py_str (dict_get patient_data "phone")
         else "") /\
      (dict_lookup patient_data "insurance_type" = None ->
       p_insurance_type p = PARTICULAR) /\
      (forall v, dict_lookup patient_data "insurance_type" = Some v ->
         p_insurance_type p
         = if (truthy v
               && String.eqb (Text.strip (Text.upper (py_str v)))
                    "HEALTH_PLAN")%bool
           then HEALTH_PLAN else PARTICULAR).
Proof.
  intros ck st pending patient_data H.
  exists (created_patient (patients_id_seq st) patient_data).
  eexists. split; [now apply get_or_create_patient_miss|].
  unfold created_patient.
  cbn [p_cpf p_email p_phone p_insurance_type].
  repeat split.
  - intros L. unfold dict_get_default. rewrite L. reflexivity.
  - intros v L. unfold dict_get_default. rewrite L.
    unfold insurance_of, normalize_insurance_type.
    destruct (truthy v); [|reflexivity]. cbn [andb].
    unfold py_in, valid_types. cbn [existsb].
    destruct (String.eqb_spec (Text.strip (Text.upper (py_str v)))
                "PARTICULAR") as [->|_]; [reflexivity|].
    cbn [orb].
    destruct (String.eqb_spec (Text.strip (Text.upper (py_str v)))
                "HEALTH_PLAN") as [->|_]; reflexivity.
Qed.

Lemma new_patient_defaults_witness :
  exists p,
    snd (snd (run no_fault (Sample.at_time 1000)
                (_get_or_create_patient Sample.maria) (Sample.empty, [])))
    = [WPatient p] /\
    p_email p = "paciente_12345678900@clinica.com" /\
    p_phone p = "" /\
    p_insurance_type p = PARTICULAR.
Proof.
  destruct (new_patient_defaults (Sample.at_time 1000) Sample.empty []
              Sample.maria eq_refl)
    as [p [st' [R [_ [E [P [I _]]]]]]].
  exists p. rewrite R. cbn [snd app]. split; [reflexivity|].
  split; [exact E|]. split; [exact P|]. exact (I eq_refl).
Defined.

(** Claim C8 as worded fails for the telephone number: a call that gives
    none stores the empty text, which owes nothing to the identity key,
    while the e-mail address is built from it. *)
Lemma missing_phone_is_left_empty :
  dict_lookup Sample.maria "phone" = None /\
  exists p,
    snd (snd (run no_fault (Sample.at_time 1000)
                (_get_or_create_patient Sample.maria) (Sample.empty, [])))
    = [WPatient p] /\
    p_cpf p = PStr "12345678900" /\
    p_email p = "paciente_12345678900@clinica.com" /\
    p_phone p = "" /\
    ~ Text.occurs_in "12345678900" (p_phone p).
Proof.
  split; [reflexivity|].
  eexists. split; [reflexivity|]. cbn [p_cpf p_email p_phone].
  repeat split.
  intros [pre [post E]].
  destruct pre; cbn in E; discriminate E.
Qed.

(** ** Reading an appointment *)

Lemma select_details_none t appointment_id :
  find_appointment t appointment_id = None ->
  select_details t appointment_id = None.
Proof.
  unfold find_appointment, select_details. intros H.
  apply find_none_filter in H. rewrite H. reflexivity.
Qed.

(** Claim C10.  [get_appointment_by_id] always returns, and changes
    nothing.  It returns [None] when no appointment has the id, and it
    returns [None] when the connection or the query fails: the two cases
    give the caller the same value. *)
Theorem get_appointment_by_id_none :
  forall faults ck st appointment_id,
    (find_appointment (rows st) appointment_id = None ->
     call faults ck (get_appointment_by_id appointment_id) st = (None, st)) /\
    (faults unit Connect = true \/
     faults _ (SelectDetails appointment_id) = true ->
     call faults ck (get_appointment_by_id appointment_id) st = (None, st)).
Proof.
  intros faults ck st appointment_id. split.
  - intros H. unfold_calls.
    answer; [reflexivity|]. answer; [reflexivity|].
    rewrite (select_details_none _ _ H). reflexivity.
  - intros H. unfold_calls.
    answer; [reflexivity|]. answer; [reflexivity|].
    destruct H; congruence.
Qed.

Lemma get_appointment_by_id_none_witness :
  call no_fault (Sample.at_time 1000) (get_appointment_by_id 5) Sample.empty
  = (None, Sample.empty) /\
  call (fun _ _ => true) (Sample.at_time 1000) (get_appointment_by_id 1)
    Sample.rebooked
  = (None, Sample.rebooked).
Proof.
  split.
  - exact (proj1 (get_appointment_by_id_none no_fault (Sample.at_time 1000)
                    Sample.empty 5) eq_refl).
  - exact (proj2 (get_appointment_by_id_none (fun _ _ => true)
                    (Sample.at_time 1000) Sample.rebooked 1)
             (or_introl eq_refl)).
Defined.

(** The result never changes the store, whatever it is. *)
Lemma get_appointment_by_id_reads_only faults ck st appointment_id :
  snd (call faults ck (get_appointment_by_id appointment_id) st) = st.
Proof.
  unfold_calls.
  answer; [reflexivity|]. answer; [reflexivity|].
  destruct (select_details (rows st) appointment_id) as [row|];
    [|reflexivity].
  unfold to_result_dict, raise, ret. cbn [bind run].
  destruct (py_int _); reflexivity.
Qed.

(** ** Text *)

Module TextFacts.

Import Text.

Lemma append_assoc (a b c : string) :
  ((a ++ b) ++ c = a ++ b ++ c)%string.
Proof. induction a as [|x a IH]; cbn; [reflexivity|now rewrite IH]. Qed.

Lemma append_empty_r (a : string) : (a ++ "" = a)%string.
Proof. induction a as [|x a IH]; cbn; [reflexivity|now rewrite IH]. Qed.

Lemma map_append f (a b : string) :
  (map f (a ++ b) = map f a ++ map f b)%string.
Proof. induction a as [|x a IH]; cbn; [reflexivity|now rewrite IH]. Qed.

Lemma occurs_in_map f t s : occurs_in t s -> occurs_in (map f t) (map f s).
Proof.
  intros [pre [post ->]]. exists (map f pre), (map f post).
  now rewrite !map_append.
Qed.

Lemma occurs_in_trans t s u : occurs_in t s -> occurs_in s u -> occurs_in t u.
Proof.
  intros [p1 [q1 ->]] [p2 [q2 ->]].
  exists (p2 ++ p1)%string, (q1 ++ q2)%string.
  now rewrite !append_assoc.
Qed.

Lemma lstrip_suffix sp s : exists a, (s = a ++ lstrip sp s)%string.
Proof.
  induction s as [|c s [a IH]]; cbn [lstrip]; [now exists ""|].
  destruct (sp c); [|now exists ""].
  exists (String c a). cbn. now rewrite <- IH.
Qed.

Lemma rstrip_prefix sp s : exists b, (s = rstrip sp s ++ b)%string.
Proof.
  induction s as [|c s [b IH]]; cbn [rstrip]; [now exists ""|].
  destruct (rstrip sp s) as [|d r] eqn:E.
  - destruct (sp c).
    + exists (String c s). reflexivity.
    + exists b. cbn in *. now rewrite <- IH.
  - exists b. cbn in *. now rewrite <- IH.
Qed.

(** Trimming keeps a run of the text. *)
Lemma trim_occurs s : occurs_in (trim s) s.
Proof.
  unfold trim.
  destruct (lstrip_suffix sql_space s) as [a Ha].
  destruct (rstrip_prefix sql_space (lstrip sql_space s)) as [b Hb].
  exists a, b. now rewrite <- Hb.
Qed.

Lemma rstrip_keeps sp s c :
  sp c = false ->
  (rstrip sp (s ++ String c "") = s ++ String c "")%string.
Proof.
  intros H. induction s as [|d s IH]; cbn [append rstrip].
  - now rewrite H.
  - rewrite IH. destruct s; reflexivity.
Qed.

(** The pattern built around a text is not changed by [TRIM]. *)
Lemma trim_pattern t :
  (trim ("%" ++ t ++ "%") = "%" ++ t ++ "%")%string.
Proof.
  unfold trim. cbn [append lstrip].
  change (sql_space "%") with false. cbv iota.
  change (String "%" (t ++ "%"))%string
    with (String "%" (t ++ String "%" ""))%string.
  rewrite <- (rstrip_keeps sql_space (String "%" t) "%"%char) at 2
    by reflexivity.
  reflexivity.
Qed.

Lemma to_lower_plain c :
  (negb (Ascii.eqb c backslash) && negb (Ascii.eqb c "%")
   && negb (Ascii.eqb c "_"))%bool = true ->
  (negb (Ascii.eqb (to_lower c) backslash)
   && negb (Ascii.eqb (to_lower c) "%")
   && negb (Ascii.eqb (to_lower c) "_"))%bool = true.
Proof.
  destruct c as [[] [] [] [] [] [] [] []]; vm_compute; intros H; exact H.
Qed.

Lemma plain_lower t : plain t = true -> plain (lower t) = true.
Proof.
  induction t as [|c t IH]; cbn [plain lower map]; [reflexivity|].
  intros H. apply andb_true_iff in H. destruct H as [H1 H2].
  fold (lower t). rewrite (IH H2), andb_true_r. now apply to_lower_plain.
Qed.

Lemma like_tokens_plain t ts rest :
  plain t = true ->
  like_tokens rest = Some ts ->
  like_tokens (t ++ rest) = Some (literal t ++ ts).
Proof.
  intros P R. induction t as [|c t IH]; cbn [append literal app]; [exact R|].
  cbn [plain] in P.
  apply andb_true_iff in P. destruct P as [P Pt].
  apply andb_true_iff in P. destruct P as [P P3].
  apply andb_true_iff in P. destruct P as [P1 P2].
  apply negb_true_iff in P1, P2, P3.
  cbn [like_tokens]. rewrite P1, P2, P3, (IH Pt). reflexivity.
Qed.

(** The tokens of the pattern built around a text without wildcards. *)
Lemma like_tokens_pattern t :
  plain t = true ->
  like_tokens (lower (trim ("%" ++ t ++ "%")))
  = Some (LAny :: literal (lower t) ++ [LAny]).
Proof.
  intros P. rewrite trim_pattern. unfold lower.
  change ("%" ++ t ++ "%")%string with (String "%" (t ++ "%"))%string.
  cbn [map]. rewrite map_append.
  change (to_lower "%") with "%"%char.
  change (like_tokens (String "%" (map to_lower t ++ map to_lower "%")))
    with (option_map (cons LAny)
            (like_tokens (map to_lower t ++ "%"))).
  rewrite (like_tokens_plain (map to_lower t) [LAny] "%").
  - reflexivity.
  - now apply plain_lower.
  - reflexivity.
Qed.

(** The pattern built around any text is accepted by the server. *)
Lemma like_tokens_end p :
  like_tokens (p ++ "%") <> None.
Proof.
  remember (String.length p) as n eqn:L. revert p L.
  induction n as [n IH] using lt_wf_ind. intros p L.
  destruct p as [|c p]; [discriminate|].
  cbn [append like_tokens].
  destruct (Ascii.eqb c backslash).
  - destruct p as [|d p]; cbn [append]; [discriminate|].
    specialize (IH (String.length p)). cbn in L.
    destruct (like_tokens (p ++ "%")) eqn:E; [discriminate|].
    exfalso. apply (IH ltac:(lia) p eq_refl). exact E.
  - specialize (IH (String.length p)). cbn in L.
    assert (Q : like_tokens (p ++ "%") <> None)
      by (apply (IH ltac:(lia) p eq_refl)).
    destruct (like_tokens (p ++ "%")); [|contradiction].
    destruct (Ascii.eqb c "%"); [discriminate|].
    destruct (Ascii.eqb c "_"); discriminate.
Qed.

Lemma like_any_unfold ts s :
  like_match (LAny :: ts) s
  = (like_match ts s
     || match s with
        | String _ s' => like_match (LAny :: ts) s'
        | EmptyString => false
        end)%bool.
Proof. destruct s; reflexivity. Qed.

Lemma like_any_split ts s :
  like_match (LAny :: ts) s = true ->
  exists pre post, (s = pre ++ post)%string /\ like_match ts post = true.
Proof.
  induction s as [|c s IH]; rewrite like_any_unfold; intros H;
    apply orb_true_iff in H; destruct H as [H|H].
  - now exists "", "".
  - discriminate.
  - now exists "", (String c s).
  - destruct (IH H) as [pre [post [-> M]]].
    now exists (String c pre), post.
Qed.

Lemma like_literal_split t ts s :
  like_match (literal t ++ ts) s = true ->
  exists rest, (s = t ++ rest)%string /\ like_match ts rest = true.
Proof.
  revert s. induction t as [|c t IH]; intros s H; cbn [literal app] in H.
  - now exists s.
  - cbn [like_match] in H. destruct s as [|d s]; [discriminate|].
    apply andb_true_iff in H. destruct H as [E M].
    apply Ascii.eqb_eq in E. subst d.
    destruct (IH s M) as [rest [-> R]]. now exists rest.
Qed.

(** A text matched by the pattern around [t] contains [t]. *)
Lemma like_pattern_occurs t s :
  like_match (LAny :: literal t ++ [LAny]) s = true -> occurs_in t s.
Proof.
  intros H. destruct (like_any_split _ _ H) as [pre [post [-> M]]].
  destruct (like_literal_split _ _ _ M) as [rest [-> _]].
  now exists pre, rest.
Qed.

Lemma starts_with_append t post : starts_with t (t ++ post) = true.
Proof.
  induction t as [|c t IH]; cbn; [reflexivity|].
  now rewrite Ascii.eqb_refl, IH.
Qed.

Lemma occurs_in_occursb t s : occurs_in t s -> occursb t s = true.
Proof.
  intros [pre [post ->]]. induction pre as [|c pre IH]; cbn [append].
  - destruct (t ++ post)%string eqn:E; cbn [occursb];
      rewrite <- E, starts_with_append; reflexivity.
  - cbn [occursb]. rewrite IH. apply orb_true_r.
Qed.

End TextFacts.

(** ** Ordering and paging *)

Section OrderBy.

Context {A : Type}.
Variable leb : A -> A -> bool.
Hypothesis leb_total : forall x y, leb x y = true \/ leb y x = true.
Hypothesis leb_trans :
  forall x y z, leb x y = true -> leb y z = true -> leb x z = true.

Lemma in_insert_sorted x y l :
  In y (insert_sorted leb x l) <-> y = x \/ In y l.
Proof.
  induction l as [|z l IH]; cbn [insert_sorted In]; [intuition|].
  destruct (leb x z); cbn [In]; [intuition|].
  rewrite IH. intuition.
Qed.

Lemma in_order_by y l : In y (order_by leb l) <-> In y l.
Proof.
  induction l as [|x l IH]; cbn [order_by fold_right In]; [tauto|].
  fold (order_by leb l). rewrite in_insert_sorted, IH. intuition.
Qed.

Lemma insert_sorted_sorted x l :
  StronglySorted (fun a b => leb a b = true) l ->
  StronglySorted (fun a b => leb a b = true) (insert_sorted leb x l).
Proof.
  induction 1 as [|y l S IH F]; cbn [insert_sorted].
  - constructor; constructor.
  - destruct (leb x y) eqn:E.
    + constructor; [now constructor|].
      constructor; [exact E|].
      apply Forall_forall. intros z Hz.
      rewrite Forall_forall in F. exact (leb_trans _ _ _ E (F z Hz)).
    + constructor; [exact IH|].
      apply Forall_forall. intros z Hz. apply in_insert_sorted in Hz.
      destruct Hz as [->|Hz].
      * destruct (leb_total x y) as [C|C]; [congruence|exact C].
      * rewrite Forall_forall in F. exact (F z Hz).
Qed.

Lemma order_by_sorted l :
  StronglySorted (fun a b => leb a b = true) (order_by leb l).
Proof.
  induction l as [|x l IH]; cbn [order_by fold_right]; [constructor|].
  now apply insert_sorted_sorted.
Qed.

End OrderBy.

Lemma in_firstn {A : Type} (n : nat) (l : list A) (x : A) :
  In x (firstn n l) -> In x l.
Proof.
  revert l. induction n as [|n IH]; intros l; cbn [firstn]; [intros []|].
  destruct l as [|y l]; cbn [In]; [tauto|]. intros [->|H]; auto.
Qed.

Lemma firstn_sorted {A : Type} (R : A -> A -> Prop) (n : nat) (l : list A) :
  StronglySorted R l -> StronglySorted R (firstn n l).
Proof.
  intros S. revert n. induction S as [|x l S IH F]; intros [|n];
    cbn [firstn]; try constructor.
  - apply IH.
  - apply Forall_forall. intros y Hy. rewrite Forall_forall in F.
    apply F. now apply in_firstn with (n := n).
Qed.

Lemma map_sorted {A B : Type} (R : A -> A -> Prop) (Q : B -> B -> Prop)
    (f : A -> B) (l : list A) :
  (forall x y, R x y -> Q (f x) (f y)) ->
  StronglySorted R l -> StronglySorted Q (List.map f l).
Proof.
  intros H. induction 1 as [|x l S IH F]; cbn [List.map]; constructor.
  - exact IH.
  - apply Forall_forall. intros y Hy. apply in_map_iff in Hy.
    destruct Hy as [z [<- Hz]]. rewrite Forall_forall in F. auto.
Qed.

Lemma by_slot_total x y : by_slot x y = true \/ by_slot y x = true.
Proof.
  unfold by_slot, slot_leb.
  destruct (Z.ltb_spec (s_date (snd x)) (s_date (snd y)));
    destruct (Z.ltb_spec (s_date (snd y)) (s_date (snd x)));
    destruct (Z.eqb_spec (s_date (snd x)) (s_date (snd y)));
    destruct (Z.eqb_spec (s_date (snd y)) (s_date (snd x)));
    destruct (Z.leb_spec (s_time (snd x)) (s_time (snd y)));
    destruct (Z.leb_spec (s_time (snd y)) (s_time (snd x)));
    cbn; auto; lia.
Qed.

Lemma slot_leb_le a b :
  slot_leb a b = true <->
  s_date a < s_date b \/ (s_date a = s_date b /\ s_time a <= s_time b).
Proof.
  unfold slot_leb.
  rewrite orb_true_iff, andb_true_iff, Z.ltb_lt, Z.eqb_eq, Z.leb_le.
  reflexivity.
Qed.

Lemma by_slot_trans x y z :
  by_slot x y = true -> by_slot y z = true -> by_slot x z = true.
Proof.
  unfold by_slot. rewrite !slot_leb_le. lia.
Qed.

(** ** Searching *)

Lemma in_availability_join t c d a :
  In (c, d, a) (availability_join t) ->
  In c (clinics t) /\ In d (doctors t) /\ In a (available_slots t) /\
  d_clinic_id d = c_id c /\ s_doctor_id a = d_id d /\ s_clinic_id a = c_id c.
Proof.
  unfold availability_join. intros H.
  apply in_flat_map in H. destruct H as [c' [Hc H]].
  apply in_flat_map in H. destruct H as [d' [Hd H]].
  destruct (String.eqb_spec (c_id c') (d_clinic_id d')) as [E1|]; [|easy].
  apply in_flat_map in H. destruct H as [a' [Ha H]].
  destruct (Z.eqb_spec (d_id d') (s_doctor_id a')) as [E2|]; [|easy].
  destruct (String.eqb_spec (c_id c') (s_clinic_id a')) as [E3|]; [|easy].
  cbn in H. destruct H as [H|[]]. injection H as -> -> ->.
  repeat split; auto; congruence.
Qed.

(** The rows of the availability query for the pattern built around a
    text. *)
Lemma select_availability_rows t today text l :
  select_availability t today ("%" ++ text ++ "%")%string = Some l ->
  (forall r, In r l ->
     exists c d a,
       r = availability_of c d a /\
       In c (clinics t) /\ In d (doctors t) /\ In a (available_slots t) /\
       d_clinic_id d = c_id c /\ s_doctor_id a = d_id d /\
       s_clinic_id a = c_id c /\
       s_is_available a = true /\
       today <= s_date a /\
       (Text.plain text = true ->
        Text.occurs_in (Text.lower text) (Text.lower (d_specialty d)))) /\
  StronglySorted row_le l /\
  (List.length l <= page_size)%nat.
Proof.
  unfold select_availability. intros H.
  destruct (Text.like_tokens (Text.lower (Text.trim ("%" ++ text ++ "%"))))
    as [ts|] eqn:T; [|discriminate].
  match type of H with Some ?x = _ => set (found := x) in H end.
  assert (L : l = found) by congruence.
  clear H. subst l found. split; [|split].
  - intros r Hr.
    apply in_map_iff in Hr. destruct Hr as [[[c d] a] [<- Hx]].
    apply in_firstn in Hx. apply in_order_by in Hx.
    apply filter_In in Hx. destruct Hx as [J W].
    apply in_availability_join in J.
    unfold availability_where in W.
    apply andb_true_iff in W. destruct W as [W W3].
    apply andb_true_iff in W. destruct W as [W1 W2].
    exists c, d, a. repeat split; try tauto.
    + now apply Z.leb_le.
    + intros P.
      rewrite (TextFacts.like_tokens_pattern text P) in T. injection T as <-.
      apply TextFacts.like_pattern_occurs in W1.
      apply TextFacts.occurs_in_trans with (1 := W1).
      apply TextFacts.occurs_in_map. apply TextFacts.trim_occurs.
  - apply map_sorted with (R := fun x y => by_slot x y = true).
    + intros [[c1 d1] a1] [[c2 d2] a2]. unfold by_slot, row_le.
      cbn [snd availability_of r_appointment_date r_appointment_time].
      now rewrite slot_leb_le.
    + apply firstn_sorted. apply order_by_sorted.
      * exact by_slot_total.
      * exact by_slot_trans.
  - rewrite length_map. apply firstn_le_length.
Qed.

(** Claim C9, as the code has it.  Every row the search returns joins a
    clinic, one of its doctors and one of that doctor's slots at the
    clinic, and carries their fields; the slot is AVAILABLE and dated
    today or later; and when no character of the specialty text is a
    [LIKE] wildcard or escape, the doctor's specialty contains the text,
    letter case aside.  The rows are in date then time order and number
    at most 20, and the store is left as it was. *)
Theorem search_returns_matching_slots :
  forall faults ck st specialty,
    let '(results, st') :=
      call faults ck (search_specialty_availability specialty) st in
    (forall r, In r results ->
       exists c d a,
         r = availability_of c d a /\
         In c (clinics (rows st)) /\ In d (doctors (rows st)) /\
         In a (available_slots (rows st)) /\
         d_clinic_id d = c_id c /\ s_doctor_id a = d_id d /\
         s_clinic_id a = c_id c /\
         s_is_available a = true /\
         today ck <= s_date a /\
         (Text.plain specialty = true ->
          Text.occurs_in (Text.lower specialty)
            (Text.lower (d_specialty d)))) /\
    StronglySorted row_le results /\
    (List.length results <= 20)%nat /\
    st' = st.
Proof.
  intros faults ck st specialty.
  assert (E : forall P : availability_row -> Prop,
             (forall r, In r (@nil availability_row) -> P r) /\
             StronglySorted row_le [] /\
             (List.length (@nil availability_row) <= 20)%nat /\
             st = st).
  { intros P. repeat split; [intros r []|constructor|cbn; lia]. }
  unfold_calls.
  answer; [apply E|].
  answer; [apply E|].
  destruct (select_availability (rows st) (today ck)
              ("%" ++ specialty ++ "%")) as [l|] eqn:S; cbn [bind run].
  - destruct (select_availability_rows _ _ _ _ S) as [R1 [R2 R3]].
    unfold perform. cbn. repeat split; auto.
  - unfold perform. cbn. apply E.
Qed.

(** Property X8.
    The pattern the search builds is never refused by the server. *)
Lemma search_pattern_accepted text :
  Text.like_tokens (Text.lower (Text.trim ("%" ++ text ++ "%"))) <> None.
Proof.
  rewrite TextFacts.trim_pattern.
  change ("%" ++ text ++ "%")%string with (("%" ++ text) ++ "%")%string.
  unfold Text.lower. rewrite TextFacts.map_append.
  apply TextFacts.like_tokens_end.
Qed.

Lemma search_returns_matching_slots_witness :
  let '(results, st') :=
    call no_fault (Sample.at_time 1000)
      (search_specialty_availability "cardio") Sample.empty in
  List.map r_slot_id results = [101; 102] /\
  (forall r, In r results ->
     Text.occurs_in "cardio" (Text.lower (r_specialty r))) /\
  StronglySorted row_le results /\
  st' = Sample.empty.
Proof.
  pose proof (search_returns_matching_slots no_fault (Sample.at_time 1000)
                Sample.empty "cardio") as T.
  destruct (call no_fault (Sample.at_time 1000)
              (search_specialty_availability "cardio") Sample.empty)
    as [results st'] eqn:E.
  destruct T as [R [S [_ Q]]].
  split; [|split; [|split; assumption]].
  - apply (f_equal fst) in E. cbn [fst] in E. rewrite <- E. reflexivity.
  - intros r Hr.
    destruct (R r Hr) as [c [d [a [-> [_ [_ [_ [_ [_ [_ [_ [_ O]]]]]]]]]]]].
    exact (O eq_refl).
Defined.

(** Claim C9 as worded fails for a text with a wildcard: the underscore
    of "c_rd" stands for any character, so a cardiologist is returned
    although "c_rd" occurs nowhere in "Cardiologia". *)
Lemma search_wildcard_matches_other_text :
  let results :=
    fst (call no_fault (Sample.at_time 1000)
           (search_specialty_availability "c_rd") Sample.empty) in
  exists r,
    In r results /\
    r_specialty r = "Cardiologia" /\
    ~ Text.occurs_in (Text.lower "c_rd") (Text.lower (r_specialty r)).
Proof.
  cbv zeta. eexists. split; [left; reflexivity|].
  split; [reflexivity|].
  intros H. apply TextFacts.occurs_in_occursb in H. vm_compute in H.
  discriminate H.
Qed.

(** ** Concurrent bookings *)

Lemma not_blocked_alone {R : Type} (o : db_op R) : blocked o [] = false.
Proof. destruct o; reflexivity. Qed.

(** A call that runs with no other in progress does what [run] says. *)
Lemma alone_is_run {A : Type} (p : prog A) ck st pending :
  exists n,
    interleave (repeat 0%nat n) (st, [mk_session ck p pending])
    = Some (let '(a, (st', pending')) := run no_fault ck p (st, pending) in
            (st', [mk_session ck (Ret a) pending'])).
Proof.
  revert st pending.
  induction p as [a|R o k IH]; intros st pending.
  - exists 0%nat. reflexivity.
  - cbn [run]. unfold perform.
    replace (can_fail o && no_fault R o)%bool with false
      by (now rewrite andb_false_r).
    destruct (exec ck o (st, pending)) as [r [st1 pending1]] eqn:E.
    destruct (IH r st1 pending1) as [n Hn].
    exists (S n). cbn [repeat interleave step nth_error ss_prog ss_clock
                       ss_pending others_pending List.map].
    rewrite not_blocked_alone, E. cbn [replace_nth]. exact Hn.
Qed.

(** Claim C2, where the code departs from it.  Two bookings of the free
    slot 101 run at once; each reads the flag of the slot before the
    other writes it.  Both calls return success, and the slot ends with
    two CONFIRMED appointments.  Run one after the other, the same two
    calls give one success and one "slot unavailable". *)
Theorem concurrent_bookings_both_succeed :
  (exists st l,
     interleave Sample.racing Sample.two_bookings = Some (st, l) /\
     List.map finished l = [Some (Booked 1); Some (Booked 2)] /\
     List.length (confirmed_for (rows st) 101) = 2%nat) /\
  (exists st l,
     interleave Sample.serial Sample.two_bookings = Some (st, l) /\
     List.map finished l = [Some (Booked 1); Some SlotUnavailable] /\
     List.length (confirmed_for (rows st) 101) = 1%nat).
Proof.
  split; do 2 eexists; (split; [vm_compute; reflexivity|]);
    split; reflexivity.
Qed.

(** ** Where I1 does hold *)

(** The appointment sequence over a booking: it never goes back, and a
    booking that succeeds has used exactly one value. *)
Lemma create_appointment_sequence faults ck st patient_data doctor_id slot_id
    clinic_id insurance_type insurance_plan_id :
  let '(r, st') :=
    call faults ck
      (create_appointment patient_data doctor_id slot_id clinic_id
         insurance_type insurance_plan_id) st in
  appointments_id_seq st <= appointments_id_seq st' /\
  (forall id, r = Booked id -> appointments_id_seq st' = id + 1).
Proof.
  assert (D : forall (q : Z) (e : exn) (id : Z),
             BookingFailed e = Booked id -> q = id + 1) by discriminate.
  assert (U : forall (q : Z) (id : Z),
             SlotUnavailable = Booked id -> q = id + 1) by discriminate.
  unfold_calls.
  answer; [split; [lia|apply D]|].
  answer; [split; [lia|apply D]|].
  destruct (find_patient (rows st) (dict_get patient_data "cpf"))
    as [p|] eqn:FP; cbn [option_map bind run fst snd app].
  - answer; [split; [lia|apply D]|].
    destruct (option_truthy _); cbn [negb bind run].
    + answer; [unfold perform; cbn; split; [lia|apply D]|]. casts.
      answer; [unfold perform; cbn; split; [lia|apply D]|].
      answer; [unfold perform; cbn; split; [lia|apply D]|].
      unfold perform. cbn. split; [lia|]. intros id E. now injection E as <-.
    + unfold perform. cbn. split; [lia|apply U].
  - answer; [split; [lia|apply D]|]. casts.
    answer; [unfold perform; cbn; split; [lia|apply D]|].
    destruct (option_truthy _); cbn [negb bind run].
    + answer; [unfold perform; cbn; split; [lia|apply D]|]. casts.
      answer; [unfold perform; cbn; split; [lia|apply D]|].
      answer; [unfold perform; cbn; split; [lia|apply D]|].
      unfold perform. cbn. split; [lia|]. intros id E. now injection E as <-.
    + unfold perform. cbn. split; [lia|apply U].
Qed.

Lemma confirmed_for_nil_or_not t slot_id :
  confirmed_for t slot_id = [] \/ confirmed_for t slot_id <> [].
Proof. destruct (confirmed_for t slot_id); [now left|now right]. Qed.

Lemma all_free_I1 t : all_free t -> I1 t.
Proof.
  intros F s Hs. destruct (F s Hs) as [A C]. rewrite A, C.
  split; [cbn; lia|]. split; [discriminate|congruence].
Qed.

(** A booking keeps I1, whatever the storage layer does. *)
Lemma book_keeps_I1 faults ck st patient_data doctor_id slot_id clinic_id
    insurance_type insurance_plan_id :
  I1 (rows st) ->
  I1 (rows (snd (call faults ck
                   (create_appointment patient_data doctor_id slot_id
                      clinic_id insurance_type insurance_plan_id) st))).
Proof.
  intros Inv.
  pose proof (create_appointment_outcome faults ck st patient_data doctor_id
                slot_id clinic_id insurance_type insurance_plan_id) as O.
  destruct (call faults ck _ st) as [r st']. cbn [snd].
  destruct r as [id| |e]; [|destruct O as [_ ->]; exact Inv
                           |rewrite O; exact Inv].
  destruct O as [C [_ R]].
  destruct (booked_rows ck st patient_data doctor_id slot_id clinic_id
              insurance_type insurance_plan_id) as [BA [_ [BS _]]].
  rewrite <- R in BA, BS. clear R.
  set (b := created_appointment ck st patient_data doctor_id slot_id
              clinic_id insurance_type insurance_plan_id) in *.
  assert (Free : confirmed_for (rows st) slot_id = []).
  { unfold claimable in C.
    destruct (find_slot (rows st) slot_id) as [s0|] eqn:FS; [|discriminate].
    cbn in C. pose proof (find_slot_id _ _ _ FS) as Id.
    unfold find_slot in FS. apply find_some in FS. destruct FS as [In0 _].
    destruct (Inv s0 In0) as [_ [_ H]]. rewrite Id in H.
    destruct (confirmed_for_nil_or_not (rows st) slot_id) as [E|E];
      [exact E|]. apply H in E. congruence. }
  assert (New : forall id0,
             confirmed_for (rows st') id0
             = confirmed_for (rows st) id0
               ++ (if Z.eqb slot_id id0 then [b] else [])).
  { intros id0. unfold confirmed_for. rewrite BA, filter_app. f_equal.
    cbn [filter]. unfold confirmed_on, b, created_appointment.
    cbn [a_slot_id a_status status_eqb]. rewrite andb_true_r.
    destruct (Z.eqb slot_id id0); reflexivity. }
  intros s' Hs'. rewrite BS in Hs'. apply in_map_iff in Hs'.
  destruct Hs' as [s [<- Hs]]. rewrite set_available_id, New.
  unfold set_available. rewrite (Z.eqb_sym slot_id).
  destruct (Z.eqb_spec (s_id s) slot_id) as [E|NE].
  - rewrite E, Free. cbn. split; [lia|]. split; [discriminate|reflexivity].
  - rewrite app_nil_r. exact (Inv s Hs).
Qed.

Lemma book_keeps_fresh_ids faults ck st patient_data doctor_id slot_id
    clinic_id insurance_type insurance_plan_id :
  fresh_ids st ->
  fresh_ids (snd (call faults ck
                    (create_appointment patient_data doctor_id slot_id
                       clinic_id insurance_type insurance_plan_id) st)).
Proof.
  intros [ND Lt].
  pose proof (create_appointment_outcome faults ck st patient_data doctor_id
                slot_id clinic_id insurance_type insurance_plan_id) as O.
  pose proof (create_appointment_sequence faults ck st patient_data doctor_id
                slot_id clinic_id insurance_type insurance_plan_id) as Q.
  destruct (call faults ck _ st) as [r st']. cbn [snd].
  destruct Q as [Q1 Q2]. unfold fresh_ids.
  destruct r as [id| |e].
  - destruct O as [_ [Id R]].
    destruct (booked_rows ck st patient_data doctor_id slot_id clinic_id
                insurance_type insurance_plan_id) as [BA _].
    rewrite <- R in BA. rewrite BA, (Q2 id eq_refl), Id.
    rewrite map_app. cbn [List.map created_appointment a_id]. split.
    + apply NoDup_app; [exact ND|constructor; [intros []|constructor]|].
      intros x Hx [<-|[]]. apply in_map_iff in Hx.
      destruct Hx as [a [E Ha]]. specialize (Lt a Ha). lia.
    + intros a Ha. apply in_app_or in Ha. destruct Ha as [Ha|[<-|[]]].
      * specialize (Lt a Ha). lia.
      * unfold created_appointment. cbn [a_id]. lia.
  - destruct O as [_ ->]. split; [exact ND|].
    intros a Ha. specialize (Lt a Ha). lia.
  - rewrite O. split; [exact ND|].
    intros a Ha. specialize (Lt a Ha). lia.
Qed.

Lemma same_id_same_row (l : list appointment) (x y : appointment) :
  NoDup (List.map a_id l) -> In x l -> In y l -> a_id x = a_id y -> x = y.
Proof.
  induction l as [|z l IH]; cbn [List.map In]; [easy|].
  intros ND Hx Hy E. inversion ND as [|? ? Nin ND']; subst.
  destruct Hx as [->|Hx], Hy as [->|Hy]; auto.
  - exfalso. apply Nin. rewrite E. now apply in_map.
  - exfalso. apply Nin. rewrite <- E. now apply in_map.
Qed.

(** The CONFIRMED appointments of a slot once appointment [id] has been
    set to CANCELLED: those with another id. *)
Lemma confirmed_after_cancel id at_time reason sid (l : list appointment) :
  filter (confirmed_on sid)
    (List.map (set_cancelled id CANCELLED at_time reason) l)
  = filter (fun a => negb (Z.eqb (a_id a) id)) (filter (confirmed_on sid) l).
Proof.
  induction l as [|a l IH]; [reflexivity|].
  cbn [List.map filter]. rewrite IH.
  destruct (Z.eqb (a_id a) id) eqn:E.
  - replace (confirmed_on sid (set_cancelled id CANCELLED at_time reason a))
      with false
      by (unfold set_cancelled, confirmed_on; rewrite E; cbn;
          now rewrite andb_false_r).
    destruct (confirmed_on sid a); [|reflexivity].
    cbn [filter]. now rewrite E.
  - replace (set_cancelled id CANCELLED at_time reason a) with a
      by (unfold set_cancelled; now rewrite E).
    destruct (confirmed_on sid a); [|reflexivity].
    cbn [filter]. now rewrite E.
Qed.

(** Cancelling keeps I1 when it finds a CONFIRMED appointment, or none. *)
Lemma cancel_confirmed_keeps_I1 faults ck st appointment_id reason :
  fresh_ids st ->
  I1 (rows st) ->
  targets_confirmed st (Cancel appointment_id reason) ->
  I1 (rows (snd (call faults ck (cancel_appointment appointment_id reason)
                   st))).
Proof.
  intros [ND _] Inv T. cbn [targets_confirmed] in T.
  pose proof (cancel_appointment_outcome faults ck st appointment_id reason)
    as O.
  destruct (call faults ck _ st) as [r st']. cbn [snd].
  destruct r as [| |e]; [|destruct O as [_ ->]; exact Inv
                         |rewrite O; exact Inv].
  destruct O as [a [FA ->]]. rewrite FA in T.
  pose proof (find_appointment_id _ _ _ FA) as Id.
  unfold find_appointment in FA. apply find_some in FA.
  destruct FA as [Ina _].
  cbn [rows with_rows cancel_writes view fold_left apply_write
       available_slots appointments].
  intros s' Hs'. cbn [available_slots] in Hs'. apply in_map_iff in Hs'.
  destruct Hs' as [s [<- Hs]]. rewrite set_available_id.
  unfold confirmed_for. cbn [appointments].
  rewrite confirmed_after_cancel.
  fold (confirmed_for (rows st) (s_id s)).
  destruct (Inv s Hs) as [Le Iff].
  assert (Mine : In a (confirmed_for (rows st) (a_slot_id a))).
  { unfold confirmed_for. apply filter_In. split; [exact Ina|].
    unfold confirmed_on. now rewrite Z.eqb_refl, T. }
  unfold set_available.
  destruct (Z.eqb_spec (s_id s) (a_slot_id a)) as [E|NE].
  - rewrite E in *. cbn [s_is_available].
    destruct (confirmed_for (rows st) (a_slot_id a)) as [|x [|y l]];
      [destruct Mine| |cbn in Le; lia].
    destruct Mine as [->|[]]. cbn [filter].
    rewrite Id, Z.eqb_refl. cbn. split; [lia|].
    split; [discriminate|congruence].
  - assert (Keep : filter (fun x => negb (Z.eqb (a_id x) appointment_id))
                     (confirmed_for (rows st) (s_id s))
                   = confirmed_for (rows st) (s_id s)).
    { apply forallb_filter_id. apply forallb_forall. intros x Hx.
      apply negb_true_iff. apply Z.eqb_neq. intros Ex.
      unfold confirmed_for in Hx. apply filter_In in Hx.
      destruct Hx as [Inx Cx].
      assert (x = a)
        by (apply (same_id_same_row _ _ _ ND Inx Ina); congruence).
      subst x. unfold confirmed_on in Cx. apply andb_true_iff in Cx.
      destruct Cx as [Cx _]. apply Z.eqb_eq in Cx. congruence. }
    rewrite Keep. split; assumption.
Qed.

Lemma cancel_keeps_fresh_ids faults ck st appointment_id reason :
  fresh_ids st ->
  fresh_ids (snd (call faults ck (cancel_appointment appointment_id reason)
                    st)).
Proof.
  intros F.
  pose proof (cancel_appointment_outcome faults ck st appointment_id reason)
    as O.
  destruct (call faults ck _ st) as [r st']. cbn [snd].
  destruct r as [| |e]; [|destruct O as [_ ->]; exact F|rewrite O; exact F].
  destruct O as [a [_ ->]]. destruct F as [ND Lt]. unfold fresh_ids.
  cbn [rows with_rows cancel_writes view fold_left apply_write appointments
       appointments_id_seq].
  assert (Ids : forall l : list appointment,
             List.map a_id
               (List.map (set_cancelled appointment_id CANCELLED (now ck)
                            reason) l)
             = List.map a_id l).
  { intros l. rewrite map_map. apply map_ext. intros x.
    apply set_cancelled_id. }
  rewrite Ids. split; [exact ND|].
  intros x Hx. apply in_map_iff in Hx. destruct Hx as [y [<- Hy]].
  rewrite set_cancelled_id. now apply Lt.
Qed.

(** Property X1.
    I1 over a history: from a store in which every slot is free, every
    sequence of bookings and cancellations keeps I1 as long as no
    cancellation is aimed at an appointment that is already CANCELLED. *)
Theorem I1_kept_while_cancels_find_confirmed :
  forall qs st,
    fresh_ids st ->
    all_free (rows st) ->
    cancels_confirmed qs st ->
    I1 (rows (serve_all qs st)).
Proof.
  intros qs st F A. apply all_free_I1 in A. revert st F A.
  induction qs as [|[ck q] qs IH]; intros st F Inv C; [exact Inv|].
  destruct C as [T C]. unfold serve_all. cbn [fold_left].
  apply IH; [| |exact C]; destruct q; cbn [serve].
  - now apply book_keeps_fresh_ids.
  - now apply cancel_keeps_fresh_ids.
  - now apply book_keeps_I1.
  - now apply cancel_confirmed_keeps_I1.
Qed.

(** * Further properties of the database functions *)

(** ** Histories *)

Lemma I1_kept_while_cancels_find_confirmed_witness :
  I1 (rows Sample.rebooked).
Proof.
  refine (I1_kept_while_cancels_find_confirmed
            [(Sample.at_time 1000, Sample.book_request Sample.maria 101);
             (Sample.at_time 2000, Cancel 1 (PStr "patient request"));
             (Sample.at_time 3000, Sample.book_request Sample.joao 101)]
            Sample.empty _ _ _).
  - split; [constructor|intros a []].
  - intros s [<-|[<-|[]]]; split; reflexivity.
  - repeat split.
Defined.

Lemma book_keeps_unique_cpfs faults ck st patient_data doctor_id slot_id
    clinic_id insurance_type insurance_plan_id :
  unique_cpfs (rows st) ->
  unique_cpfs (rows (snd (call faults ck
                            (create_appointment patient_data doctor_id
                               slot_id clinic_id insurance_type
                               insurance_plan_id) st))).
Proof.
  intros U.
  pose proof (create_appointment_outcome faults ck st patient_data doctor_id
                slot_id clinic_id insurance_type insurance_plan_id) as O.
  destruct (call faults ck _ st) as [r st']. cbn [snd].
  destruct r as [id| |e]; [|destruct O as [_ ->]; exact U|rewrite O; exact U].
  destruct O as [_ [_ R]].
  destruct (booked_rows ck st patient_data doctor_id slot_id clinic_id
              insurance_type insurance_plan_id) as [_ [P _]].
  rewrite <- R in P. clear R. intros cpf. rewrite P. unfold resolve.
  destruct (find_patient (rows st) (dict_get patient_data "cpf"))
    as [p|] eqn:F; cbn [snd view fold_left]; [apply U|].
  cbn [apply_write patients]. rewrite filter_app, length_app.
  cbn [filter].
  destruct (has_cpf cpf (created_patient (patients_id_seq st) patient_data))
    eqn:H; cbn [List.length]; [|specialize (U cpf); lia].
  unfold has_cpf, cpf_matches, created_patient in H. cbn [p_cpf] in H.
  destruct (dict_get patient_data "cpf") as [|k] eqn:K; [discriminate|].
  apply String.eqb_eq in H. subst k.
  unfold find_patient in F. apply find_none_filter in F.
  assert (F' : filter (has_cpf cpf) (patients (rows st)) = []) by exact F.
  rewrite F'. cbn. lia.
Qed.

Lemma cancel_keeps_patients faults ck st appointment_id reason :
  patients (rows (snd (call faults ck
                         (cancel_appointment appointment_id reason) st)))
  = patients (rows st).
Proof.
  pose proof (cancel_appointment_outcome faults ck st appointment_id reason)
    as O.
  destruct (call faults ck _ st) as [r st']. cbn [snd].
  destruct r as [| |e]; [|destruct O as [_ ->]; reflexivity
                         |rewrite O; reflexivity].
  destruct O as [a [_ ->]]. reflexivity.
Qed.

(** Property X2.
    Over every history of bookings and cancellations, under whatever
    storage failures, no identity key comes to be carried by two patient
    rows. *)
Theorem identity_keys_stay_unique :
  forall qs st,
    unique_cpfs (rows st) ->
    unique_cpfs (rows (serve_each qs st)).
Proof.
  induction qs as [|[[faults ck] q] qs IH]; intros st U; [exact U|].
  unfold serve_each. cbn [fold_left]. apply IH. destruct q; cbn [serve].
  - now apply book_keeps_unique_cpfs.
  - intros cpf. rewrite cancel_keeps_patients. apply U.
Qed.

Lemma identity_keys_stay_unique_witness :
  unique_cpfs
    (rows (serve_each
             [(no_fault, Sample.at_time 1000,
               Sample.book_request Sample.maria 101);
              (Sample.insert_fails, Sample.at_time 2000,
               Sample.book_request Sample.joao 102);
              (no_fault, Sample.at_time 3000,
               Sample.book_request Sample.maria_again 102)]
             Sample.empty)).
Proof.
  apply identity_keys_stay_unique. intros cpf. cbn. lia.
Defined.

(** Property X3.
    Over every history, appointment ids stay distinct and below the next
    value of their sequence. *)
Theorem appointment_ids_stay_distinct :
  forall qs st,
    fresh_ids st ->
    fresh_ids (serve_each qs st).
Proof.
  induction qs as [|[[faults ck] q] qs IH]; intros st F; [exact F|].
  unfold serve_each. cbn [fold_left]. apply IH. destruct q; cbn [serve].
  - now apply book_keeps_fresh_ids.
  - now apply cancel_keeps_fresh_ids.
Qed.

Lemma appointment_ids_stay_distinct_witness :
  fresh_ids
    (serve_each
       [(no_fault, Sample.at_time 1000, Sample.book_request Sample.maria 101);
        (Sample.insert_fails, Sample.at_time 2000,
         Sample.book_request Sample.joao 102);
        (no_fault, Sample.at_time 3000, Cancel 1 PNone)]
       Sample.empty).
Proof.
  apply appointment_ids_stay_distinct.
  split; [constructor|intros a []].
Defined.

(** Property X4.
    The id a booking returns names one appointment row, the one the
    booking made. *)
Theorem booked_id_names_one_row :
  forall faults ck st patient_data doctor_id slot_id clinic_id insurance_type
         insurance_plan_id id st',
    fresh_ids st ->
    call faults ck
      (create_appointment patient_data doctor_id slot_id clinic_id
         insurance_type insurance_plan_id) st = (Booked id, st') ->
    filter (has_id id) (appointments (rows st'))
    = [created_appointment ck st patient_data doctor_id slot_id clinic_id
         insurance_type insurance_plan_id] /\
    filter (has_id id) (appointments (rows st)) = [].
Proof.
  intros faults ck st patient_data doctor_id slot_id clinic_id insurance_type
    insurance_plan_id id st' [_ Lt] E.
  pose proof (create_appointment_outcome faults ck st patient_data doctor_id
                slot_id clinic_id insurance_type insurance_plan_id) as O.
  rewrite E in O. destruct O as [_ [Id R]].
  destruct (booked_rows ck st patient_data doctor_id slot_id clinic_id
              insurance_type insurance_plan_id) as [BA _].
  rewrite <- R in BA.
  assert (Old : filter (has_id id) (appointments (rows st)) = []).
  { apply find_none_filter. destruct (find _ _) as [a|] eqn:F; [|reflexivity].
    apply find_some in F. destruct F as [Ha Hid].
    unfold has_id in Hid. apply Z.eqb_eq in Hid.
    specialize (Lt a Ha). lia. }
  split; [|exact Old].
  rewrite BA, filter_app, Old. cbn [app filter].
  unfold has_id, created_appointment at 1. cbn [a_id].
  now rewrite Id, Z.eqb_refl.
Qed.

Lemma booked_id_names_one_row_witness :
  filter (has_id 1)
    (appointments
       (rows (snd (call no_fault (Sample.at_time 1000)
                     (Sample.book Sample.maria 101) Sample.empty))))
  = [created_appointment (Sample.at_time 1000) Sample.empty Sample.maria 7
       101 (PStr "C1") PNone None].
Proof.
  refine (proj1 (booked_id_names_one_row no_fault (Sample.at_time 1000)
                   Sample.empty Sample.maria 7 101 (PStr "C1") PNone None 1
                   _ _ _)).
  - split; [constructor|intros a []].
  - reflexivity.
Defined.

(** ** One call *)

(** Property X5.
    A cancellation is all or nothing under every storage failure.  When
    it reports success, the appointment it found is CANCELLED with the
    time and the reason of the call, the flag of its slot is set on every
    row of that slot, and nothing else is written; in every other case
    the store is what it was. *)
Theorem cancel_is_all_or_nothing :
  forall faults ck st appointment_id reason,
    let '(r, st') :=
      call faults ck (cancel_appointment appointment_id reason) st in
    match r with
    | Cancelled =>
        exists a,
          find_appointment (rows st) appointment_id = Some a /\
          appointments (rows st')
          = List.map (set_cancelled appointment_id CANCELLED (now ck) reason)
              (appointments (rows st)) /\
          find_appointment (rows st') appointment_id
          = Some (mk_appointment (a_id a) (a_patient_id a) (a_doctor_id a)
                    (a_clinic_id a) (a_slot_id a) (a_appointment_datetime a)
                    (a_insurance_type a) (a_insurance_plan_id a) CANCELLED
                    (a_created_at a) (a_confirmed_at a) (Some (now ck))
                    reason) /\
          available_slots (rows st')
          = List.map (set_available (a_slot_id a) true)
              (available_slots (rows st)) /\
          patients (rows st') = patients (rows st)
    | _ => st' = st
    end.
Proof.
  intros faults ck st appointment_id reason.
  pose proof (cancel_appointment_outcome faults ck st appointment_id reason)
    as O.
  destruct (call faults ck _ st) as [r st'].
  destruct r as [| |e]; [|tauto|exact O].
  destruct O as [a [FA ->]]. exists a. split; [exact FA|].
  cbn [rows with_rows cancel_writes view fold_left].
  split; [reflexivity|]. split; [|split; reflexivity].
  change (find_appointment
            (apply_write (rows st)
               (WCancelled appointment_id CANCELLED (now ck) reason))
            appointment_id = Some (mk_appointment (a_id a) (a_patient_id a)
              (a_doctor_id a) (a_clinic_id a) (a_slot_id a)
              (a_appointment_datetime a) (a_insurance_type a)
              (a_insurance_plan_id a) CANCELLED (a_created_at a)
              (a_confirmed_at a) (Some (now ck)) reason)).
  rewrite find_appointment_updated, FA. cbn [option_map].
  unfold set_cancelled.
  now rewrite (find_appointment_id _ _ _ FA), Z.eqb_refl.
Qed.

(** Property X6.
    Once a slot has been booked, a further booking of it is refused, for
    whatever patient: no booking of the slot succeeds and none changes a
    row, and with a storage layer that answers the result is "slot
    unavailable". *)
Theorem booked_slot_is_refused_next :
  forall f1 ck1 st data1 doctor1 slot_id clinic1 ins1 plan1 id1 st1
         f2 ck2 data2 doctor2 clinic2 ins2 plan2,
    call f1 ck1
      (create_appointment data1 doctor1 slot_id clinic1 ins1 plan1) st
    = (Booked id1, st1) ->
    let again :=
      create_appointment data2 doctor2 slot_id clinic2 ins2 plan2 in
    (forall id2, fst (call f2 ck2 again st1) <> Booked id2) /\
    rows (snd (call f2 ck2 again st1)) = rows st1 /\
    fst (call no_fault ck2 again st1) = SlotUnavailable.
Proof.
  intros f1 ck1 st data1 doctor1 slot_id clinic1 ins1 plan1 id1 st1
    f2 ck2 data2 doctor2 clinic2 ins2 plan2 E again.
  pose proof (create_appointment_outcome f1 ck1 st data1 doctor1 slot_id
                clinic1 ins1 plan1) as O1.
  rewrite E in O1. destruct O1 as [C [_ R]].
  assert (Held : claimable (rows st1) slot_id = false).
  { destruct (booked_rows ck1 st data1 doctor1 slot_id clinic1 ins1 plan1)
      as [_ [_ [_ H]]].
    rewrite <- R in H. unfold claimable in C.
    destruct (find_slot (rows st) slot_id) as [s|] eqn:FS; [|discriminate].
    now apply H with (s := s). }
  pose proof (create_appointment_outcome f2 ck2 st1 data2 doctor2 slot_id
                clinic2 ins2 plan2) as O2.
  fold again in O2.
  destruct (call f2 ck2 again st1) as [r2 st2]. cbn [fst snd].
  split; [|split].
  - intros id2 ->. destruct O2 as [O2 _]. congruence.
  - destruct r2 as [id2| |e]; [destruct O2 as [O2 _]; congruence|tauto|
                               exact O2].
  - unfold again. now rewrite create_appointment_result, Held.
Qed.

Lemma booked_slot_is_refused_next_witness :
  let st1 := snd (call no_fault (Sample.at_time 1000)
                    (Sample.book Sample.maria 101) Sample.empty) in
  fst (call no_fault (Sample.at_time 2000) (Sample.book Sample.joao 101) st1)
  = SlotUnavailable.
Proof.
  intros st1.
  refine (proj2 (proj2 (booked_slot_is_refused_next no_fault
                          (Sample.at_time 1000) Sample.empty Sample.maria 7
                          101 (PStr "C1") PNone None 1 st1 no_fault
                          (Sample.at_time 2000) Sample.joao 7 (PStr "C1")
                          PNone None _))).
  reflexivity.
Defined.

Lemma free_slot_has_no_confirmed t slot_id :
  I1 t -> claimable t slot_id = true -> confirmed_for t slot_id = [].
Proof.
  intros Inv C. unfold claimable in C.
  destruct (find_slot t slot_id) as [s0|] eqn:FS; [|discriminate].
  cbn in C. pose proof (find_slot_id _ _ _ FS) as Id.
  unfold find_slot in FS. apply find_some in FS. destruct FS as [In0 _].
  destruct (Inv s0 In0) as [_ [_ H]]. rewrite Id in H.
  destruct (confirmed_for_nil_or_not t slot_id) as [E|E]; [exact E|].
  apply H in E. congruence.
Qed.

(** Property X7.
    What a successful booking leaves, from a store that satisfies I1:
    the slot is held, its one CONFIRMED appointment is the new one, which
    is dated with the date and time of the slot and references the
    patient the identity key resolves to. *)
Theorem booking_confirms_one_appointment :
  forall faults ck st patient_data doctor_id slot_id clinic_id insurance_type
         insurance_plan_id id st',
    I1 (rows st) ->
    call faults ck
      (create_appointment patient_data doctor_id slot_id clinic_id
         insurance_type insurance_plan_id) st = (Booked id, st') ->
    exists b s,
      confirmed_for (rows st') slot_id = [b] /\
      a_id b = id /\
      find_slot (rows st) slot_id = Some s /\
      a_appointment_datetime b = Some (s_date s, s_time s) /\
      a_patient_id b = fst (resolve st patient_data) /\
      a_doctor_id b = doctor_id /\
      claimable (rows st') slot_id = false.
Proof.
  intros faults ck st patient_data doctor_id slot_id clinic_id insurance_type
    insurance_plan_id id st' Inv E.
  pose proof (create_appointment_outcome faults ck st patient_data doctor_id
                slot_id clinic_id insurance_type insurance_plan_id) as O.
  rewrite E in O. destruct O as [C [Id R]].
  destruct (booked_rows ck st patient_data doctor_id slot_id clinic_id
              insurance_type insurance_plan_id) as [BA [_ [_ BC]]].
  rewrite <- R in BA, BC.
  pose proof (free_slot_has_no_confirmed _ _ Inv C) as Free.
  unfold claimable in C.
  destruct (find_slot (rows st) slot_id) as [s|] eqn:FS; [|discriminate].
  eexists. exists s. split; [|split; [|split; [reflexivity|]]].
  - unfold confirmed_for in *. rewrite BA, filter_app, Free.
    cbn [app filter]. unfold confirmed_on, created_appointment at 1.
    cbn [a_slot_id a_status status_eqb]. rewrite Z.eqb_refl. reflexivity.
  - unfold created_appointment. cbn [a_id]. now symmetry.
  - unfold created_appointment.
    cbn [a_appointment_datetime a_patient_id a_doctor_id]. rewrite FS.
    repeat split. now apply BC with (s := s).
Qed.

Lemma booking_confirms_one_appointment_witness :
  exists b,
    confirmed_for
      (rows (snd (call no_fault (Sample.at_time 1000)
                    (Sample.book Sample.maria 101) Sample.empty))) 101
    = [b] /\
    a_appointment_datetime b = Some (20, 32400).
Proof.
  destruct (booking_confirms_one_appointment no_fault (Sample.at_time 1000)
              Sample.empty Sample.maria 7 101 (PStr "C1") PNone None 1
              (snd (call no_fault (Sample.at_time 1000)
                      (Sample.book Sample.maria 101) Sample.empty)))
    as [b [s [H1 [_ [H3 [H4 _]]]]]].
  - apply all_free_I1. intros s [<-|[<-|[]]]; split; reflexivity.
  - reflexivity.
  - exists b. split; [exact H1|].
    rewrite H4. injection H3 as <-. reflexivity.
Defined.

(** ** Searching, the other way round *)

Lemma like_any_all s : Text.like_match [Text.LAny] s = true.
Proof.
  induction s as [|c s IH]; rewrite TextFacts.like_any_unfold;
    [reflexivity|].
  rewrite IH. apply orb_true_r.
Qed.

Lemma like_literal_here t ts rest :
  Text.like_match ts rest = true ->
  Text.like_match (Text.literal t ++ ts) (t ++ rest)%string = true.
Proof.
  intros H. induction t as [|c t IH]; cbn [Text.literal app append];
    [exact H|].
  cbn [Text.like_match]. now rewrite Ascii.eqb_refl, IH.
Qed.

(** A text that contains [t] is matched by the pattern around [t]. *)
Lemma occurs_like_pattern t s :
  Text.occurs_in t s ->
  Text.like_match (Text.LAny :: Text.literal t ++ [Text.LAny]) s = true.
Proof.
  intros [pre [post ->]]. induction pre as [|c pre IH];
    rewrite TextFacts.like_any_unfold; cbn [append].
  - rewrite like_literal_here; [reflexivity|apply like_any_all].
  - rewrite IH. apply orb_true_r.
Qed.

Lemma in_availability_join_intro t c d a :
  In c (clinics t) -> In d (doctors t) -> In a (available_slots t) ->
  d_clinic_id d = c_id c -> s_doctor_id a = d_id d ->
  s_clinic_id a = c_id c ->
  In (c, d, a) (availability_join t).
Proof.
  intros Hc Hd Ha E1 E2 E3. unfold availability_join.
  apply in_flat_map. exists c. split; [exact Hc|].
  apply in_flat_map. exists d. split; [exact Hd|].
  rewrite E1, String.eqb_refl.
  apply in_flat_map. exists a. split; [exact Ha|].
  rewrite E2, E3, Z.eqb_refl, String.eqb_refl. left. reflexivity.
Qed.

Lemma filter_length_le {A : Type} (p q : A -> bool) (l : list A) :
  (forall x, p x = true -> q x = true) ->
  (List.length (filter p l) <= List.length (filter q l))%nat.
Proof.
  intros H. induction l as [|x l IH]; cbn [filter]; [lia|].
  destruct (p x) eqn:P.
  - rewrite (H x P). cbn. lia.
  - destruct (q x); cbn; lia.
Qed.

Lemma length_insert_sorted {A : Type} (leb : A -> A -> bool) x l :
  List.length (insert_sorted leb x l) = S (List.length l).
Proof.
  induction l as [|y l IH]; cbn [insert_sorted]; [reflexivity|].
  destruct (leb x y); cbn [List.length]; [reflexivity|now rewrite IH].
Qed.

Lemma length_order_by {A : Type} (leb : A -> A -> bool) l :
  List.length (order_by leb l) = List.length l.
Proof.
  induction l as [|x l IH]; cbn [order_by fold_right]; [reflexivity|].
  fold (order_by leb l). now rewrite length_insert_sorted, IH.
Qed.

(** Property X9.
    The search finds what is there.  For a text without wildcards, with a
    storage layer that answers, and when the slots open for booking fit a
    page, every open slot of a doctor whose trimmed specialty contains the
    text, letter case aside, is among the rows returned. *)
Theorem search_finds_matching_slots :
  forall ck st specialty c d a,
    Text.plain specialty = true ->
    (List.length (filter (open_slot (today ck))
                    (availability_join (rows st))) <= 20)%nat ->
    In c (clinics (rows st)) -> In d (doctors (rows st)) ->
    In a (available_slots (rows st)) ->
    d_clinic_id d = c_id c -> s_doctor_id a = d_id d ->
    s_clinic_id a = c_id c ->
    s_is_available a = true ->
    today ck <= s_date a ->
    Text.occurs_in (Text.lower specialty)
      (Text.lower (Text.trim (d_specialty d))) ->
    In (availability_of c d a)
      (fst (call no_fault ck (search_specialty_availability specialty) st)).
Proof.
  intros ck st specialty c d a P Few Hc Hd Ha E1 E2 E3 Av Day Occ.
  unfold_calls. do 2 carry. unfold select_availability.
  rewrite (TextFacts.like_tokens_pattern specialty P).
  cbn [bind run]. carry. cbn [fst].
  set (ts := Text.LAny :: Text.literal (Text.lower specialty)
                           ++ [Text.LAny]).
  set (found := filter (availability_where ts (today ck))
                  (availability_join (rows st))).
  assert (Hin : In (c, d, a) found).
  { apply filter_In. split; [now apply in_availability_join_intro|].
    unfold availability_where. rewrite Av, (proj2 (Z.leb_le _ _) Day).
    unfold ts. now rewrite occurs_like_pattern. }
  assert (Len : (List.length (order_by by_slot found) <= page_size)%nat).
  { rewrite length_order_by. unfold found, page_size.
    eapply Nat.le_trans; [|exact Few].
    apply filter_length_le. intros [[c0 d0] a0] W.
    unfold availability_where in W. unfold open_slot. cbn [snd].
    apply andb_true_iff in W. destruct W as [W W3].
    apply andb_true_iff in W. destruct W as [_ W2]. now rewrite W2, W3. }
  rewrite (firstn_all2 _ Len).
  apply in_map_iff. exists (c, d, a). split; [reflexivity|].
  now apply in_order_by.
Qed.

Lemma search_finds_matching_slots_witness :
  In (availability_of Sample.clinic1 Sample.doctor7 Sample.slot102)
    (fst (call no_fault (Sample.at_time 1000)
            (search_specialty_availability "DIO") Sample.empty)).
Proof.
  apply (search_finds_matching_slots (Sample.at_time 1000) Sample.empty "DIO"
           Sample.clinic1 Sample.doctor7 Sample.slot102); try reflexivity.
  - cbn. lia.
  - left. reflexivity.
  - left. reflexivity.
  - right. left. reflexivity.
  - cbn. lia.
  - exists "car", "logia". reflexivity.
Defined.

(** ** Reading an appointment back *)

Lemma hd_error_in {A : Type} (l : list A) (x : A) :
  hd_error l = Some x -> In x l.
Proof. destruct l; cbn; [discriminate|]. intros H. injection H. auto. Qed.

(** The row the appointment query returns joins an appointment of that id
    with a clinic of the table. *)
Lemma select_details_row t appointment_id row :
  select_details t appointment_id = Some row ->
  exists a p d c,
    In a (appointments t) /\ a_id a = appointment_id /\
    In c (clinics t) /\ row = details_of a p d c.
Proof.
  unfold select_details. intros H. apply hd_error_in in H.
  apply in_flat_map in H. destruct H as [a [Ha H]].
  apply in_flat_map in H. destruct H as [p [_ H]].
  apply in_flat_map in H. destruct H as [d [_ H]].
  apply in_map_iff in H. destruct H as [c [<- Hc]].
  apply filter_In in Ha. destruct Ha as [Ha Ia].
  apply filter_In in Hc. destruct Hc as [Hc _].
  exists a, p, d, c. repeat split; auto. now apply Z.eqb_eq.
Qed.

(** With clinic ids that are not decimal numbers, the reader finds
    nothing: the row is fetched and lost in the conversion of its ids. *)
Lemma details_need_a_numeric_clinic_id faults ck st appointment_id :
  (forall c, In c (clinics (rows st)) -> py_int (c_id c) = inl ValueError) ->
  call faults ck (get_appointment_by_id appointment_id) st = (None, st).
Proof.
  intros H. unfold_calls.
  answer; [reflexivity|]. answer; [reflexivity|].
  destruct (select_details (rows st) appointment_id) as [row|] eqn:S;
    [|reflexivity].
  destruct (select_details_row _ _ _ S) as [a [p [d [c [_ [_ [Hc ->]]]]]]].
  unfold to_result_dict, raise. cbn [dt_clinic_id details_of].
  rewrite (H c Hc). reflexivity.
Qed.

(** Property X10.
    When no clinic has an id that reads as an integer (clinic ids are
    UUIDs), [get_appointment_by_id] returns [None] for every id, also for
    the appointments that exist, whatever the storage layer does. *)
Theorem reader_returns_none_without_numeric_clinic_ids :
  forall faults ck st appointment_id,
    (forall c, In c (clinics (rows st)) ->
               py_int (c_id c) = inl ValueError) ->
    call faults ck (get_appointment_by_id appointment_id) st = (None, st).
Proof.
  intros faults ck st appointment_id H.
  now apply details_need_a_numeric_clinic_id.
Qed.

Lemma reader_returns_none_without_numeric_clinic_ids_witness :
  find_appointment (rows Sample.rebooked) 2 <> None /\
  call no_fault (Sample.at_time 4000) (get_appointment_by_id 2)
    Sample.rebooked
  = (None, Sample.rebooked).
Proof.
  split; [discriminate|].
  apply reader_returns_none_without_numeric_clinic_ids.
  intros c [<-|[]]. reflexivity.
Defined.

(** The rows a committed booking is read back from: the one appointment
    row of the returned id, the doctors and clinics as they were, and the
    patient row it references. *)
Lemma booked_id_rows faults ck st patient_data doctor_id slot_id clinic_id
    insurance_type insurance_plan_id id st' :
  fresh_ids st ->
  call faults ck
    (create_appointment patient_data doctor_id slot_id clinic_id
       insurance_type insurance_plan_id) st = (Booked id, st') ->
  let b := created_appointment ck st patient_data doctor_id slot_id
             clinic_id insurance_type insurance_plan_id in
  filter (has_id id) (appointments (rows st')) = [b] /\
  (doctors (rows st') = doctors (rows st) /\
   clinics (rows st') = clinics (rows st)) /\
  (exists p, In p (patients (rows st')) /\
             p_id p = fst (resolve st patient_data)) /\
  id = appointments_id_seq st.
Proof.
  intros [_ Lt] E b.
  pose proof (create_appointment_outcome faults ck st patient_data doctor_id
                slot_id clinic_id insurance_type insurance_plan_id) as O.
  rewrite E in O. destruct O as [_ [Id R]].
  destruct (booked_rows ck st patient_data doctor_id slot_id clinic_id
              insurance_type insurance_plan_id) as [BA [BP _]].
  rewrite <- R in BA, BP. fold b in BA.
  assert (Old : filter (has_id id) (appointments (rows st)) = []).
  { apply find_none_filter. destruct (find _ _) as [a|] eqn:F; [|reflexivity].
    apply find_some in F. destruct F as [Ha Hid].
    unfold has_id in Hid. apply Z.eqb_eq in Hid.
    specialize (Lt a Ha). lia. }
  split; [|split; [|split; [|exact Id]]].
  - rewrite BA, filter_app, Old. cbn [app filter].
    unfold has_id, b, created_appointment at 1. cbn [a_id].
    now rewrite Id, Z.eqb_refl.
  - rewrite R. unfold booking_writes. rewrite view_app.
    cbn [view fold_left apply_write doctors clinics]. unfold resolve.
    destruct (find_patient _ _); split; reflexivity.
  - rewrite BP. unfold resolve.
    destruct (find_patient (rows st) (dict_get patient_data "cpf"))
      as [p|] eqn:FP; cbn [fst snd view fold_left].
    + exists p. split; [|reflexivity].
      unfold find_patient in FP. apply find_some in FP. tauto.
    + eexists. split; [cbn [apply_write patients]; apply in_or_app; right;
                       left; reflexivity|reflexivity].
Qed.

Lemma filter_first {A : Type} (p : A -> bool) (l : list A) (x : A) :
  In x l -> p x = true ->
  exists y r, filter p l = y :: r /\ In y l /\ p y = true.
Proof.
  intros Hx Px.
  destruct (filter p l) as [|y r] eqn:F.
  - assert (I : In x (filter p l)) by (apply filter_In; auto).
    rewrite F in I. destruct I.
  - exists y, r. split; [reflexivity|].
    assert (I : In y (filter p l)) by (rewrite F; now left).
    apply filter_In in I. exact I.
Qed.

(** Property X11.
    Booking, then reading: when the clinic id given to the booking reads
    as an integer and the doctor and the clinic are on file, the id a
    booking returns reads back as the CONFIRMED appointment of that
    doctor, slot and clinic, the clinic id as an integer. *)
Theorem booked_appointment_reads_back :
  forall faults ck st patient_data doctor_id slot_id k insurance_type
         insurance_plan_id id st' ck' n d c,
    fresh_ids st ->
    truthy (PStr k) = true ->
    py_int (Text.strip k) = inr n ->
    In d (doctors (rows st)) -> d_id d = doctor_id ->
    In c (clinics (rows st)) -> c_id c = Text.strip k ->
    call faults ck
      (create_appointment patient_data doctor_id slot_id (PStr k)
         insurance_type insurance_plan_id) st = (Booked id, st') ->
    exists dt,
      call no_fault ck' (get_appointment_by_id id) st' = (Some dt, st') /\
      dt_id _ dt = id /\
      dt_status _ dt = CONFIRMED /\
      dt_doctor_id _ dt = doctor_id /\
      dt_slot_id _ dt = slot_id /\
      dt_clinic_id _ dt = n /\
      dt_patient_id _ dt = fst (resolve st patient_data).
Proof.
  intros faults ck st patient_data doctor_id slot_id k insurance_type
    insurance_plan_id id st' ck' n d c F T N Hd Ed Hc Ec E.
  destruct (booked_id_rows faults ck st patient_data doctor_id slot_id
              (PStr k) insurance_type insurance_plan_id id st' F E)
    as [Only [Tb [Pt Jn]]].
  set (b := created_appointment ck st patient_data doctor_id slot_id
              (PStr k) insurance_type insurance_plan_id) in *.
  destruct Pt as [p [Hp Ip]].
  destruct (filter_first (fun p => Z.eqb (a_patient_id b) (p_id p))
              (patients (rows st')) p Hp)
    as [p1 [rp [Fp _]]]; [now rewrite Ip, Z.eqb_refl|].
  destruct Tb as [Dsame Csame].
  destruct (filter_first (fun d => Z.eqb (a_doctor_id b) (d_id d))
              (doctors (rows st')) d)
    as [d1 [rd [Fd _]]];
    [now rewrite Dsame|unfold b, created_appointment; cbn [a_doctor_id];
                       now rewrite Ed, Z.eqb_refl|].
  destruct (filter_first (clinic_id_matches (a_clinic_id b))
              (clinics (rows st')) c)
    as [c1 [rc [Fc [_ Mc]]]];
    [now rewrite Csame
    |unfold b, created_appointment, stripped_clinic_id;
     cbn [a_clinic_id]; rewrite T; cbn [py_str clinic_id_matches];
     now rewrite Ec, String.eqb_refl|].
  assert (Sel : select_details (rows st') id = Some (details_of b p1 d1 c1)).
  { unfold select_details. fold (has_id id). rewrite Only.
    cbn [flat_map]. rewrite app_nil_r, Fp. cbn [flat_map].
    rewrite Fd. cbn [flat_map]. rewrite Fc. reflexivity. }
  assert (Cid : c_id c1 = Text.strip k).
  { unfold b, created_appointment, stripped_clinic_id in Mc.
    cbn [a_clinic_id] in Mc. rewrite T in Mc.
    cbn [py_str clinic_id_matches] in Mc.
    apply String.eqb_eq in Mc. now symmetry. }
  eexists. split.
  - unfold_calls. do 2 carry. rewrite Sel. cbn [bind run].
    unfold to_result_dict, ret. cbn [dt_clinic_id details_of].
    rewrite Cid, N. cbn [bind run]. carry. reflexivity.
  - cbn. unfold b, created_appointment. cbn.
    repeat split. now symmetry.
Qed.

Lemma booked_appointment_reads_back_witness :
  let st' := snd (call no_fault (Sample.at_time 1000)
                    (create_appointment Sample.maria 9 201 (PStr " 42 ")
                       PNone None) Sample2.empty) in
  exists dt,
    call no_fault (Sample.at_time 2000) (get_appointment_by_id 1) st'
    = (Some dt, st') /\
    dt_status _ dt = CONFIRMED /\
    dt_clinic_id _ dt = 42.
Proof.
  intros st'.
  destruct (booked_appointment_reads_back no_fault (Sample.at_time 1000)
              Sample2.empty Sample.maria 9 201 " 42 " PNone None 1 st'
              (Sample.at_time 2000) 42 Sample2.doctor9 Sample2.clinic42)
    as [dt [R [_ [S [_ [_ [C _]]]]]]];
    try reflexivity.
  - split; [constructor|intros a []].
  - left. reflexivity.
  - left. reflexivity.
  - exists dt. auto.
Defined.

(** * Properties of the tools *)

(** ** Text the tools handle *)

Lemma length_remove_char c s :
  (String.length (remove_char c s) <= String.length s)%nat.
Proof.
  induction s as [|d s IH]; cbn [remove_char String.length]; [lia|].
  destruct (Ascii.eqb d c); cbn [String.length]; lia.
Qed.

Lemma length_lstrip sp s :
  (String.length (Text.lstrip sp s) <= String.length s)%nat.
Proof.
  induction s as [|d s IH]; cbn [Text.lstrip String.length]; [lia|].
  destruct (sp d); cbn [String.length]; lia.
Qed.

Lemma length_rstrip sp s :
  (String.length (Text.rstrip sp s) <= String.length s)%nat.
Proof.
  induction s as [|d s IH]; cbn [Text.rstrip String.length]; [lia|].
  destruct (Text.rstrip sp s) as [|e r]; [destruct (sp d)|];
    cbn [String.length] in *; lia.
Qed.

Lemma length_strip s :
  (String.length (Text.strip s) <= String.length s)%nat.
Proof.
  unfold Text.strip.
  eapply Nat.le_trans; [apply length_rstrip|apply length_lstrip].
Qed.

(** A CPF of fewer than 11 characters is not valid. *)
Lemma validate_cpf_short cpf :
  (String.length cpf < 11)%nat -> validate_cpf cpf = false.
Proof.
  intros H. unfold validate_cpf.
  destruct (String.eqb cpf ""); [reflexivity|].
  apply andb_false_iff. left. apply Nat.eqb_neq.
  pose proof (length_strip (remove_char "-" (remove_char "." cpf))).
  pose proof (length_remove_char "-" (remove_char "." cpf)).
  pose proof (length_remove_char "." cpf).
  lia.
Qed.

(** What a valid CPF is: stripped of dots, dashes and surrounding blanks,
    eleven digits. *)
Lemma validate_cpf_digits cpf :
  validate_cpf cpf = true ->
  let digits := Text.strip (remove_char "-" (remove_char "." cpf)) in
  String.length digits = 11%nat /\ all_digits digits = true.
Proof.
  unfold validate_cpf. destruct (String.eqb cpf ""); [discriminate|].
  intros H. apply andb_true_iff in H. destruct H as [L D].
  apply Nat.eqb_eq in L. split; [exact L|].
  unfold py_isdigit in D.
  destruct (Text.strip _); [discriminate|exact D].
Qed.

Lemma lstrip_map sp f s :
  (forall c, sp (f c) = sp c) ->
  Text.lstrip sp (Text.map f s) = Text.map f (Text.lstrip sp s).
Proof.
  intros H. induction s as [|c s IH]; cbn [Text.map Text.lstrip];
    [reflexivity|].
  rewrite H. destruct (sp c); [exact IH|reflexivity].
Qed.

Lemma rstrip_map sp f s :
  (forall c, sp (f c) = sp c) ->
  Text.rstrip sp (Text.map f s) = Text.map f (Text.rstrip sp s).
Proof.
  intros H. induction s as [|c s IH]; cbn [Text.map Text.rstrip];
    [reflexivity|].
  rewrite IH, H.
  destruct (Text.rstrip sp s); cbn [Text.map]; [|reflexivity].
  destruct (sp c); reflexivity.
Qed.

Lemma to_upper_space c : Text.py_space (Text.to_upper c) = Text.py_space c.
Proof. destruct c as [[] [] [] [] [] [] [] []]; reflexivity. Qed.

Lemma to_upper_twice c : Text.to_upper (Text.to_upper c) = Text.to_upper c.
Proof. destruct c as [[] [] [] [] [] [] [] []]; reflexivity. Qed.

(** Stripping and upper-casing in either order give the same text. *)
Lemma strip_upper s :
  Text.strip (Text.upper s) = Text.upper (Text.strip s).
Proof.
  unfold Text.strip, Text.upper.
  rewrite lstrip_map, rstrip_map by apply to_upper_space. reflexivity.
Qed.

Lemma upper_upper s : Text.upper (Text.upper s) = Text.upper s.
Proof.
  unfold Text.upper. induction s as [|c s IH]; cbn [Text.map];
    [reflexivity|].
  now rewrite to_upper_twice, IH.
Qed.

Lemma upper_empty s : Text.upper s = "" -> s = "".
Proof. destruct s; [reflexivity|discriminate]. Qed.

(** The text the tool settles on is an enumeration label, and the
    category it stands for is the one the database derives from the value
    as typed. *)
Lemma tool_insurance_type_agrees v :
  normalize_insurance_type (PStr (tool_insurance_type v))
  = tool_insurance_type v /\
  insurance_of (PStr (tool_insurance_type v)) = insurance_of v.
Proof.
  assert (Fix : forall t, py_in t valid_types = true ->
                          normalize_insurance_type (PStr t) = t).
  { intros t H. unfold py_in, valid_types in H. cbn [existsb] in H.
    apply orb_true_iff in H. destruct H as [H|H].
    - apply String.eqb_eq in H. subst t. reflexivity.
    - apply orb_true_iff in H. destruct H as [H|H]; [|discriminate].
      apply String.eqb_eq in H. subst t. reflexivity. }
  assert (Norm : normalize_insurance_type (PStr (tool_insurance_type v))
                 = tool_insurance_type v).
  { unfold tool_insurance_type.
    destruct (truthy v); [|reflexivity].
    destruct (truthy (PStr _)); [|reflexivity]. cbn [py_str].
    destruct (py_in _ valid_types) eqn:M; [now apply Fix|reflexivity]. }
  split; [exact Norm|].
  unfold insurance_of. rewrite Norm.
  unfold tool_insurance_type, normalize_insurance_type.
  destruct (truthy v); [|reflexivity].
  rewrite strip_upper. cbn [truthy py_str].
  destruct (String.eqb_spec (Text.upper (Text.strip (py_str v))) "")
    as [Z|NZ]; cbn [negb].
  - rewrite Z. reflexivity.
  - rewrite upper_upper. reflexivity.
Qed.

(** ** [schedule_appointment] *)

Section Scheduling.

Variable datetime : Type.
Variable strptime : string -> string -> option datetime.
Variable strftime : datetime -> string -> string.

(** The tool, step by step: either a check fails and the store is not
    touched, or every check has passed and the result is that of the
    booking, followed on success by that of the reader. *)
Lemma schedule_appointment_steps booking_env reading_env patient_name
    patient_cpf patient_date_of_birth doctor_id slot_id clinic_id
    patient_email patient_phone insurance_type insurance_plan_id st :
  let '(r, st') :=
    schedule_appointment datetime strptime strftime booking_env reading_env
      patient_name patient_cpf patient_date_of_birth doctor_id slot_id
      clinic_id patient_email patient_phone insurance_type insurance_plan_id
      st in
  let checked :=
    validate_cpf (stripped_or_empty patient_cpf) = true /\
    validate_date_of_birth datetime strptime
      (stripped_or_empty patient_date_of_birth) = true /\
    (3 <= String.length (stripped_or_empty patient_name))%nat /\
    doctor_id <> 0 /\ slot_id <> 0 /\ truthy clinic_id = true in
  let booked :=
    call (fst booking_env) (snd booking_env)
      (create_appointment
         (request_of datetime strptime strftime patient_name patient_cpf patient_date_of_birth
            patient_email patient_phone insurance_type)
         doctor_id slot_id (stripped_or_none clinic_id)
         (PStr (tool_insurance_type insurance_type)) insurance_plan_id) st in
  match r with
  | Scheduled id appointment_details =>
      checked /\
      fst booked = Booked id /\
      call (fst reading_env) (snd reading_env) (get_appointment_by_id id)
        (snd booked)
      = (appointment_details, st')
  | NotScheduled result =>
      checked /\ booked = (result, st') /\ forall id, result <> Booked id
  | _ => st' = st /\ ~ checked
  end.
Proof.
  unfold schedule_appointment.
  destruct (validate_cpf (stripped_or_empty patient_cpf)) eqn:V1;
    cbn [negb]; [|split; [reflexivity|intros [H _]; discriminate]].
  destruct (validate_date_of_birth datetime strptime
              (stripped_or_empty patient_date_of_birth)) eqn:V2;
    cbn [negb]; [|split; [reflexivity|intros [_ [H _]]; discriminate]].
  destruct (String.eqb_spec (stripped_or_empty patient_name) "") as [N0|N0];
    cbn [orb].
  { split; [reflexivity|]. intros [_ [_ [H _]]]. rewrite N0 in H.
    cbn in H. lia. }
  destruct (Nat.ltb_spec (String.length (stripped_or_empty patient_name)) 3)
    as [N3|N3].
  { split; [reflexivity|]. intros [_ [_ [H _]]]. lia. }
  destruct (Z.eqb_spec doctor_id 0) as [D|D]; cbn [negb andb].
  { split; [reflexivity|]. intros [_ [_ [_ [H _]]]]. contradiction. }
  destruct (Z.eqb_spec slot_id 0) as [S|S]; cbn [negb andb].
  { split; [reflexivity|]. intros [_ [_ [_ [_ [H _]]]]]. contradiction. }
  destruct (truthy clinic_id) eqn:C; cbn [negb].
  2:{ split; [reflexivity|]. intros [_ [_ [_ [_ [_ H]]]]]. discriminate. }
  fold (tool_insurance_type insurance_type).
  fold (request_of datetime strptime strftime patient_name patient_cpf patient_date_of_birth
          patient_email patient_phone insurance_type).
  destruct (call (fst booking_env) (snd booking_env) _ st) as [result st1].
  destruct result as [id| |e].
  - destruct (call (fst reading_env) (snd reading_env) _ st1) as [dt st2]
      eqn:R2.
    cbn [fst snd]. repeat split; auto.
  - repeat split; auto; discriminate.
  - repeat split; auto; discriminate.
Qed.

(** Property X12.
    The tool checks before it books: a call that reaches the database
    has passed every check, and a call refused by a check leaves the
    store as it was. *)
Theorem schedule_appointment_checks_first :
  forall booking_env reading_env patient_name patient_cpf
         patient_date_of_birth doctor_id slot_id clinic_id patient_email
         patient_phone insurance_type insurance_plan_id st,
    let '(r, st') :=
      schedule_appointment datetime strptime strftime booking_env
        reading_env patient_name patient_cpf patient_date_of_birth doctor_id
        slot_id clinic_id patient_email patient_phone insurance_type
        insurance_plan_id st in
    match r with
    | Scheduled _ _ | NotScheduled _ =>
        (let digits := Text.strip (stored_cpf patient_cpf) in
         String.length digits = 11%nat /\ all_digits digits = true) /\
        validate_date_of_birth datetime strptime
          (stripped_or_empty patient_date_of_birth) = true /\
        (3 <= String.length (stripped_or_empty patient_name))%nat /\
        doctor_id <> 0 /\ slot_id <> 0 /\ truthy clinic_id = true
    | _ => st' = st
    end.
Proof.
  intros.
  pose proof (schedule_appointment_steps booking_env reading_env patient_name
                patient_cpf patient_date_of_birth doctor_id slot_id clinic_id
                patient_email patient_phone insurance_type insurance_plan_id
                st) as T.
  destruct (schedule_appointment _ _ _ _ _ _ _ _ _ _ _ _ _ _ _ _)
    as [r st'].
  cbv zeta in T.
  destruct r; try (destruct T as [T _]; exact T);
    destruct T as [[V R] _]; (split; [|exact R]);
    exact (validate_cpf_digits _ V).
Qed.

(** Property X13.
    A CPF of fewer than 11 characters is refused as such, before any
    other check and without a request to the database. *)
Theorem short_cpf_is_refused :
  forall booking_env reading_env patient_name patient_cpf
         patient_date_of_birth doctor_id slot_id clinic_id patient_email
         patient_phone insurance_type insurance_plan_id st,
    (String.length (stripped_or_empty patient_cpf) < 11)%nat ->
    schedule_appointment datetime strptime strftime booking_env reading_env
      patient_name patient_cpf patient_date_of_birth doctor_id slot_id
      clinic_id patient_email patient_phone insurance_type insurance_plan_id
      st
    = (InvalidCpf (stripped_or_empty patient_cpf), st).
Proof.
  intros. unfold schedule_appointment.
  now rewrite validate_cpf_short.
Qed.

End Scheduling.

Lemma short_cpf_is_refused_witness :
  schedule_appointment string Sample2.iso_only Sample2.same_text Sample2.fine
    Sample2.fine (PStr "Maria Silva") (PStr " 123 ") (PStr "1990-03-15") 9
    201 (PStr "42") PNone PNone PNone None Sample2.empty
  = (InvalidCpf "123", Sample2.empty).
Proof.
  apply (short_cpf_is_refused string Sample2.iso_only Sample2.same_text).
  apply Nat.ltb_lt. reflexivity.
Defined.

Lemma create_keeps_clinics faults ck st patient_data doctor_id slot_id
    clinic_id insurance_type insurance_plan_id :
  clinics (rows (snd (call faults ck
                        (create_appointment patient_data doctor_id slot_id
                           clinic_id insurance_type insurance_plan_id) st)))
  = clinics (rows st).
Proof.
  pose proof (create_appointment_outcome faults ck st patient_data doctor_id
                slot_id clinic_id insurance_type insurance_plan_id) as O.
  destruct (call faults ck _ st) as [r st']. cbn [snd].
  destruct r as [id| |e]; [|destruct O as [_ ->]; reflexivity
                           |now rewrite O].
  destruct O as [_ [_ ->]]. unfold booking_writes. rewrite view_app.
  unfold resolve. destruct (find_patient _ _); reflexivity.
Qed.

Section Scheduled.

Variable datetime : Type.
Variable strptime : string -> string -> option datetime.
Variable strftime : datetime -> string -> string.

(** A scheduling that succeeds leaves an appointment row of the id it
    returns. *)
Lemma scheduled_appointment_row_exists booking_env reading_env patient_name
    patient_cpf patient_date_of_birth doctor_id slot_id clinic_id
    patient_email patient_phone insurance_type insurance_plan_id st id dt
    st' :
  schedule_appointment datetime strptime strftime booking_env reading_env
    patient_name patient_cpf patient_date_of_birth doctor_id slot_id
    clinic_id patient_email patient_phone insurance_type insurance_plan_id
    st
  = (Scheduled id dt, st') ->
  exists b, In b (appointments (rows st')) /\ a_id b = id.
Proof.
  intros E.
  pose proof (schedule_appointment_steps datetime strptime strftime
                booking_env reading_env patient_name patient_cpf
                patient_date_of_birth doctor_id slot_id clinic_id
                patient_email patient_phone insurance_type insurance_plan_id
                st) as T.
  rewrite E in T. cbv zeta in T. destruct T as [_ [B R]].
  set (data := request_of datetime strptime strftime patient_name
                 patient_cpf patient_date_of_birth patient_email
                 patient_phone insurance_type) in *.
  pose proof (create_appointment_outcome (fst booking_env) (snd booking_env)
                st data doctor_id slot_id (stripped_or_none clinic_id)
                (PStr (tool_insurance_type insurance_type))
                insurance_plan_id) as O.
  pose proof (get_appointment_by_id_reads_only (fst reading_env)
                (snd reading_env)
                (snd (call (fst booking_env) (snd booking_env)
                        (create_appointment data doctor_id slot_id
                           (stripped_or_none clinic_id)
                           (PStr (tool_insurance_type insurance_type))
                           insurance_plan_id) st)) id) as Same.
  rewrite R in Same. cbn [snd] in Same.
  destruct (call (fst booking_env) (snd booking_env) _ st) as [r st1].
  cbn [fst snd] in *. subst r st1. destruct O as [_ [Id O]].
  destruct (booked_rows (snd booking_env) st data doctor_id slot_id
              (stripped_or_none clinic_id)
              (PStr (tool_insurance_type insurance_type)) insurance_plan_id)
    as [BA _].
  rewrite <- O in BA.
  eexists. split; [rewrite BA; apply in_or_app; right; left; reflexivity|].
  unfold created_appointment. cbn [a_id]. now symmetry.
Qed.

(** Property X14.
    The patient row a scheduling creates.  When the tool reports success
    and no patient had the stored identity key, one patient row is added:
    its key is the CPF as typed without dots and dashes, its e-mail
    address is the one typed or, when none is, [paciente_] followed by the
    CPF as typed, its telephone number is the one typed or empty, and its
    insurance category is the one the database derives from the value as
    typed. *)
Theorem scheduled_patient_row :
  forall booking_env reading_env patient_name patient_cpf
         patient_date_of_birth doctor_id slot_id clinic_id patient_email
         patient_phone insurance_type insurance_plan_id st id dt st',
    schedule_appointment datetime strptime strftime booking_env reading_env
      patient_name patient_cpf patient_date_of_birth doctor_id slot_id
      clinic_id patient_email patient_phone insurance_type insurance_plan_id
      st
    = (Scheduled id dt, st') ->
    find_patient (rows st) (PStr (stored_cpf patient_cpf)) = None ->
    patients (rows st')
    = patients (rows st)
      ++ [mk_patient (patients_id_seq st)
            (PStr (stripped_or_empty patient_name))
            (PStr (stored_cpf patient_cpf))
            (convert_date_to_iso datetime strptime strftime
               (stripped_or_empty patient_date_of_birth))
            (if String.eqb (stripped_or_empty patient_email) ""
             then "paciente_" ++ stripped_or_empty patient_cpf
                  ++ "@clinica.com"
             else stripped_or_empty patient_email)%string
            (stripped_or_empty patient_phone)
            (insurance_of insurance_type)].
Proof.
  intros booking_env reading_env patient_name patient_cpf
    patient_date_of_birth doctor_id slot_id clinic_id patient_email
    patient_phone insurance_type insurance_plan_id st id dt st' E New.
  pose proof (schedule_appointment_steps datetime strptime strftime
                booking_env reading_env patient_name patient_cpf
                patient_date_of_birth doctor_id slot_id clinic_id
                patient_email patient_phone insurance_type insurance_plan_id
                st) as T.
  rewrite E in T. cbv zeta in T. destruct T as [_ [B R]].
  set (data := request_of datetime strptime strftime patient_name
                 patient_cpf patient_date_of_birth patient_email
                 patient_phone insurance_type) in *.
  pose proof (create_appointment_outcome (fst booking_env) (snd booking_env)
                st data doctor_id slot_id (stripped_or_none clinic_id)
                (PStr (tool_insurance_type insurance_type))
                insurance_plan_id) as O.
  pose proof (get_appointment_by_id_reads_only (fst reading_env)
                (snd reading_env)
                (snd (call (fst booking_env) (snd booking_env)
                        (create_appointment data doctor_id slot_id
                           (stripped_or_none clinic_id)
                           (PStr (tool_insurance_type insurance_type))
                           insurance_plan_id) st)) id) as Same.
  rewrite R in Same. cbn [snd] in Same.
  destruct (call (fst booking_env) (snd booking_env) _ st) as [r st1].
  cbn [fst snd] in *. subst r st1. destruct O as [_ [_ O]].
  destruct (booked_rows (snd booking_env) st data doctor_id slot_id
              (stripped_or_none clinic_id)
              (PStr (tool_insurance_type insurance_type)) insurance_plan_id)
    as [_ [P _]].
  rewrite <- O in P. rewrite P. unfold resolve.
  assert (K : dict_get data "cpf" = PStr (stored_cpf patient_cpf))
    by reflexivity.
  rewrite K, New. cbn [snd view fold_left apply_write patients].
  do 2 f_equal. unfold created_patient. rewrite K.
  assert (I : dict_get_default data "insurance_type" (PStr "PARTICULAR")
              = PStr (tool_insurance_type insurance_type)) by reflexivity.
  rewrite I, (proj2 (tool_insurance_type_agrees insurance_type)).
  assert (Em : dict_get data "email"
               = PStr (py_or (PStr (stripped_or_empty patient_email))
                         ("paciente_" ++ stripped_or_empty patient_cpf
                          ++ "@clinica.com")%string)) by reflexivity.
  assert (Ph : dict_get data "phone"
               = PStr (py_or (PStr (stripped_or_empty patient_phone)) ""))
    by reflexivity.
  rewrite Em, Ph.
  change (dict_get data "name") with (PStr (stripped_or_empty patient_name)).
  change (dict_get data "date_of_birth")
    with (convert_date_to_iso datetime strptime strftime
            (stripped_or_empty patient_date_of_birth)).
  f_equal.
  - unfold py_or. cbn [truthy py_str].
    destruct (String.eqb (stripped_or_empty patient_email) "") eqn:Z;
      cbn [negb truthy py_str]; [reflexivity|].
    rewrite Z. reflexivity.
  - unfold py_or. cbn [truthy py_str].
    destruct (String.eqb_spec (stripped_or_empty patient_phone) "") as [Z|NZ];
      cbn [negb]; [now rewrite Z|].
    apply String.eqb_neq in NZ. now rewrite NZ.
Qed.

(** Property X15.
    The appointment row a scheduling creates: it has the id the tool
    returns, is CONFIRMED for the doctor and slot asked for, and carries
    the insurance category the database derives from the value as typed,
    the same as the new patient row. *)
Theorem scheduled_appointment_row :
  forall booking_env reading_env patient_name patient_cpf
         patient_date_of_birth doctor_id slot_id clinic_id patient_email
         patient_phone insurance_type insurance_plan_id st id dt st',
    schedule_appointment datetime strptime strftime booking_env reading_env
      patient_name patient_cpf patient_date_of_birth doctor_id slot_id
      clinic_id patient_email patient_phone insurance_type insurance_plan_id
      st
    = (Scheduled id dt, st') ->
    exists b,
      In b (appointments (rows st')) /\
      a_id b = id /\
      a_status b = CONFIRMED /\
      a_doctor_id b = doctor_id /\
      a_slot_id b = slot_id /\
      a_insurance_type b = insurance_of insurance_type /\
      a_insurance_plan_id b = insurance_plan_id /\
      claimable (rows st') slot_id = false.
Proof.
  intros booking_env reading_env patient_name patient_cpf
    patient_date_of_birth doctor_id slot_id clinic_id patient_email
    patient_phone insurance_type insurance_plan_id st id dt st' E.
  pose proof (schedule_appointment_steps datetime strptime strftime
                booking_env reading_env patient_name patient_cpf
                patient_date_of_birth doctor_id slot_id clinic_id
                patient_email patient_phone insurance_type insurance_plan_id
                st) as T.
  rewrite E in T. cbv zeta in T. destruct T as [_ [B R]].
  set (data := request_of datetime strptime strftime patient_name
                 patient_cpf patient_date_of_birth patient_email
                 patient_phone insurance_type) in *.
  pose proof (create_appointment_outcome (fst booking_env) (snd booking_env)
                st data doctor_id slot_id (stripped_or_none clinic_id)
                (PStr (tool_insurance_type insurance_type))
                insurance_plan_id) as O.
  pose proof (get_appointment_by_id_reads_only (fst reading_env)
                (snd reading_env)
                (snd (call (fst booking_env) (snd booking_env)
                        (create_appointment data doctor_id slot_id
                           (stripped_or_none clinic_id)
                           (PStr (tool_insurance_type insurance_type))
                           insurance_plan_id) st)) id) as Same.
  rewrite R in Same. cbn [snd] in Same.
  destruct (call (fst booking_env) (snd booking_env) _ st) as [r st1].
  cbn [fst snd] in *. subst r st1. destruct O as [C [Id O]].
  destruct (booked_rows (snd booking_env) st data doctor_id slot_id
              (stripped_or_none clinic_id)
              (PStr (tool_insurance_type insurance_type)) insurance_plan_id)
    as [BA [_ [_ BC]]].
  rewrite <- O in BA, BC.
  eexists. split; [rewrite BA; apply in_or_app; right; left; reflexivity|].
  unfold created_appointment.
  cbn [a_id a_status a_doctor_id a_slot_id a_insurance_type
       a_insurance_plan_id].
  rewrite (proj2 (tool_insurance_type_agrees insurance_type)).
  repeat split; [now symmetry|].
  unfold claimable in C.
  destruct (find_slot (rows st) slot_id) as [s|] eqn:FS; [|discriminate].
  now apply BC with (s := s).
Qed.

(** Property X16.
    With clinic ids that do not read as integers, a scheduling that
    succeeds returns no details: the appointment is booked, and the
    reader gives [None]. *)
Theorem scheduled_details_need_numeric_clinic_ids :
  forall booking_env reading_env patient_name patient_cpf
         patient_date_of_birth doctor_id slot_id clinic_id patient_email
         patient_phone insurance_type insurance_plan_id st id dt st',
    (forall c, In c (clinics (rows st)) ->
               py_int (c_id c) = inl ValueError) ->
    schedule_appointment datetime strptime strftime booking_env reading_env
      patient_name patient_cpf patient_date_of_birth doctor_id slot_id
      clinic_id patient_email patient_phone insurance_type insurance_plan_id
      st
    = (Scheduled id dt, st') ->
    dt = None /\ find_appointment (rows st') id <> None.
Proof.
  intros booking_env reading_env patient_name patient_cpf
    patient_date_of_birth doctor_id slot_id clinic_id patient_email
    patient_phone insurance_type insurance_plan_id st id dt st' H E.
  split.
  - pose proof (schedule_appointment_steps datetime strptime strftime
                  booking_env reading_env patient_name patient_cpf
                  patient_date_of_birth doctor_id slot_id clinic_id
                  patient_email patient_phone insurance_type
                  insurance_plan_id st) as T.
    rewrite E in T. cbv zeta in T. destruct T as [_ [_ R]].
    rewrite details_need_a_numeric_clinic_id in R; [congruence|].
    now rewrite create_keeps_clinics.
  - destruct (scheduled_appointment_row_exists booking_env reading_env
                patient_name patient_cpf patient_date_of_birth doctor_id
                slot_id clinic_id patient_email patient_phone insurance_type
                insurance_plan_id st id dt st' E) as [b [Hb Ib]].
    unfold find_appointment. intros N. apply find_none_filter in N.
    assert (I : In b (filter (fun a => Z.eqb (a_id a) id)
                        (appointments (rows st'))))
      by (apply filter_In; split; [exact Hb|now apply Z.eqb_eq]).
    rewrite N in I. destruct I.
Qed.

End Scheduled.

Lemma scheduled_patient_row_witness :
  let '(r, st') :=
    schedule_appointment string Sample2.iso_only Sample2.same_text
      Sample2.fine Sample2.fine (PStr "Maria Silva")
      (PStr " 123.456.789-00") (PStr "1990-03-15") 9 201 (PStr "42") PNone
      PNone (PStr "health_plan ") None Sample2.empty in
  (exists id dt, r = Scheduled id dt) /\
  patients (rows st')
  = [mk_patient 1 (PStr "Maria Silva") (PStr "12345678900")
       (PStr "1990-03-15") "paciente_123.456.789-00@clinica.com" ""
       HEALTH_PLAN].
Proof.
  destruct (schedule_appointment string Sample2.iso_only Sample2.same_text
              Sample2.fine Sample2.fine (PStr "Maria Silva")
              (PStr " 123.456.789-00") (PStr "1990-03-15") 9 201 (PStr "42")
              PNone PNone (PStr "health_plan ") None Sample2.empty)
    as [r st'] eqn:E.
  assert (H : exists id dt, r = Scheduled id dt).
  { apply (f_equal fst) in E. cbn [fst] in E. rewrite <- E.
    vm_compute. do 2 eexists. reflexivity. }
  destruct H as [id [dt ->]]. split; [eauto|].
  rewrite (scheduled_patient_row string Sample2.iso_only Sample2.same_text
             _ _ _ _ _ _ _ _ _ _ _ _ _ _ _ _ E eq_refl).
  reflexivity.
Defined.

Lemma scheduled_appointment_row_witness :
  let '(r, st') :=
    schedule_appointment string Sample2.iso_only Sample2.same_text
      Sample2.fine Sample2.fine (PStr "Maria Silva")
      (PStr " 123.456.789-00") (PStr "1990-03-15") 9 201 (PStr "42") PNone
      PNone (PStr "health_plan ") None Sample2.empty in
  exists b,
    In b (appointments (rows st')) /\
    a_insurance_type b = HEALTH_PLAN /\
    claimable (rows st') 201 = false.
Proof.
  destruct (schedule_appointment string Sample2.iso_only Sample2.same_text
              Sample2.fine Sample2.fine (PStr "Maria Silva")
              (PStr " 123.456.789-00") (PStr "1990-03-15") 9 201 (PStr "42")
              PNone PNone (PStr "health_plan ") None Sample2.empty)
    as [r st'] eqn:E.
  assert (H : exists id dt, r = Scheduled id dt).
  { apply (f_equal fst) in E. cbn [fst] in E. rewrite <- E.
    vm_compute. do 2 eexists. reflexivity. }
  destruct H as [id [dt ->]].
  destruct (scheduled_appointment_row string Sample2.iso_only
              Sample2.same_text _ _ _ _ _ _ _ _ _ _ _ _ _ _ _ _ E)
    as [b [Hb [_ [_ [_ [_ [I [_ C]]]]]]]].
  exists b. split; [exact Hb|]. split; [exact I|exact C].
Defined.

Lemma scheduled_details_need_numeric_clinic_ids_witness :
  let '(r, st') :=
    schedule_appointment string Sample2.iso_only Sample2.same_text
      Sample2.fine Sample2.fine (PStr "Maria Silva") (PStr "12345678900")
      (PStr "1990-03-15") 7 101 (PStr "C1") PNone PNone PNone None
      Sample.empty in
  r = Scheduled 1 None /\ find_appointment (rows st') 1 <> None.
Proof.
  destruct (schedule_appointment string Sample2.iso_only Sample2.same_text
              Sample2.fine Sample2.fine (PStr "Maria Silva")
              (PStr "12345678900") (PStr "1990-03-15") 7 101 (PStr "C1")
              PNone PNone PNone None Sample.empty)
    as [r st'] eqn:E.
  assert (H : exists dt, r = Scheduled 1 dt).
  { apply (f_equal fst) in E. cbn [fst] in E. rewrite <- E.
    vm_compute. eexists. reflexivity. }
  destruct H as [dt ->].
  destruct (scheduled_details_need_numeric_clinic_ids string
              Sample2.iso_only Sample2.same_text _ _ _ _ _ _ _ _ _ _ _ _ _
              _ _ _
              (fun c (H : In c (clinics (rows Sample.empty))) =>
                 match H with
                 | or_introl e => f_equal (fun c => py_int (c_id c)) (eq_sym e)
                 | or_intror f => match f with end
                 end) E) as [D F].
  subst dt. split; [reflexivity|exact F].
Defined.

(** ** [schedule_search] *)

(** The search, whatever happens to it: its rows are at most a page, and
    the store is as it was. *)
Lemma search_page faults ck specialty st :
  exists l,
    call faults ck (search_specialty_availability specialty) st = (l, st) /\
    (List.length l <= 20)%nat.
Proof.
  unfold_calls.
  answer; [exists []; split; [reflexivity|cbn; lia]|].
  answer; [exists []; split; [reflexivity|cbn; lia]|].
  destruct (select_availability (rows st) (today ck)
              ("%" ++ specialty ++ "%")) as [l|] eqn:S; cbn [bind run].
  - destruct (select_availability_rows _ _ _ _ S) as [_ [_ L]].
    exists l. split; [reflexivity|exact L].
  - exists []. split; [reflexivity|cbn; lia].
Qed.

(** Property X17.
    What [schedule_search] reports.  A blank specialty is refused; a
    success names the specialty as stripped, and its count is the number
    of rows it carries, between 1 and 20; in every case the store is as
    it was. *)
Theorem schedule_search_reply :
  forall faults ck specialty st,
    let '(r, st') := schedule_search faults ck specialty st in
    st' = st /\
    match r with
    | SearchInvalid => stripped_or_empty specialty = ""
    | SearchNotFound s => s = stripped_or_empty specialty /\ s <> ""
    | SearchFound s total_results data =>
        s = stripped_or_empty specialty /\ s <> "" /\
        total_results = List.length data /\
        (1 <= total_results <= 20)%nat /\
        data = fst (call faults ck (search_specialty_availability s) st)
    end.
Proof.
  intros faults ck specialty st. unfold schedule_search.
  destruct (String.eqb_spec (stripped_or_empty specialty) "") as [Z|NZ];
    [split; [reflexivity|exact Z]|].
  destruct (search_page faults ck (stripped_or_empty specialty) st)
    as [results [E L]].
  rewrite E. cbn [fst].
  destruct results as [|x l]; [repeat split; auto|].
  repeat split; auto; cbn [List.length] in *; try lia.
  now rewrite E.
Qed.

(** Property X18.
    A storage failure reads as no availability: when the connection or
    the query fails, [schedule_search] answers "not found", as it does
    when nothing matches. *)
Theorem search_outage_reads_as_not_found :
  forall (faults : fault_plan) ck specialty st,
    stripped_or_empty specialty <> "" ->
    faults unit Connect = true \/
    faults _ (SelectAvailability
                ("%" ++ stripped_or_empty specialty ++ "%")%string) = true ->
    schedule_search faults ck specialty st
    = (SearchNotFound (stripped_or_empty specialty), st).
Proof.
  intros faults ck specialty st NZ F. unfold schedule_search.
  apply String.eqb_neq in NZ. rewrite NZ.
  unfold_calls.
  answer; [reflexivity|]. answer; [reflexivity|].
  destruct F; congruence.
Qed.

Lemma search_outage_reads_as_not_found_witness :
  schedule_search (fun _ _ => true) (Sample.at_time 1000) (PStr " cardio ")
    Sample.empty
  = (SearchNotFound "cardio", Sample.empty) /\
  schedule_search no_fault (Sample.at_time 1000) (PStr "neuro") Sample.empty
  = (SearchNotFound "neuro", Sample.empty).
Proof.
  split; [|reflexivity].
  apply (search_outage_reads_as_not_found (fun _ _ => true)
           (Sample.at_time 1000) (PStr " cardio ") Sample.empty).
  - discriminate.
  - left. reflexivity.
Defined.

(** ** [cancel_appointment_tool] *)

(** Property X19.
    Cancelling through the tool, with a storage layer that answers: an
    appointment of a non-zero id that is on file ends CANCELLED at the
    time of the call, its reason the text given, stripped, or NULL when
    none is given, and its slot is released. *)
Theorem tool_cancel_records_reason :
  forall ck st appointment_id reason a,
    appointment_id <> 0 ->
    find_appointment (rows st) appointment_id = Some a ->
    let '(r, st') :=
      cancel_appointment_tool no_fault ck appointment_id reason st in
    r = CancelReply Cancelled /\
    (exists a',
       find_appointment (rows st') appointment_id = Some a' /\
       a_status a' = CANCELLED /\
       a_cancelled_at a' = Some (now ck) /\
       a_cancellation_reason a' = stripped_or_none reason) /\
    available_slots (rows st')
    = List.map (set_available (a_slot_id a) true) (available_slots (rows st)).
Proof.
  intros ck st appointment_id reason a NZ FA.
  unfold cancel_appointment_tool.
  apply Z.eqb_neq in NZ. rewrite NZ.
  pose proof (cancel_appointment_result ck st appointment_id
                (stripped_or_none reason)) as R.
  pose proof (cancel_appointment_outcome no_fault ck st appointment_id
                (stripped_or_none reason)) as O.
  destruct (call no_fault ck _ st) as [r st'].
  cbn [fst] in R. rewrite FA in R. subst r.
  destruct O as [a0 [FA0 ->]]. rewrite FA in FA0. injection FA0 as <-.
  split; [reflexivity|].
  cbn [rows with_rows cancel_writes view fold_left]. split; [|reflexivity].
  exists (set_cancelled appointment_id CANCELLED (now ck)
            (stripped_or_none reason) a).
  split.
  - change (find_appointment
              (apply_write (rows st)
                 (WCancelled appointment_id CANCELLED (now ck)
                    (stripped_or_none reason)))
              appointment_id
            = Some (set_cancelled appointment_id CANCELLED (now ck)
                      (stripped_or_none reason) a)).
    now rewrite find_appointment_updated, FA.
  - unfold set_cancelled.
    rewrite (find_appointment_id _ _ _ FA), Z.eqb_refl. auto.
Qed.

Lemma tool_cancel_records_reason_witness :
  let st := snd (call no_fault (Sample.at_time 1000)
                   (Sample.book Sample.maria 101) Sample.empty) in
  let '(r, st') :=
    cancel_appointment_tool no_fault (Sample.at_time 2000) 1
      (PStr "  patient request ") st in
  r = CancelReply Cancelled /\
  option_map a_cancellation_reason (find_appointment (rows st') 1)
  = Some (PStr "patient request") /\
  claimable (rows st') 101 = true.
Proof.
  intros st.
  assert (H : exists a, find_appointment (rows st) 1 = Some a)
    by (eexists; reflexivity).
  destruct H as [a FA].
  pose proof (tool_cancel_records_reason (Sample.at_time 2000) st 1
                (PStr "  patient request ") a ltac:(discriminate) FA) as T.
  destruct (cancel_appointment_tool no_fault (Sample.at_time 2000) 1
              (PStr "  patient request ") st) as [r st'] eqn:E.
  destruct T as [T1 [[a' [F' [_ [_ Rs]]]] _]].
  split; [exact T1|]. split.
  - rewrite F'. cbn [option_map]. rewrite Rs. reflexivity.
  - apply (f_equal snd) in E. cbn [snd] in E. rewrite <- E. reflexivity.
Defined.
